(** * SQL-Tutor log feature extraction: events, submissions, extractors.

    A shallow embedding of [logevents.py], [submission.py], [features.py]
    and [extract.py].  Python objects become records, the class hierarchy
    of feature extractors becomes records of hooks over a shared base
    record, and a raised exception becomes the [Raise] branch of [result]. *)

From Stdlib Require Import ZArith List Bool String Ascii Lia.
Import ListNotations.
Local Open Scope Z_scope.

Set Implicit Arguments.

(** ** Exceptions and the error monad *)

Inductive exn : Type :=
| TypeError
| ValueError (msg : string)
| IndexError
| KeyError
| AttributeError
| AssertionError
| StatisticsError
| StopIteration.

Inductive result (A : Type) : Type :=
| Ok (a : A)
| Raise (e : exn).
Arguments Ok {A} a.
Arguments Raise {A} e.

Definition bind {A B : Type} (m : result A) (k : A -> result B) : result B :=
  match m with
  | Ok a => k a
  | Raise e => Raise e
  end.

Notation "x <- m ;; k" := (bind m (fun x => k))
  (at level 61, m at next level, right associativity).
Notation "' p <- m ;; k" := (bind m (fun x => let p := x in k))
  (at level 61, p pattern, m at next level, right associativity).

(** ** datetime

    Naive [datetime.datetime] values at second resolution.  A difference
    [(a - b).total_seconds()] is the distance on the proleptic Gregorian
    calendar, computed as CPython does through the day ordinal. *)

Record datetime : Type := mk_datetime {
  year : Z; month : Z; day : Z; hour : Z; minute : Z; second : Z
}.

Definition is_leap (y : Z) : bool :=
  (y mod 4 =? 0) && (negb (y mod 100 =? 0) || (y mod 400 =? 0)).

Definition days_before_year (y : Z) : Z :=
  let y := y - 1 in y * 365 + y / 4 - y / 100 + y / 400.

Definition days_in_month (y m : Z) : Z :=
  if (m =? 2) && is_leap y then 29
  else nth (Z.to_nat m) [0; 31; 28; 31; 30; 31; 30; 31; 31; 30; 31; 30; 31] 0.

Definition days_before_month (y m : Z) : Z :=
  nth (Z.to_nat m) [0; 0; 31; 59; 90; 120; 151; 181; 212; 243; 273; 304; 334] 0
  + (if (2 <? m) && is_leap y then 1 else 0).

Definition toordinal (d : datetime) : Z :=
  days_before_year (year d) + days_before_month (year d) (month d) + day d.

Definition dt_seconds (d : datetime) : Z :=
  toordinal d * 86400 + hour d * 3600 + minute d * 60 + second d.

(** [(a - b).total_seconds()] *)
Definition total_seconds (a b : datetime) : Z := dt_seconds a - dt_seconds b.

(** [a - b] where either operand may be [None]: Python raises [TypeError]. *)
Definition sub_seconds (a b : option datetime) : result Z :=
  match a, b with
  | Some x, Some y => Ok (total_seconds x y)
  | _, _ => Raise TypeError
  end.

(** ** Log events ([logevents.py])

    One constructor per registered event class, carrying the attributes
    its constructor extracts.  [NewUserEvent] is a subclass of
    [LoggedInEvent]. *)

Inductive event_kind : Type :=
| NewUserEvent
| StudentModelCreatedEvent
| DatabaseSetEvent (database : string)
| SetNewProblemEvent (help_level : Z)
| DatabaseChangeEvent (database : string) (problem : Z)
| DrawingProblemEvent (problem_id : Z) (problem_status : string)
| ClientRespondingEvent (problem_id : option Z) (problem_status : option string)
    (help_level : option Z) (feedback_level : option string)
| PreProcessEvent (solution : string)
| AnswerCorrectEvent
| HelpLevelSetEvent (help_level : Z)
| PostProcessEvent (satisfied_constraints violated_constraints : list Z)
    (feedback_level : Z)
| IncorrectFeedbackEvent (feedback : string)
| StudentModelMeasureEvent (measures : list Z)
| StudentModelCoverageEvent (coverage : list Z)
| DisplayingStudentModelEvent
| SessionEndEvent
| LoggedInEvent
| UnknownEvent.

Record LogEvent : Type := mk_event {
  timestamp : datetime;
  kind : event_kind
}.

Definition is_post_process (e : LogEvent) : bool :=
  match kind e with
  | PostProcessEvent _ _ _ => true
  | _ => false
  end.

(** ** Submissions ([submission.py]) *)

Record Submission : Type := mk_submission {
  database_changes : Z;
  violated_constraints : list Z;
  satisfied_constraints : list Z;
  problem_status : option string;
  begin_help_level : option Z;
  submit_help_level : option Z;
  begin_time : option datetime;
  submit_time : option datetime;
  solved : bool;
  problem_id : option Z;
  database : option string;
  model_measure_event : option LogEvent;
  begin_session : option datetime;
  end_session : option datetime;
  solution : option string
}.

(** [Submission.__init__] *)
Definition new_Submission : Submission :=
  {| database_changes := 0; violated_constraints := [];
     satisfied_constraints := []; problem_status := None;
     begin_help_level := None; submit_help_level := None;
     begin_time := None; submit_time := None; solved := false;
     problem_id := None; database := None; model_measure_event := None;
     begin_session := None; end_session := None; solution := None |}.

Definition set_solution v (s : Submission) : Submission :=
  {| database_changes := database_changes s;
     violated_constraints := violated_constraints s;
     satisfied_constraints := satisfied_constraints s;
     problem_status := problem_status s;
     begin_help_level := begin_help_level s;
     submit_help_level := submit_help_level s;
     begin_time := begin_time s; submit_time := submit_time s;
     solved := solved s; problem_id := problem_id s; database := database s;
     model_measure_event := model_measure_event s;
     begin_session := begin_session s; end_session := end_session s;
     solution := v |}.

Definition set_begin_time v (s : Submission) : Submission :=
  {| database_changes := database_changes s;
     violated_constraints := violated_constraints s;
     satisfied_constraints := satisfied_constraints s;
     problem_status := problem_status s;
     begin_help_level := begin_help_level s;
     submit_help_level := submit_help_level s;
     begin_time := v; submit_time := submit_time s;
     solved := solved s; problem_id := problem_id s; database := database s;
     model_measure_event := model_measure_event s;
     begin_session := begin_session s; end_session := end_session s;
     solution := solution s |}.

Definition set_problem_id v (s : Submission) : Submission :=
  {| database_changes := database_changes s;
     violated_constraints := violated_constraints s;
     satisfied_constraints := satisfied_constraints s;
     problem_status := problem_status s;
     begin_help_level := begin_help_level s;
     submit_help_level := submit_help_level s;
     begin_time := begin_time s; submit_time := submit_time s;
     solved := solved s; problem_id := v; database := database s;
     model_measure_event := model_measure_event s;
     begin_session := begin_session s; end_session := end_session s;
     solution := solution s |}.

Definition set_begin_session v (s : Submission) : Submission :=
  {| database_changes := database_changes s;
     violated_constraints := violated_constraints s;
     satisfied_constraints := satisfied_constraints s;
     problem_status := problem_status s;
     begin_help_level := begin_help_level s;
     submit_help_level := submit_help_level s;
     begin_time := begin_time s; submit_time := submit_time s;
     solved := solved s; problem_id := problem_id s; database := database s;
     model_measure_event := model_measure_event s;
     begin_session := v; end_session := end_session s;
     solution := solution s |}.

Definition set_end_session v (s : Submission) : Submission :=
  {| database_changes := database_changes s;
     violated_constraints := violated_constraints s;
     satisfied_constraints := satisfied_constraints s;
     problem_status := problem_status s;
     begin_help_level := begin_help_level s;
     submit_help_level := submit_help_level s;
     begin_time := begin_time s; submit_time := submit_time s;
     solved := solved s; problem_id := problem_id s; database := database s;
     model_measure_event := model_measure_event s;
     begin_session := begin_session s; end_session := v;
     solution := solution s |}.

Definition set_model_measure_event v (s : Submission) : Submission :=
  {| database_changes := database_changes s;
     violated_constraints := violated_constraints s;
     satisfied_constraints := satisfied_constraints s;
     problem_status := problem_status s;
     begin_help_level := begin_help_level s;
     submit_help_level := submit_help_level s;
     begin_time := begin_time s; submit_time := submit_time s;
     solved := solved s; problem_id := problem_id s; database := database s;
     model_measure_event := v;
     begin_session := begin_session s; end_session := end_session s;
     solution := solution s |}.

Definition option_string_eqb (a b : option string) : bool :=
  match a, b with
  | Some x, Some y => String.eqb x y
  | None, None => true
  | _, _ => false
  end.

Definition option_Z_eqb (a b : option Z) : bool :=
  match a, b with
  | Some x, Some y => x =? y
  | None, None => true
  | _, _ => false
  end.

(** [Submission.pre_process] *)
Definition pre_process (self : Submission) (solution : string) : Submission :=
  set_solution (Some solution) self.

(** [Submission.post_process] *)
Definition post_process (self : Submission) (ts : datetime)
    (satisfied violated : list Z) : Submission :=
  {| database_changes := database_changes self;
     violated_constraints := violated;
     satisfied_constraints := satisfied;
     problem_status := problem_status self;
     begin_help_level := begin_help_level self;
     submit_help_level := submit_help_level self;
     begin_time := begin_time self; submit_time := Some ts;
     solved := if (Z.of_nat (List.length violated) =? 0) then true else solved self;
     problem_id := problem_id self; database := database self;
     model_measure_event := model_measure_event self;
     begin_session := begin_session self; end_session := end_session self;
     solution := solution self |}.

(** [Submission.database_change]; [problem] is [Some] exactly when the
    event has a [problem] attribute ([DatabaseChangeEvent]). *)
Definition database_change (self : Submission) (ts : datetime)
    (db : string) (problem : option Z) : Submission :=
  let self :=
    if negb (option_string_eqb (Some db) (database self)) then
      {| database_changes := database_changes self + 1;
         violated_constraints := violated_constraints self;
         satisfied_constraints := satisfied_constraints self;
         problem_status := problem_status self;
         begin_help_level := begin_help_level self;
         submit_help_level := submit_help_level self;
         begin_time := begin_time self; submit_time := submit_time self;
         solved := solved self; problem_id := problem_id self;
         database := Some db;
         model_measure_event := model_measure_event self;
         begin_session := begin_session self;
         end_session := end_session self;
         solution := solution self |}
    else self in
  let self :=
    match begin_time self with
    | None => set_begin_time (Some ts) self
    | Some _ => self
    end in
  match problem with
  | Some p => set_problem_id (Some p) self
  | None => self
  end.

(** [Submission.client_response] *)
Definition client_response (self : Submission) (pid : option Z)
    (status : option string) (help : option Z) : Submission :=
  {| database_changes := database_changes self;
     violated_constraints := violated_constraints self;
     satisfied_constraints := satisfied_constraints self;
     problem_status := status;
     begin_help_level := begin_help_level self;
     submit_help_level := help;
     begin_time := begin_time self; submit_time := submit_time self;
     solved := solved self; problem_id := pid; database := database self;
     model_measure_event := model_measure_event self;
     begin_session := begin_session self; end_session := end_session self;
     solution := solution self |}.

(** [Submission.drawing_problem] *)
Definition drawing_problem (self : Submission) (ts : datetime) (pid : Z)
    : Submission :=
  set_problem_id (Some pid) (set_begin_time (Some ts) self).

(** [Submission.set_problem] *)
Definition set_problem (self : Submission) (ts : datetime) (help : Z)
    : Submission :=
  {| database_changes := database_changes self;
     violated_constraints := violated_constraints self;
     satisfied_constraints := satisfied_constraints self;
     problem_status := problem_status self;
     begin_help_level := Some help;
     submit_help_level := submit_help_level self;
     begin_time := Some ts; submit_time := submit_time self;
     solved := solved self; problem_id := problem_id self;
     database := database self;
     model_measure_event := model_measure_event self;
     begin_session := begin_session self; end_session := end_session self;
     solution := solution self |}.

(** [Submission.session_begin], [session_end], [model_measure] *)
Definition session_begin (self : Submission) (ts : datetime) : Submission :=
  set_begin_session (Some ts) self.

Definition session_end (self : Submission) (ts : datetime) : Submission :=
  set_end_session (Some ts) self.

Definition model_measure (self : Submission) (e : LogEvent) : Submission :=
  set_model_measure_event (Some e) self.

(** The loop state of [events_to_submissions]: the accumulator and the
    list of finished submissions. *)
Definition step_event (st : Submission * list Submission) (event : LogEvent)
    : Submission * list Submission :=
  let '(current_submission, submissions) := st in
  let ts := timestamp event in
  match kind event with
  | LoggedInEvent | NewUserEvent =>
      (session_begin current_submission ts, submissions)
  | SetNewProblemEvent help =>
      (set_problem current_submission ts help, submissions)
  | DatabaseSetEvent db =>
      (database_change current_submission ts db None, submissions)
  | DatabaseChangeEvent db problem =>
      (database_change current_submission ts db (Some problem), submissions)
  | DrawingProblemEvent pid _ =>
      (drawing_problem current_submission ts pid, submissions)
  | ClientRespondingEvent pid status help _ =>
      (client_response current_submission pid status help, submissions)
  | PreProcessEvent sol =>
      (pre_process current_submission sol, submissions)
  | PostProcessEvent satisfied violated _ =>
      (new_Submission,
       submissions ++ [post_process current_submission ts satisfied violated])
  | StudentModelMeasureEvent _ =>
      (model_measure current_submission event, submissions)
  | SessionEndEvent =>
      (session_end current_submission ts, submissions)
  | _ => (current_submission, submissions)
  end.

Definition events_loop (events : list LogEvent)
    (st : Submission * list Submission) : Submission * list Submission :=
  fold_left step_event events st.

Definition events_to_submissions (events : list LogEvent) : list Submission :=
  snd (events_loop events (new_Submission, [])).

(** ** Feature values ([features.py])

    An output cell is [None], a boolean or a number.  Numbers that the
    extractors compute themselves are integers or whole numbers of seconds
    ([VNum]).  The results of [statistics.mean] and [statistics.stdev] are
    kept symbolic, as the statistic applied to its data. *)

Inductive value : Type :=
| VNone
| VBool (b : bool)
| VNum (z : Z)
| VMean (data : list Z)
| VStdev (data : list Z).

Definition is_None (v : value) : bool :=
  match v with VNone => true | _ => false end.

Definition opt_num (o : option Z) : value :=
  match o with Some z => VNum z | None => VNone end.

(** The numeric reading of a cell, where Python has one ([bool] is a
    subclass of [int]). *)
Definition as_num (v : value) : option Z :=
  match v with
  | VNum z => Some z
  | VBool b => Some (Z.b2z b)
  | _ => None
  end.

Fixpoint as_nums (vs : list value) : option (list Z) :=
  match vs with
  | [] => Some []
  | v :: vs' =>
      match as_num v, as_nums vs' with
      | Some z, Some zs => Some (z :: zs)
      | _, _ => None
      end
  end.

(** [len(xs)] *)
Definition len {A : Type} (l : list A) : Z := Z.of_nat (List.length l).

(** [statistics.mean]: no data is a [StatisticsError]. *)
Definition py_mean (vs : list value) : result value :=
  match vs with
  | [] => Raise StatisticsError
  | _ => match as_nums vs with
         | Some zs => Ok (VMean zs)
         | None => Raise TypeError
         end
  end.

(** [statistics.stdev]: fewer than two data points is a [StatisticsError]. *)
Definition py_stdev (vs : list value) : result value :=
  match vs with
  | [] | [_] => Raise StatisticsError
  | _ => match as_nums vs with
         | Some zs => Ok (VStdev zs)
         | None => Raise TypeError
         end
  end.

(** [max(xs)] and [min(xs)] on a list of integers; empty is a [ValueError]. *)
Definition max_Z (zs : list Z) : result Z :=
  match zs with
  | [] => Raise (ValueError "max() arg is an empty sequence")
  | z :: zs' => Ok (fold_left Z.max zs' z)
  end.

Definition min_Z (zs : list Z) : result Z :=
  match zs with
  | [] => Raise (ValueError "min() arg is an empty sequence")
  | z :: zs' => Ok (fold_left Z.min zs' z)
  end.

(** [max(filter(lambda v: v is not None, values), default=None)] *)
Definition py_max_default (vs : list value) : result value :=
  match filter (fun v => negb (is_None v)) vs with
  | [] => Ok VNone
  | vs' => match as_nums vs' with
           | Some zs => z <- max_Z zs ;; Ok (VNum z)
           | None => Raise TypeError
           end
  end.

Definition py_min_default (vs : list value) : result value :=
  match filter (fun v => negb (is_None v)) vs with
  | [] => Ok VNone
  | vs' => match as_nums vs' with
           | Some zs => z <- min_Z zs ;; Ok (VNum z)
           | None => Raise TypeError
           end
  end.

(** [xs[0]] and [xs[-1]] *)
Definition py_first {A : Type} (xs : list A) : result A :=
  match xs with
  | [] => Raise IndexError
  | x :: _ => Ok x
  end.

Definition py_last {A : Type} (xs : list A) : result A :=
  match rev xs with
  | [] => Raise IndexError
  | x :: _ => Ok x
  end.

(** [del xs[i]] for [0 <= i] *)
Fixpoint py_del {A : Type} (i : nat) (xs : list A) : result (list A) :=
  match xs, i with
  | [], _ => Raise IndexError
  | _ :: xs', O => Ok xs'
  | x :: xs', S i' => r <- py_del i' xs' ;; Ok (x :: r)
  end.

(** ** [FeatureBase] *)

Record FeatureBase (A : Type) : Type := mk_feature {
  _last_submission : option Submission;
  _submission : option Submission;
  _values : list value;
  attrs : A
}.
Arguments mk_feature {A} _ _ _ _.

Section FeatureBase.
Context {A : Type}.

Definition with_attrs (a : A) (self : FeatureBase A) : FeatureBase A :=
  mk_feature (_last_submission self) (_submission self) (_values self) a.

Definition with_last_submission (l : option Submission)
    (self : FeatureBase A) : FeatureBase A :=
  mk_feature l (_submission self) (_values self) (attrs self).

Definition append_value (v : value) (self : FeatureBase A) : FeatureBase A :=
  mk_feature (_last_submission self) (_submission self)
    (_values self ++ [v]) (attrs self).

(** The first lines of every [new_submission]: shift the two most
    recently seen submissions. *)
Definition shift_submission (self : FeatureBase A) (submission : Submission)
    : FeatureBase A :=
  mk_feature (_submission self) (Some submission) (_values self)
    (attrs self).

(** [self._submission.<attribute>] on the current submission. *)
Definition the_submission (self : FeatureBase A) : result Submission :=
  match _submission self with
  | Some s => Ok s
  | None => Raise AttributeError
  end.

(** The abstract method [_submission_value]: it returns the cell and
    may update the extractor's own attributes. *)
Definition submission_value_hook : Type :=
  FeatureBase A -> result (value * FeatureBase A).

(** [FeatureBase.new_submission] *)
Definition FeatureBase_new_submission (_submission_value : submission_value_hook)
    (self : FeatureBase A) (submission : Submission)
    : result (FeatureBase A) :=
  let self := shift_submission self submission in
  '(v, self) <- _submission_value self ;;
  Ok (append_value v self).
End FeatureBase.

(** [FeatureBase.__init__] *)
Definition FeatureBase_init {A : Type} (a : A) : FeatureBase A :=
  mk_feature None None [] a.

(** ** [CumulativeStatisticsFeatureBase] *)

Record CumulativeAttrs (B : Type) : Type := mk_cumulative {
  _mean_values : list value;
  _mean_values_src : list value;
  _stdev_values : list value;
  _stdev_values_src : list value;
  _max_values : list value;
  _max_values_src : list value;
  _min_values : list value;
  _min_values_src : list value;
  own : B
}.
Arguments mk_cumulative {B} _ _ _ _ _ _ _ _ _.

Definition Cumulative (B : Type) : Type := FeatureBase (CumulativeAttrs B).

(** [CumulativeStatisticsFeatureBase.__init__] *)
Definition Cumulative_init {B : Type} (b : B) : Cumulative B :=
  FeatureBase_init (mk_cumulative [] [] [] [] [] [] [] [] b).

Section Cumulative.
Context {B : Type}.

Definition with_own (b : B) (self : Cumulative B) : Cumulative B :=
  let c := attrs self in
  with_attrs
    (mk_cumulative (_mean_values c) (_mean_values_src c) (_stdev_values c)
       (_stdev_values_src c) (_max_values c) (_max_values_src c)
       (_min_values c) (_min_values_src c) b) self.

Definition clear_src (self : Cumulative B) : Cumulative B :=
  let c := attrs self in
  with_attrs
    (mk_cumulative (_mean_values c) [] (_stdev_values c) []
       (_max_values c) [] (_min_values c) [] (own c)) self.

Definition with_mean_values_src (l : list value) (self : Cumulative B)
    : Cumulative B :=
  let c := attrs self in
  with_attrs
    (mk_cumulative (_mean_values c) l (_stdev_values c)
       (_stdev_values_src c) (_max_values c) (_max_values_src c)
       (_min_values c) (_min_values_src c) (own c)) self.

Definition with_mean_values (l : list value) (self : Cumulative B)
    : Cumulative B :=
  let c := attrs self in
  with_attrs
    (mk_cumulative l (_mean_values_src c) (_stdev_values c)
       (_stdev_values_src c) (_max_values c) (_max_values_src c)
       (_min_values c) (_min_values_src c) (own c)) self.

Definition with_stdev_values_src (l : list value) (self : Cumulative B)
    : Cumulative B :=
  let c := attrs self in
  with_attrs
    (mk_cumulative (_mean_values c) (_mean_values_src c) (_stdev_values c)
       l (_max_values c) (_max_values_src c)
       (_min_values c) (_min_values_src c) (own c)) self.

Definition with_stdev_values (l : list value) (self : Cumulative B)
    : Cumulative B :=
  let c := attrs self in
  with_attrs
    (mk_cumulative (_mean_values c) (_mean_values_src c) l
       (_stdev_values_src c) (_max_values c) (_max_values_src c)
       (_min_values c) (_min_values_src c) (own c)) self.

Definition with_max_values (l : list value) (self : Cumulative B)
    : Cumulative B :=
  let c := attrs self in
  with_attrs
    (mk_cumulative (_mean_values c) (_mean_values_src c) (_stdev_values c)
       (_stdev_values_src c) l (_max_values_src c)
       (_min_values c) (_min_values_src c) (own c)) self.

Definition with_min_values (l : list value) (self : Cumulative B)
    : Cumulative B :=
  let c := attrs self in
  with_attrs
    (mk_cumulative (_mean_values c) (_mean_values_src c) (_stdev_values c)
       (_stdev_values_src c) (_max_values c) (_max_values_src c)
       l (_min_values_src c) (own c)) self.

(** The methods a concrete cumulative extractor supplies. *)
Record CumulativeHooks : Type := mk_hooks {
  h_submission_value : @submission_value_hook (CumulativeAttrs B);
  clear_src_values_for_session : Cumulative B -> result bool;
  should_add_mean : Cumulative B -> result bool;
  should_add_stdev : Cumulative B -> result bool
}.

(** Lines 65-68: the mean cell for the current mean buffer. *)
Definition emit_mean (self : Cumulative B) : result (Cumulative B) :=
  if (0 <? len (_mean_values_src (attrs self))) then
    m <- py_mean (_mean_values_src (attrs self)) ;;
    Ok (with_mean_values (_mean_values (attrs self) ++ [m]) self)
  else
    Ok (with_mean_values (_mean_values (attrs self) ++ [VNone]) self).

(** Lines 71-74: the stdev cell for the current stdev buffer. *)
Definition emit_stdev (self : Cumulative B) : result (Cumulative B) :=
  if (1 <? len (_stdev_values_src (attrs self))) then
    sd <- py_stdev (_stdev_values_src (attrs self)) ;;
    Ok (with_stdev_values (_stdev_values (attrs self) ++ [sd]) self)
  else
    Ok (with_stdev_values (_stdev_values (attrs self) ++ [VNone]) self).

Variable hooks : CumulativeHooks.

(** [CumulativeStatisticsFeatureBase.new_submission] *)
Definition Cumulative_new_submission (self : Cumulative B)
    (submission : Submission) : result (Cumulative B) :=
  self <- FeatureBase_new_submission (h_submission_value hooks) self
            submission ;;
  clear <- clear_src_values_for_session hooks self ;;
  let self := if clear then clear_src self else self in
  add_mean <- should_add_mean hooks self ;;
  self <- (if add_mean then
             v <- py_last (_values self) ;;
             Ok (with_mean_values_src
                   (_mean_values_src (attrs self) ++ [v]) self)
           else Ok self) ;;
  self <- emit_mean self ;;
  add_stdev <- should_add_stdev hooks self ;;
  self <- (if add_stdev then
             v <- py_last (_values self) ;;
             Ok (with_stdev_values_src
                   (_stdev_values_src (attrs self) ++ [v]) self)
           else Ok self) ;;
  self <- emit_stdev self ;;
  mx <- py_max_default (_values self) ;;
  let self := with_max_values (_max_values (attrs self) ++ [mx]) self in
  mn <- py_min_default (_values self) ;;
  Ok (with_min_values (_min_values (attrs self) ++ [mn]) self).
End Cumulative.

(** ** [PreviousProblemFeatureBase] *)

Record PrevAttrs (B : Type) : Type := mk_prev {
  _prev_prob_submissions : list Submission;
  _current_prob_submissions : list Submission;
  _current_prob_id : option Z;
  pown : B
}.
Arguments mk_prev {B} _ _ _ _.

Definition PreviousProblem (B : Type) : Type := FeatureBase (PrevAttrs B).

(** [PreviousProblemFeatureBase.__init__] *)
Definition PreviousProblem_init {B : Type} (b : B) : PreviousProblem B :=
  FeatureBase_init (mk_prev [] [] None b).

Section PreviousProblem.
Context {B : Type}.

Definition with_pown (b : B) (self : PreviousProblem B)
    : PreviousProblem B :=
  let p := attrs self in
  with_attrs
    (mk_prev (_prev_prob_submissions p) (_current_prob_submissions p)
       (_current_prob_id p) b) self.

Variable _submission_value : @submission_value_hook (PrevAttrs B).

(** [PreviousProblemFeatureBase.new_submission] *)
Definition PreviousProblem_new_submission (self : PreviousProblem B)
    (submission : Submission) : result (PreviousProblem B) :=
  let self := shift_submission self submission in
  let p := attrs self in
  let cur_id :=
    match _current_prob_id p with
    | None => problem_id submission
    | Some c => Some c
    end in
  let p :=
    if option_Z_eqb cur_id (problem_id submission) then
      mk_prev (_prev_prob_submissions p)
        (_current_prob_submissions p ++ [submission]) cur_id (pown p)
    else
      mk_prev (_current_prob_submissions p) ([] ++ [submission])
        (problem_id submission) (pown p) in
  let self := with_attrs p self in
  if (Z.of_nat (List.length (_prev_prob_submissions p)) =? 0) then
    Ok (append_value VNone self)
  else
    '(v, self) <- _submission_value self ;;
    Ok (append_value v self).
End PreviousProblem.

(** ** The extractor interface

    What [build_features], [extract_data] and [build_arff] use of an
    extractor class: its constructor, [new_submission], and (through
    [isinstance(feature, CumulativeStatisticsFeatureBase)]) the four
    derived sequences. *)

Record Feature : Type := mk_Feature {
  attrs_t : Type;
  name : string;
  init : FeatureBase attrs_t;
  new_submission :
    FeatureBase attrs_t -> Submission -> result (FeatureBase attrs_t);
  (** [(max_values, min_values, mean_values, stdev_values)] when the class
      derives from [CumulativeStatisticsFeatureBase] *)
  derived :
    FeatureBase attrs_t ->
    option (list value * list value * list value * list value);
  (** the body of the innermost loop of [extract_data] for this object *)
  del_row : nat -> FeatureBase attrs_t -> result (FeatureBase attrs_t)
}.

Definition del_value {A : Type} (i : nat) (self : FeatureBase A)
    : result (FeatureBase A) :=
  vs <- py_del i (_values self) ;;
  Ok (mk_feature (_last_submission self) (_submission self) vs (attrs self)).

Definition del_cumulative {B : Type} (i : nat) (self : Cumulative B)
    : result (Cumulative B) :=
  self <- del_value i self ;;
  mx <- py_del i (_max_values (attrs self)) ;;
  let self := with_max_values mx self in
  mn <- py_del i (_min_values (attrs self)) ;;
  let self := with_min_values mn self in
  me <- py_del i (_mean_values (attrs self)) ;;
  let self := with_mean_values me self in
  sd <- py_del i (_stdev_values (attrs self)) ;;
  Ok (with_stdev_values sd self).

(** A class deriving directly from [FeatureBase]. *)
Definition simple_class {A : Type} (nm : string) (a : A)
    (hook : @submission_value_hook A) : Feature :=
  {| attrs_t := A; name := nm; init := FeatureBase_init a;
     new_submission := FeatureBase_new_submission hook;
     derived := fun _ => None;
     del_row := del_value |}.

(** A class deriving from [PreviousProblemFeatureBase]. *)
Definition prev_class {B : Type} (nm : string) (b : B)
    (hook : @submission_value_hook (PrevAttrs B)) : Feature :=
  {| attrs_t := PrevAttrs B; name := nm; init := PreviousProblem_init b;
     new_submission := PreviousProblem_new_submission hook;
     derived := fun _ => None;
     del_row := del_value |}.

(** A class deriving from [CumulativeStatisticsFeatureBase]. *)
Definition cumulative_class {B : Type} (nm : string) (b : B)
    (hooks : @CumulativeHooks B) : Feature :=
  {| attrs_t := CumulativeAttrs B; name := nm; init := Cumulative_init b;
     new_submission := Cumulative_new_submission hooks;
     derived := fun self =>
       let c := attrs self in
       Some (_max_values c, _min_values c, _mean_values c, _stdev_values c);
     del_row := del_cumulative |}.

(** An extractor object: a class and the state of one instance. *)
Record feature : Type := mk_obj {
  cls : Feature;
  self_ : FeatureBase (attrs_t cls)
}.

Definition feature_new (c : Feature) : feature := mk_obj c (init c).

Definition values (f : feature) : list value := _values (self_ f).

Definition feature_new_submission (f : feature) (s : Submission)
    : result feature :=
  self <- new_submission (cls f) (self_ f) s ;;
  Ok (mk_obj (cls f) self).

Definition feature_del_row (i : nat) (f : feature) : result feature :=
  self <- del_row (cls f) i (self_ f) ;;
  Ok (mk_obj (cls f) self).

(** Every output sequence an extractor object exposes. *)
Definition columns (f : feature) : list (list value) :=
  match derived (cls f) (self_ f) with
  | Some (mx, mn, me, sd) => [values f; mx; mn; me; sd]
  | None => [values f]
  end.

Definition isSome {A : Type} (o : option A) : bool :=
  match o with Some _ => true | None => false end.

(** The default [clear_src_values_for_session]; no class overrides it. *)
Definition never_clear {B : Type} (_ : Cumulative B) : result bool := Ok false.

(** ** Concrete extractors, in the order of their definition *)

Module TimeUntilFirstSubmission.
Record own_attrs : Type := mk {
  _current_prob_id : option Z;
  _current_prob_first_submission : option Submission
}.

Definition _submission_value : @submission_value_hook (CumulativeAttrs own_attrs) :=
  fun self =>
    s <- the_submission self ;;
    let a := own (attrs self) in
    let a :=
      if negb (option_Z_eqb (_current_prob_id a) (problem_id s))
         && isSome (problem_id s)
      then mk (problem_id s) (Some s)
      else a in
    let self := with_own a self in
    match _current_prob_first_submission a with
    | Some f =>
        match begin_time f with
        | Some _ =>
            t <- sub_seconds (submit_time f) (begin_time f) ;;
            Ok (VNum t, self)
        | None => Ok (VNone, self)
        end
    | None => Ok (VNone, self)
    end.

Definition should_add_mean (self : Cumulative own_attrs) : result bool :=
  let a := own (attrs self) in
  Ok (isSome (_current_prob_id a)
      && match _current_prob_first_submission a with
         | Some f => isSome (begin_time f)
         | None => false
         end).

(** [should_add_stdev] returns [self.should_add_mean()]. *)
Definition hooks : CumulativeHooks :=
  mk_hooks _submission_value never_clear should_add_mean should_add_mean.

Definition cls : Feature :=
  cumulative_class "time_until_first_sub" (mk None None) hooks.
End TimeUntilFirstSubmission.

Module ViolatedConstraints.
Definition _submission_value : @submission_value_hook (CumulativeAttrs unit) :=
  fun self =>
    s <- the_submission self ;;
    match solution s with
    | Some _ => Ok (VNum (len (violated_constraints s)), self)
    | None => Ok (VNone, self)
    end.

Definition should_add (self : Cumulative unit) : result bool :=
  s <- the_submission self ;;
  Ok (isSome (solution s)).

Definition hooks : CumulativeHooks :=
  mk_hooks _submission_value never_clear should_add should_add.

Definition cls : Feature :=
  cumulative_class "violated_constraints" tt hooks.
End ViolatedConstraints.

Module SatisfiedConstraints.
Definition _submission_value : @submission_value_hook unit :=
  fun self =>
    s <- the_submission self ;;
    match solution s with
    | Some _ => Ok (VNum (len (satisfied_constraints s)), self)
    | None => Ok (VNone, self)
    end.

Definition cls : Feature :=
  simple_class "satisfied_constraints" tt _submission_value.
End SatisfiedConstraints.

Module HelpLevel.
Definition _submission_value : @submission_value_hook unit :=
  fun self =>
    s <- the_submission self ;;
    Ok (opt_num (submit_help_level s), self).

Definition cls : Feature := simple_class "help_level" tt _submission_value.
End HelpLevel.

Module DecreasedViolatedConstraints.
Definition _submission_value : @submission_value_hook unit :=
  fun self =>
    match _last_submission self with
    | None => Ok (VNone, self)
    | Some l =>
        s <- the_submission self ;;
        Ok (VBool (len (violated_constraints s)
                   <? len (violated_constraints l)), self)
    end.

Definition cls : Feature :=
  simple_class "violated_constraints_decreased" tt _submission_value.
End DecreasedViolatedConstraints.

Module TimeSincePreviousSubmission.
Definition _submission_value : @submission_value_hook unit :=
  fun self =>
    match _last_submission self with
    | None => Ok (VNone, self)
    | Some l =>
        s <- the_submission self ;;
        if isSome (begin_session s) then Ok (VNone, self)
        else
          match sub_seconds (submit_time s) (submit_time l) with
          | Ok t => Ok (VNum t, self)
          | Raise TypeError => Ok (VNone, self)
          | Raise e => Raise e
          end
    end.

Definition cls : Feature :=
  simple_class "time_since_previous_submission" tt _submission_value.
End TimeSincePreviousSubmission.

Module ProblemTimeFromStart.
Record own_attrs : Type := mk {
  _current_problem_id : option Z;
  _problem_start_time : option datetime
}.

Definition _submission_value : @submission_value_hook own_attrs :=
  fun self =>
    s <- the_submission self ;;
    let a := attrs self in
    if option_Z_eqb (_current_problem_id a) (problem_id s) then
      match sub_seconds (submit_time s) (_problem_start_time a) with
      | Ok t => Ok (VNum t, self)
      | Raise TypeError => Ok (VNone, self)
      | Raise e => Raise e
      end
    else
      let self := with_attrs (mk (problem_id s) (begin_time s)) self in
      match sub_seconds (submit_time s) (begin_time s) with
      | Ok t => Ok (VNum t, self)
      | Raise TypeError => Ok (VNone, self)
      | Raise e => Raise e
      end.

Definition cls : Feature :=
  simple_class "problem_time_from_start" (mk None None) _submission_value.
End ProblemTimeFromStart.

Module SubmissionNumber.
(** own attribute: [_submission_count] *)
Definition _submission_value : @submission_value_hook Z :=
  fun self =>
    match _last_submission self with
    | None => Ok (VNum 1, with_attrs 1 self)
    | Some l =>
        s <- the_submission self ;;
        let n :=
          if negb (option_Z_eqb (problem_id l) (problem_id s)) then 1
          else attrs self + 1 in
        Ok (VNum n, with_attrs n self)
    end.

Definition cls : Feature :=
  simple_class "submission_number" 1 _submission_value.
End SubmissionNumber.

Module SessionTimeFromStart.
(** own attribute: [_session_start] *)
Definition _submission_value : @submission_value_hook (option datetime) :=
  fun self =>
    s <- the_submission self ;;
    let self :=
      match begin_session s with
      | Some b => with_attrs (Some b) self
      | None => self
      end in
    match sub_seconds (submit_time s) (attrs self) with
    | Ok time =>
        if 0 <=? time then Ok (VNum time, self) else Raise AssertionError
    | Raise TypeError => Ok (VNone, self)
    | Raise e => Raise e
    end.

Definition cls : Feature :=
  simple_class "session_time_from_start" None _submission_value.
End SessionTimeFromStart.

Module SubmissionTimeDifference.
(** The square of a whole number of seconds, kept exact (Python rounds it
    to a float). *)
Definition _submission_value : @submission_value_hook unit :=
  fun self =>
    match _last_submission self with
    | None => Ok (VNone, self)
    | Some l =>
        s <- the_submission self ;;
        match sub_seconds (submit_time s) (submit_time l) with
        | Ok t => Ok (VNum (t ^ 2), self)
        | Raise TypeError => Ok (VNone, self)
        | Raise e => Raise e
        end
    end.

Definition cls : Feature :=
  simple_class "submission_time_diff_sq" tt _submission_value.
End SubmissionTimeDifference.

(** [(s.submit_time - s.begin_time).total_seconds()] over the submissions
    that have both timestamps. *)
Definition durations (subs : list Submission) : list Z :=
  flat_map
    (fun s =>
       match submit_time s, begin_time s with
       | Some a, Some b => [total_seconds a b]
       | _, _ => []
       end) subs.

(** A Python [set] of problem ids or help levels, kept as a list without
    repetitions. *)
Definition py_set_add (x : option Z) (s : list (option Z)) : list (option Z) :=
  if existsb (option_Z_eqb x) s then s else s ++ [x].

Definition py_set (xs : list (option Z)) : list (option Z) :=
  fold_left (fun s x => py_set_add x s) xs [].

Module FirstSubmitTimePrev.
Definition _submission_value : @submission_value_hook (PrevAttrs unit) :=
  fun self =>
    first_sub <- py_first (_prev_prob_submissions (attrs self)) ;;
    match sub_seconds (submit_time first_sub) (begin_time first_sub) with
    | Ok t => Ok (VNum t, self)
    | Raise TypeError => Ok (VNone, self)
    | Raise e => Raise e
    end.

Definition cls : Feature :=
  prev_class "prev_first_submit_time" tt _submission_value.
End FirstSubmitTimePrev.

Module TimeTakenPrev.
(** The body computes [time] and prints it when large; no path returns
    it, so every call yields [None]. *)
Definition _submission_value : @submission_value_hook (PrevAttrs unit) :=
  fun self =>
    first_sub <- py_first (_prev_prob_submissions (attrs self)) ;;
    last_sub <- py_last (_prev_prob_submissions (attrs self)) ;;
    match sub_seconds (submit_time last_sub) (begin_time first_sub) with
    | Ok time => Ok (VNone, self)
    | Raise TypeError => Ok (VNone, self)
    | Raise e => Raise e
    end.

Definition cls : Feature :=
  prev_class "prev_time_taken" tt _submission_value.
End TimeTakenPrev.

Module CompletedPrev.
Definition _submission_value : @submission_value_hook (PrevAttrs unit) :=
  fun self =>
    Ok (VBool (existsb solved (_prev_prob_submissions (attrs self))), self).

Definition cls : Feature :=
  prev_class "prev_completed" tt _submission_value.
End CompletedPrev.

Module SubmissionCountPrev.
Definition _submission_value : @submission_value_hook (PrevAttrs unit) :=
  fun self => Ok (VNum (len (_prev_prob_submissions (attrs self))), self).

Definition cls : Feature :=
  prev_class "prev_submission_count" tt _submission_value.
End SubmissionCountPrev.

Module MaxViolatedConstraints.
Definition _submission_value : @submission_value_hook (PrevAttrs unit) :=
  fun self =>
    m <- max_Z (map (fun s => len (violated_constraints s))
                  (_prev_prob_submissions (attrs self))) ;;
    Ok (VNum m, self).

Definition cls : Feature :=
  prev_class "prev_max_violated_constraints" tt _submission_value.
End MaxViolatedConstraints.

Module NumberWrongSubmissions.
Definition _submission_value : @submission_value_hook (PrevAttrs unit) :=
  fun self =>
    Ok (VNum (len (filter (fun s => negb (solved s))
                     (_prev_prob_submissions (attrs self)))), self).

Definition cls : Feature :=
  prev_class "prev_count_wrong_submissions" tt _submission_value.
End NumberWrongSubmissions.

Module AverageSubmissionTime.
Definition _submission_value : @submission_value_hook (PrevAttrs unit) :=
  fun self =>
    let data := durations (_prev_prob_submissions (attrs self)) in
    if len data =? 0 then Ok (VNone, self)
    else m <- py_mean (map VNum data) ;; Ok (m, self).

Definition cls : Feature :=
  prev_class "prev_avg_submission_time" tt _submission_value.
End AverageSubmissionTime.

Module LatestSubmissionTime.
Definition _submission_value : @submission_value_hook (PrevAttrs unit) :=
  fun self =>
    last_sub <- py_last (_prev_prob_submissions (attrs self)) ;;
    match submit_time last_sub, begin_time last_sub with
    | Some st, Some bt =>
        if dt_seconds bt <=? dt_seconds st
        then Ok (VNum (total_seconds st bt), self)
        else Raise AssertionError
    | _, _ => Ok (VNone, self)
    end.

Definition cls : Feature :=
  prev_class "prev_latest_submission_time" tt _submission_value.
End LatestSubmissionTime.

Module StdevSubmissionTime.
Definition _submission_value : @submission_value_hook (PrevAttrs unit) :=
  fun self =>
    let data := durations (_prev_prob_submissions (attrs self)) in
    if len data <? 2 then Ok (VNone, self)
    else sd <- py_stdev (map VNum data) ;; Ok (sd, self).

Definition cls : Feature :=
  prev_class "prev_stdev_submission_time" tt _submission_value.
End StdevSubmissionTime.

Module MaxSubmissionTime.
Definition _submission_value : @submission_value_hook (PrevAttrs unit) :=
  fun self =>
    let data := durations (_prev_prob_submissions (attrs self)) in
    if len data =? 0 then Ok (VNone, self)
    else m <- max_Z data ;; Ok (VNum m, self).

Definition cls : Feature :=
  prev_class "prev_max_submission_time" tt _submission_value.
End MaxSubmissionTime.

Module MinSubmissionTime.
Definition _submission_value : @submission_value_hook (PrevAttrs unit) :=
  fun self =>
    let data := durations (_prev_prob_submissions (attrs self)) in
    if len data =? 0 then Ok (VNone, self)
    else m <- min_Z data ;; Ok (VNum m, self).

Definition cls : Feature :=
  prev_class "prev_min_submission_time" tt _submission_value.
End MinSubmissionTime.

Module SameDatabasePrev.
Definition _submission_value : @submission_value_hook (PrevAttrs unit) :=
  fun self =>
    c <- py_first (_current_prob_submissions (attrs self)) ;;
    Ok (VBool (isSome (database c)), self).

Definition cls : Feature :=
  prev_class "prev_problem_same_db" tt _submission_value.
End SameDatabasePrev.

Module DifferentFeedbackOptionsPrev.
Definition _submission_value : @submission_value_hook (PrevAttrs unit) :=
  fun self =>
    Ok (VNum (len (py_set (map submit_help_level
                             (_prev_prob_submissions (attrs self))))),
        self).

Definition cls : Feature :=
  prev_class "prev_diff_feedback_options" tt _submission_value.
End DifferentFeedbackOptionsPrev.

Module TimeSinceSessionStartPrev.
(** own attribute: [_session_start] *)
Definition _submission_value
    : @submission_value_hook (PrevAttrs (option datetime)) :=
  fun self =>
    let prev := _prev_prob_submissions (attrs self) in
    first_sub <- py_first prev ;;
    match begin_time first_sub with
    | None => Ok (VNone, self)
    | Some bt0 =>
        let session_start :=
          fold_left
            (fun start sub =>
               match begin_session sub with
               | Some bs =>
                   if match start with
                      | None => true
                      | Some _ => 0 <=? total_seconds bt0 bs
                      end
                   then Some bs else start
               | None => start
               end)
            prev (pown (attrs self)) in
        let self := with_pown session_start self in
        time <- sub_seconds (Some bt0) session_start ;;
        if 0 <=? time then Ok (VNum time, self) else Raise AssertionError
    end.

Definition cls : Feature :=
  prev_class "prev_time_since_session_start" None _submission_value.
End TimeSinceSessionStartPrev.

Module ProblemsAttemptedCumulative.
(** own attribute: [_attempted_problems] *)
Definition _submission_value : @submission_value_hook (list (option Z)) :=
  fun self =>
    s <- the_submission self ;;
    let attempted :=
      if isSome (begin_session s) then [] else attrs self in
    let attempted := py_set_add (problem_id s) attempted in
    Ok (VNum (len attempted), with_attrs attempted self).

Definition cls : Feature :=
  simple_class "session_problems_attempted" [] _submission_value.
End ProblemsAttemptedCumulative.

Module ProblemsCompletedCumulative.
(** own attribute: [_completed_problems] *)
Definition _submission_value : @submission_value_hook (list (option Z)) :=
  fun self =>
    s <- the_submission self ;;
    let completed :=
      if isSome (begin_session s) then [] else attrs self in
    let completed :=
      if solved s then py_set_add (problem_id s) completed
      else completed in
    Ok (VNum (len completed), with_attrs completed self).

Definition cls : Feature :=
  simple_class "session_problems_completed" [] _submission_value.
End ProblemsCompletedCumulative.

Module DatabaseChangesCumulative.
(** own attribute: [_databases] *)
Definition _submission_value : @submission_value_hook Z :=
  fun self =>
    s <- the_submission self ;;
    let n := attrs self + database_changes s in
    Ok (VNum n, with_attrs n self).

Definition cls : Feature :=
  simple_class "session_database_changes" 0 _submission_value.
End DatabaseChangesCumulative.

Module TimeSpentOnProblem.
Record own_attrs : Type := mk {
  _current_problem_id : option Z;
  _current_problem_start : option datetime;
  _last_problem_duration : option Z;
  _problem_changed : bool
}.

Definition _submission_value
    : @submission_value_hook (CumulativeAttrs own_attrs) :=
  fun self =>
    s <- the_submission self ;;
    let a := own (attrs self) in
    a <- (if negb (option_Z_eqb (_current_problem_id a) (problem_id s)) then
            a <- match _current_problem_start a with
                 | Some start =>
                     match _last_submission self with
                     | None => Raise AttributeError
                     | Some l =>
                         match submit_time l with
                         | Some st =>
                             Ok (mk (_current_problem_id a)
                                   (_current_problem_start a)
                                   (Some (total_seconds st start)) true)
                         | None => Ok a
                         end
                     end
                 | None => Ok a
                 end ;;
            Ok (mk (problem_id s) (begin_time s)
                  (_last_problem_duration a) (_problem_changed a))
          else
            Ok (mk (_current_problem_id a) (_current_problem_start a)
                  (_last_problem_duration a) false)) ;;
    Ok (opt_num (_last_problem_duration a), with_own a self).

Definition should_add (self : Cumulative own_attrs) : result bool :=
  Ok (_problem_changed (own (attrs self))).

Definition hooks : CumulativeHooks :=
  mk_hooks _submission_value never_clear should_add should_add.

Definition cls : Feature :=
  cumulative_class "session_problem_completion_time"
    (mk None None None false) hooks.
End TimeSpentOnProblem.

Module TimeBetweenSubmissions.
Definition _submission_value : @submission_value_hook (CumulativeAttrs unit) :=
  fun self =>
    s <- the_submission self ;;
    if isSome (begin_session s) then
      Ok (VNone, with_last_submission None self)
    else
      match _last_submission self with
      | Some l =>
          match submit_time s, submit_time l with
          | Some a, Some b => Ok (VNum (total_seconds a b), self)
          | _, _ => Ok (VNone, self)
          end
      | None => Ok (VNone, self)
      end.

Definition should_add (self : Cumulative unit) : result bool :=
  match _last_submission self with
  | Some l =>
      s <- the_submission self ;;
      Ok (isSome (submit_time s) && isSome (submit_time l))
  | None => Ok false
  end.

Definition hooks : CumulativeHooks :=
  mk_hooks _submission_value never_clear should_add should_add.

Definition cls : Feature :=
  cumulative_class "session_time_between_submissions" tt hooks.
End TimeBetweenSubmissions.

Module NumberOfSubmissions.
Record own_attrs : Type := mk {
  _current_problem_id : option Z;
  _prev_prob_submissions : option Z;
  _current_problem_submissions : option Z;
  _problem_changed : bool
}.

Definition _submission_value
    : @submission_value_hook (CumulativeAttrs own_attrs) :=
  fun self =>
    s <- the_submission self ;;
    let a := own (attrs self) in
    a <- (if negb (isSome (_current_problem_id a))
             && negb (isSome (problem_id s)) then
            Ok (mk (_current_problem_id a) (_prev_prob_submissions a)
                  (_current_problem_submissions a) false)
          else if negb (option_Z_eqb (_current_problem_id a)
                          (problem_id s)) then
            Ok (mk (problem_id s) (_current_problem_submissions a) (Some 1)
                  (if isSome (_current_problem_submissions a) then true
                   else _problem_changed a))
          else
            match _current_problem_submissions a with
            | Some n =>
                Ok (mk (_current_problem_id a) (_prev_prob_submissions a)
                      (Some (n + 1)) false)
            | None => Raise TypeError
            end) ;;
    Ok (opt_num (_prev_prob_submissions a), with_own a self).

Definition should_add (self : Cumulative own_attrs) : result bool :=
  Ok (_problem_changed (own (attrs self))).

Definition hooks : CumulativeHooks :=
  mk_hooks _submission_value never_clear should_add should_add.

Definition cls : Feature :=
  cumulative_class "num_submissions_per_problem"
    (mk None None None false) hooks.
End NumberOfSubmissions.

(** The table read from [complexity-data.txt] is not part of the sources;
    it is a parameter [LOOKUP] of the classes that consult it
    ([LOOKUP k = None] when [k] is not a key). *)
Definition lookup_table : Type := Z -> option Z.

Definition LOOKUP_get (LOOKUP : lookup_table) (k : option Z) : result Z :=
  match k with
  | Some k' => match LOOKUP k' with
               | Some v => Ok v
               | None => Raise KeyError
               end
  | None => Raise KeyError
  end.

Definition LOOKUP_contains (LOOKUP : lookup_table) (k : option Z) : bool :=
  match k with
  | Some k' => isSome (LOOKUP k')
  | None => false
  end.

Module ProblemComplexityPrev.
Definition _submission_value (LOOKUP : lookup_table)
    : @submission_value_hook (PrevAttrs unit) :=
  fun self =>
    first_sub <- py_first (_prev_prob_submissions (attrs self)) ;;
    match LOOKUP_get LOOKUP (problem_id first_sub) with
    | Ok v => Ok (VNum v, self)
    | Raise KeyError => Ok (VNone, self)
    | Raise e => Raise e
    end.

Definition cls (LOOKUP : lookup_table) : Feature :=
  prev_class "prev_problem_complexity" tt (_submission_value LOOKUP).
End ProblemComplexityPrev.

Module ProblemComplexity.
Record own_attrs : Type := mk {
  _current_prob_id : option Z;
  (** [True], [False], or [None] after a failed lookup *)
  _problem_changed : option bool
}.

Definition _submission_value (LOOKUP : lookup_table)
    : @submission_value_hook (CumulativeAttrs own_attrs) :=
  fun self =>
    s <- the_submission self ;;
    let a := own (attrs self) in
    let a :=
      if negb (option_Z_eqb (_current_prob_id a) (problem_id s))
      then mk (problem_id s) (Some true)
      else mk (_current_prob_id a) (Some false) in
    match problem_id s with
    | None => Ok (VNone, with_own (mk (_current_prob_id a) (Some false)) self)
    | Some _ =>
        match LOOKUP_get LOOKUP (problem_id s) with
        | Ok v => Ok (VNum v, with_own a self)
        | Raise KeyError =>
            Ok (VNone, with_own (mk (_current_prob_id a) None) self)
        | Raise e => Raise e
        end
    end.

Definition should_add (self : Cumulative own_attrs) : result bool :=
  Ok match _problem_changed (own (attrs self)) with
     | Some b => b
     | None => false
     end.

Definition hooks (LOOKUP : lookup_table) : CumulativeHooks :=
  mk_hooks (_submission_value LOOKUP) never_clear should_add should_add.

Definition cls (LOOKUP : lookup_table) : Feature :=
  cumulative_class "current_problem_complexity" (mk None (Some false))
    (hooks LOOKUP).
End ProblemComplexity.

Module StudentLevel.
Record own_attrs : Type := mk {
  _level : Z;
  _current_prob_id : option Z;
  _current_prob_attempts : Z;
  _current_prob_solved : bool;
  _current_prob_level : Z;
  _prev_prob_level : Z;
  _prev_prob_solved : bool;
  _prev_prob_attempts : Z
}.

Definition init_attrs : own_attrs := mk 0 None 0 false 0 0 false 0.

(** The body of [_submission_value], on the own attributes. *)
Definition update (LOOKUP : lookup_table) (s : Submission) (a : own_attrs)
    : result own_attrs :=
  a <- (if negb (option_Z_eqb (_current_prob_id a) (problem_id s))
           && LOOKUP_contains LOOKUP (problem_id s) then
          let level :=
            if negb (_prev_prob_solved a) && negb (_current_prob_solved a)
               && (5 <=? _current_prob_attempts a)
               && (5 <=? _prev_prob_attempts a)
               && (_prev_prob_level a <=? _level a)
               && (_current_prob_level a <=? _level a)
               && (0 <? _level a)
            then _level a - 1 else _level a in
          cur_level <- LOOKUP_get LOOKUP (problem_id s) ;;
          Ok (mk level (problem_id s) 1 (_current_prob_solved a) cur_level
                (_current_prob_level a) (_current_prob_solved a)
                (_current_prob_attempts a))
        else
          Ok (mk (_level a) (_current_prob_id a)
                (_current_prob_attempts a + 1) (_current_prob_solved a)
                (_current_prob_level a) (_prev_prob_level a)
                (_prev_prob_solved a) (_prev_prob_attempts a))) ;;
  let a :=
    mk (_level a) (_current_prob_id a) (_current_prob_attempts a)
      (solved s) (_current_prob_level a) (_prev_prob_level a)
      (_prev_prob_solved a) (_prev_prob_attempts a) in
  let level :=
    if (_prev_prob_attempts a <=? 3) && (_current_prob_attempts a <=? 3)
       && _prev_prob_solved a && _current_prob_solved a
       && (_level a <=? _prev_prob_level a)
       && (_level a <=? _current_prob_level a)
    then _level a + 1 else _level a in
  Ok (mk level (_current_prob_id a) (_current_prob_attempts a)
        (_current_prob_solved a) (_current_prob_level a)
        (_prev_prob_level a) (_prev_prob_solved a) (_prev_prob_attempts a)).

Definition _submission_value (LOOKUP : lookup_table)
    : @submission_value_hook own_attrs :=
  fun self =>
    s <- the_submission self ;;
    a <- update LOOKUP s (attrs self) ;;
    Ok (VNum (_level a), with_attrs a self).

Definition cls (LOOKUP : lookup_table) : Feature :=
  simple_class "student_level" init_attrs (_submission_value LOOKUP).
End StudentLevel.

Module StudentLevelComplexityDifference.
Definition _submission_value (LOOKUP : lookup_table)
    : @submission_value_hook StudentLevel.own_attrs :=
  fun self =>
    '(level, self) <- StudentLevel._submission_value LOOKUP self ;;
    match level with
    | VNum level =>
        Ok (VNum (StudentLevel._current_prob_level (attrs self) - level),
            self)
    | _ => Raise TypeError
    end.

Definition cls (LOOKUP : lookup_table) : Feature :=
  simple_class "student_level_complexity_difference"
    StudentLevel.init_attrs (_submission_value LOOKUP).
End StudentLevelComplexityDifference.

Module IdenticalSubmission.
Definition _submission_value : @submission_value_hook StudentLevel.own_attrs :=
  fun self =>
    match _submission self, _last_submission self with
    | Some s, Some l =>
        Ok (VBool (option_string_eqb (solution s) (solution l)), self)
    | _, _ => Ok (VBool false, self)
    end.

Definition cls : Feature :=
  simple_class "submission_same_as_previous" StudentLevel.init_attrs
    _submission_value.
End IdenticalSubmission.

(** [FEATURES] *)
Definition FEATURES (LOOKUP : lookup_table) : list Feature :=
  [ ViolatedConstraints.cls;
    SatisfiedConstraints.cls;
    HelpLevel.cls;
    DecreasedViolatedConstraints.cls;
    TimeSincePreviousSubmission.cls;
    ProblemTimeFromStart.cls;
    SubmissionNumber.cls;
    SessionTimeFromStart.cls;
    SubmissionTimeDifference.cls;
    FirstSubmitTimePrev.cls;
    TimeTakenPrev.cls;
    CompletedPrev.cls;
    SubmissionCountPrev.cls;
    MaxViolatedConstraints.cls;
    NumberWrongSubmissions.cls;
    AverageSubmissionTime.cls;
    LatestSubmissionTime.cls;
    StdevSubmissionTime.cls;
    MaxSubmissionTime.cls;
    MinSubmissionTime.cls;
    SameDatabasePrev.cls;
    DifferentFeedbackOptionsPrev.cls;
    TimeSinceSessionStartPrev.cls;
    ProblemsAttemptedCumulative.cls;
    ProblemsCompletedCumulative.cls;
    DatabaseChangesCumulative.cls;
    TimeSpentOnProblem.cls;
    TimeBetweenSubmissions.cls;
    NumberOfSubmissions.cls;
    ProblemComplexity.cls LOOKUP;
    ProblemComplexityPrev.cls LOOKUP;
    StudentLevel.cls LOOKUP;
    StudentLevelComplexityDifference.cls LOOKUP;
    IdenticalSubmission.cls;
    TimeUntilFirstSubmission.cls ].

(** ** The framework ([build_features], [should_skip_subm]) *)

Definition should_skip_subm (submission : Submission) : bool :=
  negb (isSome (solution submission))
  && negb (isSome (begin_session submission)).

(** A [for] loop over a list of objects whose body may raise. *)
Fixpoint for_each {A : Type} (body : A -> result A) (xs : list A)
    : result (list A) :=
  match xs with
  | [] => Ok []
  | x :: xs' =>
      x' <- body x ;;
      xs'' <- for_each body xs' ;;
      Ok (x' :: xs'')
  end.

Fixpoint build_loop (submission_features : list feature)
    (submissions : list Submission) : result (list feature) :=
  match submissions with
  | [] => Ok submission_features
  | submission :: rest =>
      if should_skip_subm submission then
        build_loop submission_features rest
      else
        fs <- for_each (fun f => feature_new_submission f submission)
                submission_features ;;
        build_loop fs rest
  end.

Definition build_features (LOOKUP : lookup_table)
    (submissions : list Submission) : result (list feature) :=
  build_loop (map feature_new (FEATURES LOOKUP)) submissions.

(** ** The label deriver ([classify_problems]) *)

Inductive outcome : Type := abandoned | not_abandoned.

(** [xs[i]] for [0 <= i] *)
Definition py_index {A : Type} (xs : list A) (i : nat) : result A :=
  match nth_error xs i with
  | Some x => Ok x
  | None => Raise IndexError
  end.

(** One iteration of the loop: [None] stands for [continue]. *)
Definition classify_at (subms : list Submission) (i : nat)
    : result (option outcome) :=
  si <- py_index subms i ;;
  if should_skip_subm si then Ok None
  else if solved si then Ok (Some not_abandoned)
  else if len subms <=? Z.of_nat i + 1 then Ok (Some abandoned)
  else
    sj <- py_index subms (i + 1) ;;
    if option_Z_eqb (problem_id si) (problem_id sj) then
      if should_skip_subm sj then Ok (Some abandoned)
      else Ok (Some not_abandoned)
    else Ok (Some abandoned).

Fixpoint classify_loop (subms : list Submission) (indices : list nat)
    (result_ : list outcome) : result (list outcome) :=
  match indices with
  | [] => Ok result_
  | i :: rest =>
      o <- classify_at subms i ;;
      match o with
      | None => classify_loop subms rest result_
      | Some outcome => classify_loop subms rest (result_ ++ [outcome])
      end
  end.

Definition classify_problems (subms : list Submission)
    : result (list outcome) :=
  classify_loop subms (seq 0 (List.length subms)) [].

(** ** The per-file assembler ([extract_data])

    The part of [extract_data] that follows the scan of the file: from
    the event list to the trimmed features and the labels. *)

(** [v < 2] on a cell *)
Definition lt_2 (v : value) : result bool :=
  match as_num v with
  | Some z => Ok (z <? 2)
  | None => Raise TypeError
  end.

(** [isinstance(f, ProblemsAttemptedCumulative)]: the class is the only
    one with its [name]. *)
Definition is_ProblemsAttemptedCumulative (f : feature) : bool :=
  String.eqb (name (cls f)) (name ProblemsAttemptedCumulative.cls).

Fixpoint indices_loop (problem_values : list value) (indices : list nat)
    (indices_to_delete : list nat) : result (list nat) :=
  match indices with
  | [] => Ok indices_to_delete
  | i :: rest =>
      v <- py_index problem_values i ;;
      b <- lt_2 v ;;
      indices_loop problem_values rest
        (if b then indices_to_delete ++ [i] else indices_to_delete)
  end.

Fixpoint delete_loop (indices_to_delete : list nat) (features : list feature)
    : result (list feature) :=
  match indices_to_delete with
  | [] => Ok features
  | i :: rest =>
      fs <- for_each (feature_del_row i) features ;;
      delete_loop rest fs
  end.

Record LogFileData : Type := mk_LogFileData {
  features : list feature;
  classifications : list outcome
}.

Definition extract_data (LOOKUP : lookup_table) (events : list LogEvent)
    : result LogFileData :=
  let subms := events_to_submissions events in
  features <- build_features LOOKUP subms ;;
  problems_feature <-
    match find is_ProblemsAttemptedCumulative features with
    | Some f => Ok f
    | None => Raise StopIteration
    end ;;
  f0 <- py_first features ;;
  indices_to_delete <-
    indices_loop (values problems_feature)
      (seq 0 (List.length (values f0))) [] ;;
  let indices_to_delete := rev indices_to_delete in
  features <- delete_loop indices_to_delete features ;;
  abandon_state <- classify_problems subms ;;
  Ok (mk_LogFileData features abandon_state).

(** ** The timestamp extractor ([timestamp_extract])

    Strings are sequences of characters with code points below 256. *)

Definition space : ascii := Ascii.ascii_of_nat 32.
Definition semicolon : ascii := Ascii.ascii_of_nat 59.
Definition colon : ascii := Ascii.ascii_of_nat 58.
Definition slash : ascii := Ascii.ascii_of_nat 47.

(** The text before and after the first space, if there is a space. *)
Fixpoint cut_at_space (s : string) : option (string * string) :=
  match s with
  | EmptyString => None
  | String c s' =>
      if Ascii.eqb c space then Some (EmptyString, s')
      else match cut_at_space s' with
           | Some (a, b) => Some (String c a, b)
           | None => None
           end
  end.

(** [re.split(' ', line, maxsplit)] *)
Fixpoint re_split_space (maxsplit : nat) (line : string) : list string :=
  match maxsplit with
  | O => [line]
  | S n =>
      match cut_at_space line with
      | Some (a, b) => a :: re_split_space n b
      | None => [line]
      end
  end.

Fixpoint lstrip (c : ascii) (s : string) : string :=
  match s with
  | EmptyString => EmptyString
  | String a s' => if Ascii.eqb a c then lstrip c s' else s
  end.

Fixpoint rstrip (c : ascii) (s : string) : string :=
  match s with
  | EmptyString => EmptyString
  | String a s' =>
      match rstrip c s' with
      | EmptyString => if Ascii.eqb a c then EmptyString
                       else String a EmptyString
      | r => String a r
      end
  end.

(** [s.strip(c)] for a single character [c] *)
Definition strip (c : ascii) (s : string) : string := lstrip c (rstrip c s).

(** *** [datetime.strptime(s, '%H:%M:%S %d/%m/%Y')]

    CPython turns the format into the regular expression
    [(2[0-3]|[0-1]\d|\d):([0-5]\d|\d):(6[0-1]|[0-5]\d|\d)\s+
     (3[0-1]|[1-2]\d|0[1-9]|[1-9]| [1-9])/(1[0-2]|0[1-9]|[1-9])/(\d\d\d\d)],
    requires it to match the whole string, and builds the [datetime],
    whose constructor checks the ranges.  Each numeric field is followed
    by a character that is not a digit or by the end of the string, so a
    field is a run of one or two digits (four for the year) whose number
    lies in its range. *)

Definition is_digit (c : ascii) : bool :=
  let n := Ascii.nat_of_ascii c in (48 <=? n)%nat && (n <=? 57)%nat.

Definition digit_value (c : ascii) : Z := Z.of_nat (Ascii.nat_of_ascii c) - 48.

(** [\s] on code points below 256 *)
Definition is_space (c : ascii) : bool :=
  let n := Ascii.nat_of_ascii c in
  ((9 <=? n)%nat && (n <=? 13)%nat) || ((28 <=? n)%nat && (n <=? 32)%nat)
  || (n =? 133)%nat || (n =? 160)%nat.

Fixpoint digit_run (s : string) : list ascii * string :=
  match s with
  | EmptyString => ([], EmptyString)
  | String c s' =>
      if is_digit c then let '(ds, rest) := digit_run s' in (c :: ds, rest)
      else ([], s)
  end.

Definition number (ds : list ascii) : Z :=
  fold_left (fun acc d => acc * 10 + digit_value d) ds 0.

(** A numeric field of [minlen] to [maxlen] digits with value in
    [lo..hi]. *)
Definition field (minlen maxlen : nat) (lo hi : Z) (s : string)
    : option (Z * string) :=
  let '(ds, rest) := digit_run s in
  let n := number ds in
  if (minlen <=? List.length ds)%nat && (List.length ds <=? maxlen)%nat
     && (lo <=? n) && (n <=? hi)
  then Some (n, rest) else None.

Definition literal (c : ascii) (s : string) : option string :=
  match s with
  | String a s' => if Ascii.eqb a c then Some s' else None
  | EmptyString => None
  end.

Fixpoint skip_spaces (s : string) : string :=
  match s with
  | String a s' => if is_space a then skip_spaces s' else s
  | EmptyString => EmptyString
  end.

(** [\s+] *)
Definition spaces1 (s : string) : option string :=
  match s with
  | String a s' => if is_space a then Some (skip_spaces s') else None
  | EmptyString => None
  end.

(** The range checks of the [datetime] constructor. *)
Definition valid_datetime (d : datetime) : bool :=
  (1 <=? year d) && (year d <=? 9999)
  && (1 <=? month d) && (month d <=? 12)
  && (1 <=? day d) && (day d <=? days_in_month (year d) (month d))
  && (0 <=? hour d) && (hour d <=? 23)
  && (0 <=? minute d) && (minute d <=? 59)
  && (0 <=? second d) && (second d <=? 59).

Definition obind {A B : Type} (o : option A) (k : A -> option B) : option B :=
  match o with Some a => k a | None => None end.

Definition strptime (s : string) : option datetime :=
  obind (field 1 2 0 23 s) (fun '(hh, s) =>
  obind (literal colon s) (fun s =>
  obind (field 1 2 0 59 s) (fun '(mi, s) =>
  obind (literal colon s) (fun s =>
  obind (field 1 2 0 61 s) (fun '(ss, s) =>
  obind (spaces1 s) (fun s =>
  obind (field 1 2 1 31 s) (fun '(dd, s) =>
  obind (literal slash s) (fun s =>
  obind (field 1 2 1 12 s) (fun '(mo, s) =>
  obind (literal slash s) (fun s =>
  obind (field 4 4 0 9999 s) (fun '(yy, s) =>
  match s with
  | EmptyString =>
      let dt := mk_datetime yy mo dd hh mi ss in
      if valid_datetime dt then Some dt else None
  | _ => None
  end))))))))))).

Definition timestamp_extract (line : string) : result (datetime * string) :=
  let splitted := re_split_space 2 line in
  match nth_error splitted 0, nth_error splitted 1 with
  | Some s0, Some s1 =>
      let timestampstr :=
        strip semicolon (s0 ++ String space EmptyString ++ s1)%string in
      match strptime timestampstr with
      | Some timestamp =>
          match nth_error splitted 2 with
          | Some remainder => Ok (timestamp, remainder)
          | None => Raise (ValueError "Log file line has unexpected structure")
          end
      | None => Raise (ValueError "Couldn't parse log file timestamp")
      end
  | _, _ => Raise (ValueError "Log file line has unexpected structure")
  end.

(** [MultilineLogEvent._timestamp_extract] has the same body. *)
Definition _timestamp_extract (line : string) : result (datetime * string) :=
  timestamp_extract line.

(** What a single event adds to the output: the finalised accumulator for
    a post-process event, nothing otherwise. *)
Definition finalized (current : Submission) (event : LogEvent)
    : list Submission :=
  match kind event with
  | PostProcessEvent satisfied violated _ =>
      [post_process current (timestamp event) satisfied violated]
  | _ => []
  end.

(** The label of submission [i] as the specification words it. *)
Definition label (subms : list Submission) (i : nat) : outcome :=
  let si := nth i subms new_Submission in
  if solved si then not_abandoned
  else if (S i =? List.length subms)%nat then abandoned
  else
    let sj := nth (S i) subms new_Submission in
    if option_Z_eqb (problem_id si) (problem_id sj) then
      if should_skip_subm sj then abandoned else not_abandoned
    else abandoned.

(** The positions of the submissions that are not skip-filtered. *)
Definition retained (subms : list Submission) (i : nat) : bool :=
  negb (should_skip_subm (nth i subms new_Submission)).

(** The lengths of the output sequences of an extractor object. *)
Definition column_lengths (f : feature) : list nat :=
  map (@List.length value) (columns f).

(** A [_submission_value] that leaves the output sequence alone. *)
Definition preserves_values {A : Type} (hook : @submission_value_hook A)
    : Prop :=
  forall self v self',
    hook self = Ok (v, self') -> _values self' = _values self.

(** A [_submission_value] of a cumulative extractor that leaves all five
    output sequences alone. *)
Definition preserves_derived {B : Type}
    (hook : @submission_value_hook (CumulativeAttrs B)) : Prop :=
  forall self v self',
    hook self = Ok (v, self') ->
    _values self' = _values self
    /\ _max_values (attrs self') = _max_values (attrs self)
    /\ _min_values (attrs self') = _min_values (attrs self)
    /\ _mean_values (attrs self') = _mean_values (attrs self)
    /\ _stdev_values (attrs self') = _stdev_values (attrs self).

(** A class whose [new_submission] adds one cell to every output
    sequence. *)
Definition grows (c : Feature) : Prop :=
  forall self s self',
    new_submission c self s = Ok self' ->
    column_lengths (mk_obj c self') = map S (column_lengths (mk_obj c self)).

(** The submissions that the framework hands to the extractors. *)
Definition consumed (submissions : list Submission) : list Submission :=
  filter (fun s => negb (should_skip_subm s)) submissions.

(** Every output sequence of the object has [n] cells. *)
Definition rows (n : nat) (f : feature) : Prop :=
  Forall (fun col : list value => List.length col = n) (columns f).

(** ** A worked log

    One session on 1 March 2020: two attempts at problem 1 (submitted 30
    and 42 seconds after the login), a post-process event with neither a
    solution nor a login before it, and one attempt at problem 2. *)

Definition at_time (h m s : Z) : datetime := mk_datetime 2020 3 1 h m s.

Definition example_events : list LogEvent :=
  [ mk_event (at_time 10 0 0) LoggedInEvent;
    mk_event (at_time 10 0 5) (DrawingProblemEvent 1 "NEW");
    mk_event (at_time 10 0 6)
      (ClientRespondingEvent (Some 1) (Some "NEW"%string) (Some 0) None);
    mk_event (at_time 10 0 29) (PreProcessEvent "select a");
    mk_event (at_time 10 0 30) (PostProcessEvent [1; 2] [3] 0);
    mk_event (at_time 10 0 35)
      (ClientRespondingEvent (Some 1) (Some "CONSIDERED"%string) (Some 0)
         None);
    mk_event (at_time 10 0 41) (PreProcessEvent "select b");
    mk_event (at_time 10 0 42) (PostProcessEvent [1; 2; 3] [] 0);
    mk_event (at_time 10 0 50) (PostProcessEvent [] [4] 0);
    mk_event (at_time 10 1 0) (DrawingProblemEvent 2 "NEW");
    mk_event (at_time 10 1 1)
      (ClientRespondingEvent (Some 2) (Some "NEW"%string) (Some 1) None);
    mk_event (at_time 10 1 19) (PreProcessEvent "select c");
    mk_event (at_time 10 1 20) (PostProcessEvent [7] [5] 0) ].

(** The same log followed by a second login and one more attempt at
    problem 2. *)
Definition example_events_relogin : list LogEvent :=
  example_events ++
  [ mk_event (at_time 11 0 0) LoggedInEvent;
    mk_event (at_time 11 0 1)
      (ClientRespondingEvent (Some 2) (Some "CONSIDERED"%string) (Some 1)
         None);
    mk_event (at_time 11 0 29) (PreProcessEvent "select d");
    mk_event (at_time 11 0 30) (PostProcessEvent [7] [5] 0) ].

(** A complexity table with problems 1 and 2. *)
Definition example_LOOKUP : lookup_table :=
  fun k => if k =? 1 then Some 3 else if k =? 2 then Some 4 else None.

(** Whether a computation returned. *)
Definition is_Ok {A : Type} (r : result A) : bool :=
  match r with Ok _ => true | Raise _ => false end.

(** One extractor object fed a sequence of submissions, as the inner loop
    of [build_features] feeds it. *)
Fixpoint consume_all (f : feature) (subs : list Submission) : result feature :=
  match subs with
  | [] => Ok f
  | s :: rest => f' <- feature_new_submission f s ;; consume_all f' rest
  end.

(** The same on the state of an instance of class [c]. *)
Fixpoint run (c : Feature) (self : FeatureBase (attrs_t c))
    (subs : list Submission) : result (FeatureBase (attrs_t c)) :=
  match subs with
  | [] => Ok self
  | s :: rest => self' <- new_submission c self s ;; run c self' rest
  end.

(** The cells of an extractor whose cell is a function [cell] of the
    previous and the current submission. *)
Fixpoint cells (cell : option Submission -> Submission -> value)
    (prev : option Submission) (subs : list Submission) : list value :=
  match subs with
  | [] => []
  | s :: rest => cell prev s :: cells cell (Some s) rest
  end.

(** The cell of [TimeSincePreviousSubmission] for the previous and the
    current submission. *)
Definition TimeSincePreviousSubmission_cell (prev : option Submission)
    (s : Submission) : value :=
  match prev with
  | None => VNone
  | Some l =>
      if isSome (begin_session s) then VNone
      else match sub_seconds (submit_time s) (submit_time l) with
           | Ok t => VNum t
           | Raise _ => VNone
           end
  end.

(** The cell of [IdenticalSubmission]. *)
Definition IdenticalSubmission_cell (prev : option Submission)
    (s : Submission) : value :=
  match prev with
  | None => VBool false
  | Some l => VBool (option_string_eqb (solution s) (solution l))
  end.

(** A projection of a result, for statements about what was returned. *)
Definition returned {A B : Type} (r : result A) (proj : A -> B) : option B :=
  match r with Ok a => Some (proj a) | Raise _ => None end.

(** The output sequences of the [k]-th extractor object. *)
Definition columns_of (k : nat) (fs : list feature) : option (list (list value)) :=
  option_map columns (nth_error fs k).

(** A token: text without a space. *)
Fixpoint no_space (s : string) : bool :=
  match s with
  | EmptyString => true
  | String c s' => negb (Ascii.eqb c space) && no_space s'
  end.

(** A line made of a time token, a date token and the rest. *)
Definition log_line (time_token date_token rest : string) : string :=
  (time_token ++ String space (date_token ++ String space rest))%string.

(** A cell that is a number below 2. *)
Definition below_2 (v : value) : bool :=
  match as_num v with
  | Some z => z <? 2
  | None => false
  end.

(** A class whose [del_row] removes one cell from every output
    sequence. *)
Definition shrinks (c : Feature) : Prop :=
  forall i self self',
    del_row c i self = Ok self' ->
    column_lengths (mk_obj c self) = map S (column_lengths (mk_obj c self')).

(** ** Event classes used in statements about a submission's events *)

Definition is_pre_process (e : LogEvent) : bool :=
  match kind e with
  | PreProcessEvent _ => true
  | _ => false
  end.

(** [isinstance(event, LoggedInEvent)] *)
Definition is_logged_in (e : LogEvent) : bool :=
  match kind e with
  | LoggedInEvent | NewUserEvent => true
  | _ => false
  end.

(** The events of a list that are not post-process events. *)
Definition without_post_process (events : list LogEvent) : list LogEvent :=
  filter (fun e => negb (is_post_process e)) events.

(** ** Trimming, row by row *)

(** The rows of a sequence whose mask bit is set. *)
Fixpoint keep_rows {A : Type} (mask : list bool) (col : list A) : list A :=
  match mask, col with
  | b :: mask', x :: col' =>
      if b then x :: keep_rows mask' col' else keep_rows mask' col'
  | _, _ => []
  end.

(** The rows that survive trimming: those whose distinct-problems cell is
    not below 2. *)
Definition warm_up_mask (problem_values : list value) : list bool :=
  map (fun v => negb (below_2 v)) problem_values.

(** [del col[i]] for each index of a list in turn. *)
Fixpoint py_del_all {A : Type} (indices : list nat) (col : list A)
    : result (list A) :=
  match indices with
  | [] => Ok col
  | i :: rest => c <- py_del i col ;; py_del_all rest c
  end.

(** The positions, counted from [k], of the set bits of a mask. *)
Fixpoint positions_from (k : nat) (mask : list bool) : list nat :=
  match mask with
  | [] => []
  | b :: mask' =>
      (if b then [k] else []) ++ positions_from (S k) mask'
  end.

(** A cell that is a number. *)
Definition is_number (v : value) : bool := isSome (as_num v).

(** A class whose [del_row] succeeds whenever [del] succeeds on each of
    its output sequences, and leaves exactly those results. *)
Definition deletes (c : Feature) : Prop :=
  forall i self cols',
    for_each (py_del i) (columns (mk_obj c self)) = Ok cols' ->
    exists self',
      del_row c i self = Ok self' /\ columns (mk_obj c self') = cols'.

(** One extractor object taken through a list of row deletions. *)
Fixpoint feature_del_all (indices : list nat) (f : feature) : result feature :=
  match indices with
  | [] => Ok f
  | i :: rest => f' <- feature_del_row i f ;; feature_del_all rest f'
  end.

(** A [_submission_value] of a previous-problem extractor that returns
    whenever both runs hold a submission. *)
Definition total_on_runs {B : Type}
    (hook : @submission_value_hook (PrevAttrs B)) : Prop :=
  forall self : PreviousProblem B,
    _prev_prob_submissions (attrs self) <> [] ->
    _current_prob_submissions (attrs self) <> [] ->
    exists r, hook self = Ok r.

(** A first run of problem [p] that has a begin time and a solution for
    each attempt but no login, followed by an attempt at another
    problem. *)
Definition first_run_without_login (p : Z) (run1 : list Submission)
    (s2 : Submission) : bool :=
  match run1 with
  | [] => false
  | s1 :: _ => isSome (begin_time s1)
  end
  && forallb (fun s => option_Z_eqb (problem_id s) (Some p)
                       && negb (isSome (begin_session s))
                       && isSome (solution s)) run1
  && negb (option_Z_eqb (problem_id s2) (Some p))
  && isSome (solution s2).

(** ** Multi-line events ([logevents.py])

    The open log file is the list of the lines not read yet;
    [file.readline()] returns the next line, or the empty string once the
    file is exhausted.  A loop that reads lines is given fuel: it returns
    [None] when the fuel runs out before the loop ends. *)

(** [needle in hay] *)
Fixpoint contains (needle hay : string) : bool :=
  String.prefix needle hay
  || match hay with
     | EmptyString => false
     | String _ hay' => contains needle hay'
     end.

Definition readline (file : list string) : string * list string :=
  match file with
  | [] => (EmptyString, [])
  | l :: rest => (l, rest)
  end.

(** The loop of [PreProcessEvent.__init__]: [line] is the line last read,
    [solution] the text gathered so far. *)
Fixpoint PreProcessEvent_loop (fuel : nat) (line solution : string)
    (file : list string) : option (string * list string) :=
  if negb (contains "Mode: " line) then
    match fuel with
    | O => None
    | S fuel' =>
        let '(line, file) := readline file in
        PreProcessEvent_loop fuel' line (solution ++ line)%string file
    end
  else Some (solution, file).

(** [PreProcessEvent.__init__]: the solution text and the file after it. *)
Definition PreProcessEvent_init (fuel : nat) (line : string)
    (file : list string) : option (string * list string) :=
  PreProcessEvent_loop fuel line line file.

(** [s.isspace()]: at least one character, all of them whitespace. *)
Fixpoint all_space (s : string) : bool :=
  match s with
  | EmptyString => true
  | String c s' => is_space c && all_space s'
  end.

Definition isspace (s : string) : bool :=
  match s with
  | EmptyString => false
  | _ => all_space s
  end.

(** The loop of [PostProcessEvent._parse_multiline]. *)
Fixpoint parse_multiline_loop (fuel : nat) (space_count : Z)
    (final_result : string) (file : list string)
    : option (string * list string) :=
  if space_count <? 2 then
    match fuel with
    | O => None
    | S fuel' =>
        let '(last_line, file) := readline file in
        let final_result := (final_result ++ last_line)%string in
        parse_multiline_loop fuel'
          (if isspace last_line then space_count + 1 else space_count)
          final_result file
    end
  else Some (final_result, file).

(** The text that [PostProcessEvent.__init__] hands to [_parse_one_line],
    and the file after it. *)
Definition PostProcessEvent_text (fuel : nat) (line : string)
    (file : list string) : option (string * list string) :=
  if contains "Satisfied" line && contains "Violated" line then
    Some (line, file)
  else parse_multiline_loop fuel 0 line file.

(** The concatenation of a list of lines. *)
Definition join_lines (lines : list string) : string :=
  fold_right String.append EmptyString lines.

(** ** Runs of submissions on one problem *)

(** A sequence of runs: each run names its problem, holds at least one
    submission, all on that problem, and differs in problem from the run
    before it ([before] is the problem of the run before the first). *)
Fixpoint runs_ok (before : option Z) (runs : list (Z * list Submission))
    : bool :=
  match runs with
  | [] => true
  | (p, l) :: rest =>
      negb (option_Z_eqb before (Some p))
      && negb (len l =? 0)
      && forallb (fun s => option_Z_eqb (problem_id s) (Some p)) l
      && runs_ok (Some p) rest
  end.

(** The cell of a previous-problem extractor whose aggregate of a
    non-empty previous run is [agg]. *)
Definition prev_cell (agg : list Submission -> value)
    (prev : list Submission) : value :=
  match prev with
  | [] => VNone
  | _ => agg prev
  end.

(** Its cells over a sequence of runs, [prev] being the run before. *)
Fixpoint prev_cells (agg : list Submission -> value)
    (prev : list Submission) (runs : list (Z * list Submission))
    : list value :=
  match runs with
  | [] => []
  | (_, l) :: rest =>
      repeat (prev_cell agg prev) (List.length l) ++ prev_cells agg l rest
  end.

(** A [_submission_value] that is the aggregate [agg] of the previous
    run and changes nothing. *)
Definition aggregates {B : Type}
    (hook : @submission_value_hook (PrevAttrs B))
    (agg : list Submission -> value) : Prop :=
  forall self : PreviousProblem B,
    hook self = Ok (agg (_prev_prob_submissions (attrs self)), self).

(** ** Extractors that cannot fail *)

(** A [_submission_value] of a simple extractor that returns whenever a
    current submission is set. *)
Definition simple_total {A : Type} (hook : @submission_value_hook A) : Prop :=
  forall (self : FeatureBase A) (s : Submission),
    _submission self = Some s -> exists r, hook self = Ok r.

(** A cell that is null or a number. *)
Definition null_or_number (v : value) : bool := is_None v || is_number v.

(** The sequences of a cumulative extractor that its hooks leave alone. *)
Definition same_sequences {B : Type} (x y : Cumulative B) : Prop :=
  _values x = _values y
  /\ _mean_values (attrs x) = _mean_values (attrs y)
  /\ _mean_values_src (attrs x) = _mean_values_src (attrs y)
  /\ _stdev_values (attrs x) = _stdev_values (attrs y)
  /\ _stdev_values_src (attrs x) = _stdev_values_src (attrs y)
  /\ _max_values (attrs x) = _max_values (attrs y)
  /\ _min_values (attrs x) = _min_values (attrs y).

(** What a cumulative extractor's hooks must do for [new_submission] to
    return: on the submissions accepted by [ok], from a state whose own
    attributes and latest submissions satisfy [J], the raw value is
    computed, it is null or a number, it is a number when it is added to
    a source buffer, the sequences are left alone, and [J] holds again.
    The predicates that decide the additions, [am] and [asd], read only
    the own attributes and the two latest submissions. *)
Definition cumulative_contract {B : Type} (hooks : @CumulativeHooks B)
    (J : B -> option Submission -> option Submission -> Prop)
    (ok : Submission -> Prop)
    (am asd : B -> option Submission -> option Submission -> result bool)
    : Prop :=
  (forall self, clear_src_values_for_session hooks self = Ok false)
  /\ (forall self,
         should_add_mean hooks self =
         am (own (attrs self)) (_last_submission self) (_submission self))
  /\ (forall self,
         should_add_stdev hooks self =
         asd (own (attrs self)) (_last_submission self) (_submission self))
  /\ forall (self : Cumulative B) (s : Submission),
      J (own (attrs self)) (_last_submission self) (_submission self) ->
      ok s ->
      exists (v : value) (self1 : Cumulative B) (bm bs : bool),
        h_submission_value hooks (shift_submission self s) = Ok (v, self1)
        /\ same_sequences self1 self
        /\ null_or_number v = true
        /\ am (own (attrs self1)) (_last_submission self1)
             (_submission self1) = Ok bm
        /\ (bm = true -> is_number v = true)
        /\ asd (own (attrs self1)) (_last_submission self1)
             (_submission self1) = Ok bs
        /\ (bs = true -> is_number v = true)
        /\ J (own (attrs self1)) (_last_submission self1)
             (_submission self1).

(** The state of a cumulative extractor between two submissions: the
    source buffers hold numbers, the raw values are null or numbers. *)
Definition buffers_ok {B : Type} (self : Cumulative B) : Prop :=
  forallb is_number (_mean_values_src (attrs self)) = true
  /\ forallb is_number (_stdev_values_src (attrs self)) = true
  /\ forallb null_or_number (_values self) = true.

(** A cell that is null or a number that is not negative. *)
Definition nonneg_cell (v : value) : bool :=
  match v with
  | VNone => true
  | VNum z => 0 <=? z
  | _ => false
  end.

(** * Properties *)

Lemma bind_Ok_inv {A B : Type} (m : result A) (k : A -> result B) (b : B) :
  bind m k = Ok b -> exists a, m = Ok a /\ k a = Ok b.
Proof. destruct m as [a|e]; simpl; intros H; [eauto | discriminate]. Qed.

Ltac inv_bind H :=
  let a := fresh "a" in
  let Ha := fresh "Ha" in
  apply bind_Ok_inv in H; destruct H as (a & Ha & H).

Tactic Notation "bind_inv" hyp(H) "as" ident(a) ident(Ha) :=
  apply bind_Ok_inv in H; destruct H as (a & Ha & H).

(** ** The submission state machine *)

Lemma step_event_snd (current : Submission) (subs : list Submission)
    (e : LogEvent) :
  snd (step_event (current, subs) e) = subs ++ finalized current e.
Proof.
  unfold step_event, finalized.
  destruct (kind e); simpl; rewrite ?app_nil_r; reflexivity.
Qed.

Lemma finalized_length (current : Submission) (e : LogEvent) :
  List.length (finalized current e) = if is_post_process e then 1%nat else 0%nat.
Proof. unfold finalized, is_post_process. destruct (kind e); reflexivity. Qed.

Lemma events_loop_snoc (events : list LogEvent) (e : LogEvent) st :
  events_loop (events ++ [e]) st = step_event (events_loop events st) e.
Proof. unfold events_loop. rewrite fold_left_app. reflexivity. Qed.

Lemma events_to_submissions_snoc (events : list LogEvent) (e : LogEvent) :
  events_to_submissions (events ++ [e]) =
  events_to_submissions events
  ++ finalized (fst (events_loop events (new_Submission, []))) e.
Proof.
  unfold events_to_submissions. rewrite events_loop_snoc.
  destruct (events_loop events (new_Submission, [])) as [c subs].
  apply step_event_snd.
Qed.

Lemma events_to_submissions_length (events : list LogEvent) :
  List.length (events_to_submissions events) =
  List.length (filter is_post_process events).
Proof.
  induction events as [|e events IH] using rev_ind; [reflexivity|].
  rewrite events_to_submissions_snoc, filter_app, !length_app, IH.
  rewrite finalized_length. simpl.
  destruct (is_post_process e); reflexivity.
Qed.

Lemma events_to_submissions_trailing (events tail : list LogEvent) :
  events_to_submissions
    (events ++ filter (fun e => negb (is_post_process e)) tail) =
  events_to_submissions events.
Proof.
  induction tail as [|e tail IH] using rev_ind.
  - simpl. rewrite app_nil_r. reflexivity.
  - rewrite filter_app. simpl.
    destruct (is_post_process e) eqn:He; simpl.
    + rewrite app_nil_r. exact IH.
    + rewrite app_assoc, events_to_submissions_snoc, IH.
      unfold finalized. unfold is_post_process in He.
      destruct (kind e); try discriminate; apply app_nil_r.
Qed.

(** C1.  The state machine appends to its output exactly at post-process
    events: an event extends the output by the finalised accumulator when
    it is a post-process event and leaves it unchanged otherwise; hence
    the number of submissions is the number of post-process events, and
    events that follow the last post-process event (a trailing
    accumulator) add nothing. *)
Theorem submissions_one_per_post_process (events : list LogEvent) :
  List.length (events_to_submissions events) =
    List.length (filter is_post_process events)
  /\ (forall e : LogEvent,
        events_to_submissions (events ++ [e]) =
        events_to_submissions events
        ++ finalized (fst (events_loop events (new_Submission, []))) e
        /\ List.length
             (finalized (fst (events_loop events (new_Submission, []))) e) =
           if is_post_process e then 1%nat else 0%nat)
  /\ (forall tail : list LogEvent,
        events_to_submissions
          (events ++ filter (fun e => negb (is_post_process e)) tail) =
        events_to_submissions events).
Proof.
  split; [apply events_to_submissions_length|].
  split.
  - intros e. split; [apply events_to_submissions_snoc|].
    apply finalized_length.
  - apply events_to_submissions_trailing.
Qed.

Example timestamp_extract_plain :
  timestamp_extract "12:00:05 01/02/2020 Logged in" =
  Ok (mk_datetime 2020 2 1 12 0 5, "Logged in"%string).
Proof. vm_compute. reflexivity. Qed.

(** ** The label deriver *)

Lemma py_index_nth {A : Type} (xs : list A) (i : nat) (d : A) :
  (i < List.length xs)%nat -> py_index xs i = Ok (nth i xs d).
Proof.
  intros Hi. unfold py_index.
  rewrite (nth_error_nth' xs d Hi). reflexivity.
Qed.

Lemma classify_at_label (subms : list Submission) (i : nat) :
  (i < List.length subms)%nat ->
  classify_at subms i =
  Ok (if retained subms i then Some (label subms i) else None).
Proof.
  intros Hi. unfold classify_at, retained, label, len.
  rewrite (py_index_nth subms new_Submission Hi). cbn [bind].
  destruct (should_skip_subm (nth i subms new_Submission)); cbn [negb];
    [reflexivity|].
  destruct (solved (nth i subms new_Submission)); [reflexivity|].
  destruct (Nat.eqb_spec (S i) (List.length subms)) as [E|E].
  - replace (Z.of_nat (List.length subms) <=? Z.of_nat i + 1) with true
      by (symmetry; apply Z.leb_le; lia).
    reflexivity.
  - replace (Z.of_nat (List.length subms) <=? Z.of_nat i + 1) with false
      by (symmetry; apply Z.leb_gt; lia).
    replace (i + 1)%nat with (S i) by lia.
    rewrite (@py_index_nth _ subms (S i) new_Submission) by lia. cbn [bind].
    destruct (option_Z_eqb _ _); [|reflexivity].
    destruct (should_skip_subm _); reflexivity.
Qed.

Lemma classify_loop_label (subms : list Submission) (indices : list nat) :
  Forall (fun i => (i < List.length subms)%nat) indices ->
  forall acc,
    classify_loop subms indices acc =
    Ok (acc ++ map (label subms) (filter (retained subms) indices)).
Proof.
  induction 1 as [|i indices Hi _ IH]; intros acc; simpl.
  - rewrite app_nil_r. reflexivity.
  - rewrite (classify_at_label subms Hi). simpl.
    destruct (retained subms i); simpl.
    + rewrite IH, <- app_assoc. reflexivity.
    + apply IH.
Qed.

(** C3.  The label deriver returns, for the retained submissions in
    order, [not_abandoned] if submission [i] is solved; else [abandoned]
    if [i] is the last submission; else, when submission [i+1] has the
    same problem id, [abandoned] exactly when submission [i+1] is
    skip-filtered; else [abandoned] ([i] and [i+1] are positions in the
    whole submission sequence). *)
Theorem classify_problems_label (subms : list Submission) :
  classify_problems subms =
  Ok (map (label subms)
        (filter (retained subms) (seq 0 (List.length subms)))).
Proof.
  unfold classify_problems.
  rewrite classify_loop_label; [reflexivity|].
  apply Forall_forall. intros i Hi. apply in_seq in Hi. lia.
Qed.

(** ** The cumulative-statistics base class *)

Lemma py_mean_Ok (vs : list value) (m : value) :
  py_mean vs = Ok m -> m <> VNone /\ vs <> [].
Proof.
  unfold py_mean. destruct vs as [|v vs]; [discriminate|].
  destruct (as_nums (v :: vs)); intros H; inversion H; subst.
  split; intros E; discriminate E.
Qed.

Lemma emit_mean_never_divides {B : Type} (self : Cumulative B) :
  emit_mean self <> Raise StatisticsError.
Proof.
  unfold emit_mean.
  destruct (0 <? len (_mean_values_src (attrs self))) eqn:E;
    [|discriminate].
  destruct (_mean_values_src (attrs self)) as [|v vs]; [discriminate E|].
  unfold py_mean. destruct (as_nums (v :: vs)); simpl; discriminate.
Qed.

Lemma emit_stdev_never_divides {B : Type} (self : Cumulative B) :
  emit_stdev self <> Raise StatisticsError.
Proof.
  unfold emit_stdev.
  destruct (1 <? len (_stdev_values_src (attrs self))) eqn:E;
    [|discriminate].
  destruct (_stdev_values_src (attrs self)) as [|v [|w vs]];
    [discriminate E | discriminate E |].
  unfold py_stdev. destruct (as_nums (v :: w :: vs)); simpl; discriminate.
Qed.

Lemma emit_mean_Ok {B : Type} (self self' : Cumulative B) :
  emit_mean self = Ok self' ->
  exists m,
    self' = with_mean_values (_mean_values (attrs self) ++ [m]) self
    /\ (m = VNone <-> _mean_values_src (attrs self) = []).
Proof.
  unfold emit_mean, len.
  destruct (_mean_values_src (attrs self)) as [|v vs] eqn:Esrc.
  - simpl. intros H. inversion H. exists VNone. repeat split; auto.
  - replace (0 <? Z.of_nat (List.length (v :: vs))) with true
      by (symmetry; apply Z.ltb_lt; simpl; lia).
    intros H. inv_bind H. inversion H. exists a.
    apply py_mean_Ok in Ha. destruct Ha as [Hm _].
    split; [reflexivity|]. split; intros; [contradiction|discriminate].
Qed.

Lemma emit_stdev_Ok {B : Type} (self self' : Cumulative B) :
  emit_stdev self = Ok self' ->
  exists sd,
    self' = with_stdev_values (_stdev_values (attrs self) ++ [sd]) self
    /\ ((List.length (_stdev_values_src (attrs self)) < 2)%nat -> sd = VNone).
Proof.
  unfold emit_stdev, len.
  destruct (Z.ltb_spec 1 (Z.of_nat (List.length (_stdev_values_src (attrs self)))))
    as [Hl|Hl]; intros H.
  - inv_bind H. inversion H. exists a. split; [reflexivity|]. lia.
  - inversion H. exists VNone. split; auto.
Qed.

(** C5.  In [CumulativeStatisticsFeatureBase.new_submission], the mean and
    the stdev are never requested for a buffer that is too short (no
    [StatisticsError], the library's division by zero); and whenever a
    submission is consumed, one mean cell and one stdev cell are appended
    to the sequences left by [_submission_value], the mean cell is null if
    and only if the mean source buffer is empty, and the stdev cell is
    null whenever the stdev source buffer holds fewer than two entries. *)
Theorem cumulative_statistics_null {B : Type} (hooks : @CumulativeHooks B)
    (self : Cumulative B) (submission : Submission) :
  (forall st : Cumulative B,
      emit_mean st <> Raise StatisticsError
      /\ emit_stdev st <> Raise StatisticsError)
  /\ forall self' : Cumulative B,
      Cumulative_new_submission hooks self submission = Ok self' ->
      exists (v : value) (st : Cumulative B) (mean_cell stdev_cell : value),
        h_submission_value hooks (shift_submission self submission) =
          Ok (v, st)
        /\ _mean_values (attrs self') = _mean_values (attrs st) ++ [mean_cell]
        /\ _stdev_values (attrs self') =
           _stdev_values (attrs st) ++ [stdev_cell]
        /\ (mean_cell = VNone <-> _mean_values_src (attrs self') = [])
        /\ ((List.length (_stdev_values_src (attrs self')) < 2)%nat ->
            stdev_cell = VNone).
Proof.
  split.
  { intros st. split;
      [apply emit_mean_never_divides | apply emit_stdev_never_divides]. }
  intros self' H. unfold Cumulative_new_submission in H.
  bind_inv H as s1 H1.
  unfold FeatureBase_new_submission in H1.
  bind_inv H1 as vs0 H0. destruct vs0 as [v s0].
  inversion H1; subst s1; clear H1.
  bind_inv H as clear Hclear.
  bind_inv H as add_mean Hadd_mean.
  bind_inv H as s2 H2.
  bind_inv H as s3 H3.
  bind_inv H as add_stdev Hadd_stdev.
  bind_inv H as s4 H4.
  bind_inv H as s5 H5.
  bind_inv H as mx Hmx.
  bind_inv H as mn Hmn.
  inversion H; subst self'; clear H.
  apply emit_mean_Ok in H3. destruct H3 as (m & -> & Hm).
  apply emit_stdev_Ok in H5. destruct H5 as (sd & -> & Hsd).
  exists v, s0, m, sd. split; [exact H0|].
  assert (E4 : _mean_values (attrs s4) = _mean_values (attrs s2) ++ [m]
               /\ _mean_values_src (attrs s4) = _mean_values_src (attrs s2)
               /\ _stdev_values (attrs s4) = _stdev_values (attrs s2)).
  { destruct add_stdev.
    - bind_inv H4 as v1 Hv1. inversion H4. simpl. auto.
    - inversion H4. simpl. auto. }
  assert (E2 : _mean_values (attrs s2) = _mean_values (attrs s0)
               /\ _stdev_values (attrs s2) = _stdev_values (attrs s0)).
  { destruct add_mean.
    - bind_inv H2 as v1 Hv1. inversion H2. destruct clear; simpl; auto.
    - inversion H2. destruct clear; simpl; auto. }
  destruct E4 as (E4a & E4b & E4c). destruct E2 as (E2a & E2b).
  simpl. rewrite E4a, E4b, E4c, E2a, E2b. auto.
Qed.

Lemma cumulative_statistics_null_witness :
  exists (self' : Cumulative unit) (v : value) (st : Cumulative unit)
         (mean_cell stdev_cell : value),
    Cumulative_new_submission ViolatedConstraints.hooks (Cumulative_init tt)
      (set_solution (Some "select 1"%string) new_Submission) = Ok self'
    /\ _mean_values (attrs self') = _mean_values (attrs st) ++ [mean_cell]
    /\ _stdev_values (attrs self') = _stdev_values (attrs st) ++ [stdev_cell]
    /\ (mean_cell = VNone <-> _mean_values_src (attrs self') = [])
    /\ ((List.length (_stdev_values_src (attrs self')) < 2)%nat ->
        stdev_cell = VNone).
Proof.
  eexists.
  destruct (proj2 (cumulative_statistics_null ViolatedConstraints.hooks
                     (Cumulative_init tt)
                     (set_solution (Some "select 1"%string) new_Submission))
              _ eq_refl)
    as (v & st & m & sd & _ & H).
  exists v, st, m, sd. split; [reflexivity|]. exact H.
Defined.

(** ** Every extractor emits one row per consumed submission *)

Ltac step_ok :=
  match goal with
  | H : bind _ _ = Ok _ |- _ =>
      let a := fresh "a" in
      let Ha := fresh "Ha" in
      apply bind_Ok_inv in H; destruct H as (a & Ha & H)
  | H : Ok _ = Ok _ |- _ => inversion H; subst; clear H
  | H : Raise _ = Ok _ |- _ => discriminate H
  | H : (let '(_, _) := ?p in _) = Ok _ |- _ => destruct p
  | H : (if ?b then _ else _) = Ok _ |- _ => destruct b eqn:?
  | H : match ?x with _ => _ end = Ok _ |- _ => destruct x eqn:?
  end.

Ltac hook_ok := intros self v self' H; repeat step_ok.

Lemma simple_class_grows {A : Type} (nm : string) (a : A)
    (hook : @submission_value_hook A) :
  preserves_values hook -> grows (simple_class nm a hook).
Proof.
  intros Hp self s self' H. simpl in H.
  unfold FeatureBase_new_submission in H.
  bind_inv H as r Hr. destruct r as [v s0]. inversion H; subst self'.
  apply Hp in Hr. unfold column_lengths, columns, values. simpl.
  rewrite Hr, length_app. simpl. f_equal. lia.
Qed.

Lemma prev_class_grows {B : Type} (nm : string) (b : B)
    (hook : @submission_value_hook (PrevAttrs B)) :
  preserves_values hook -> grows (prev_class nm b hook).
Proof.
  intros Hp self s self' H. simpl in H.
  unfold PreviousProblem_new_submission in H.
  unfold column_lengths, columns, values. simpl.
  match type of H with (if ?c then _ else _) = _ => destruct c end.
  - inversion H; subst self'. simpl. rewrite length_app. simpl. f_equal. lia.
  - bind_inv H as r Hr. destruct r as [v s0]. inversion H; subst self'.
    apply Hp in Hr. simpl in *. rewrite Hr, length_app. simpl. f_equal. lia.
Qed.

Lemma cumulative_class_grows {B : Type} (nm : string) (b : B)
    (hooks : @CumulativeHooks B) :
  preserves_derived (h_submission_value hooks) ->
  grows (cumulative_class nm b hooks).
Proof.
  intros Hp self s self' H. simpl in H.
  unfold Cumulative_new_submission in H.
  bind_inv H as s1 H1.
  unfold FeatureBase_new_submission in H1.
  bind_inv H1 as vs0 H0. destruct vs0 as [v s0].
  inversion H1; subst s1; clear H1.
  bind_inv H as clear Hclear.
  bind_inv H as add_mean Hadd_mean.
  bind_inv H as s2 H2.
  bind_inv H as s3 H3.
  bind_inv H as add_stdev Hadd_stdev.
  bind_inv H as s4 H4.
  bind_inv H as s5 H5.
  bind_inv H as mx Hmx.
  bind_inv H as mn Hmn.
  inversion H; subst self'; clear H.
  apply emit_mean_Ok in H3. destruct H3 as (m & -> & _).
  apply emit_stdev_Ok in H5. destruct H5 as (sd & -> & _).
  apply Hp in H0. simpl in H0.
  destruct H0 as (Ev & Emx & Emn & Eme & Esd).
  assert (E2 : _values s2 = _values s0 ++ [v]
               /\ _max_values (attrs s2) = _max_values (attrs s0)
               /\ _min_values (attrs s2) = _min_values (attrs s0)
               /\ _mean_values (attrs s2) = _mean_values (attrs s0)
               /\ _stdev_values (attrs s2) = _stdev_values (attrs s0)).
  { destruct add_mean.
    - bind_inv H2 as v1 Hv1. inversion H2. destruct clear; simpl; auto.
    - inversion H2. destruct clear; simpl; auto. }
  assert (E4 : _values s4 = _values s2
               /\ _max_values (attrs s4) = _max_values (attrs s2)
               /\ _min_values (attrs s4) = _min_values (attrs s2)
               /\ _mean_values (attrs s4) = _mean_values (attrs s2) ++ [m]
               /\ _stdev_values (attrs s4) = _stdev_values (attrs s2)).
  { destruct add_stdev.
    - bind_inv H4 as v1 Hv1. inversion H4. simpl. auto.
    - inversion H4. simpl. auto. }
  destruct E2 as (E2v & E2mx & E2mn & E2me & E2sd).
  destruct E4 as (E4v & E4mx & E4mn & E4me & E4sd).
  unfold column_lengths, columns, values. simpl.
  rewrite E4v, E4mx, E4mn, E4me, E4sd, E2v, E2mx, E2mn, E2me, E2sd.
  rewrite Ev, Emx, Emn, Eme, Esd, !length_app. simpl.
  repeat (f_equal; try lia).
Qed.

Ltac values_kept :=
  hook_ok; try reflexivity; simpl;
  repeat match goal with
         | |- context [match ?x with _ => _ end] => destruct x
         end;
  simpl; auto.

Lemma SatisfiedConstraints_keeps_outputs :
  preserves_values (SatisfiedConstraints._submission_value).
Proof. unfold preserves_values, SatisfiedConstraints._submission_value. values_kept. Qed.

Lemma HelpLevel_keeps_outputs :
  preserves_values (HelpLevel._submission_value).
Proof. unfold preserves_values, HelpLevel._submission_value. values_kept. Qed.

Lemma DecreasedViolatedConstraints_keeps_outputs :
  preserves_values (DecreasedViolatedConstraints._submission_value).
Proof. unfold preserves_values, DecreasedViolatedConstraints._submission_value. values_kept. Qed.

Lemma TimeSincePreviousSubmission_keeps_outputs :
  preserves_values (TimeSincePreviousSubmission._submission_value).
Proof. unfold preserves_values, TimeSincePreviousSubmission._submission_value. values_kept. Qed.

Lemma ProblemTimeFromStart_keeps_outputs :
  preserves_values (ProblemTimeFromStart._submission_value).
Proof. unfold preserves_values, ProblemTimeFromStart._submission_value. values_kept. Qed.

Lemma SubmissionNumber_keeps_outputs :
  preserves_values (SubmissionNumber._submission_value).
Proof. unfold preserves_values, SubmissionNumber._submission_value. values_kept. Qed.

Lemma SessionTimeFromStart_keeps_outputs :
  preserves_values (SessionTimeFromStart._submission_value).
Proof. unfold preserves_values, SessionTimeFromStart._submission_value. values_kept. Qed.

Lemma SubmissionTimeDifference_keeps_outputs :
  preserves_values (SubmissionTimeDifference._submission_value).
Proof. unfold preserves_values, SubmissionTimeDifference._submission_value. values_kept. Qed.

Lemma ProblemsAttemptedCumulative_keeps_outputs :
  preserves_values (ProblemsAttemptedCumulative._submission_value).
Proof. unfold preserves_values, ProblemsAttemptedCumulative._submission_value. values_kept. Qed.

Lemma ProblemsCompletedCumulative_keeps_outputs :
  preserves_values (ProblemsCompletedCumulative._submission_value).
Proof. unfold preserves_values, ProblemsCompletedCumulative._submission_value. values_kept. Qed.

Lemma DatabaseChangesCumulative_keeps_outputs :
  preserves_values (DatabaseChangesCumulative._submission_value).
Proof. unfold preserves_values, DatabaseChangesCumulative._submission_value. values_kept. Qed.

Lemma IdenticalSubmission_keeps_outputs :
  preserves_values (IdenticalSubmission._submission_value).
Proof. unfold preserves_values, IdenticalSubmission._submission_value. values_kept. Qed.

Lemma StudentLevel_keeps_outputs (LOOKUP : lookup_table) :
  preserves_values (StudentLevel._submission_value LOOKUP).
Proof. unfold preserves_values, StudentLevel._submission_value. values_kept. Qed.

Lemma StudentLevelComplexityDifference_keeps_outputs (LOOKUP : lookup_table) :
  preserves_values (StudentLevelComplexityDifference._submission_value LOOKUP).
Proof. unfold preserves_values, StudentLevelComplexityDifference._submission_value, StudentLevel._submission_value. values_kept. Qed.

Lemma FirstSubmitTimePrev_keeps_outputs :
  preserves_values (FirstSubmitTimePrev._submission_value).
Proof. unfold preserves_values, FirstSubmitTimePrev._submission_value. values_kept. Qed.

Lemma TimeTakenPrev_keeps_outputs :
  preserves_values (TimeTakenPrev._submission_value).
Proof. unfold preserves_values, TimeTakenPrev._submission_value. values_kept. Qed.

Lemma CompletedPrev_keeps_outputs :
  preserves_values (CompletedPrev._submission_value).
Proof. unfold preserves_values, CompletedPrev._submission_value. values_kept. Qed.

Lemma SubmissionCountPrev_keeps_outputs :
  preserves_values (SubmissionCountPrev._submission_value).
Proof. unfold preserves_values, SubmissionCountPrev._submission_value. values_kept. Qed.

Lemma MaxViolatedConstraints_keeps_outputs :
  preserves_values (MaxViolatedConstraints._submission_value).
Proof. unfold preserves_values, MaxViolatedConstraints._submission_value. values_kept. Qed.

Lemma NumberWrongSubmissions_keeps_outputs :
  preserves_values (NumberWrongSubmissions._submission_value).
Proof. unfold preserves_values, NumberWrongSubmissions._submission_value. values_kept. Qed.

Lemma AverageSubmissionTime_keeps_outputs :
  preserves_values (AverageSubmissionTime._submission_value).
Proof. unfold preserves_values, AverageSubmissionTime._submission_value. values_kept. Qed.

Lemma LatestSubmissionTime_keeps_outputs :
  preserves_values (LatestSubmissionTime._submission_value).
Proof. unfold preserves_values, LatestSubmissionTime._submission_value. values_kept. Qed.

Lemma StdevSubmissionTime_keeps_outputs :
  preserves_values (StdevSubmissionTime._submission_value).
Proof. unfold preserves_values, StdevSubmissionTime._submission_value. values_kept. Qed.

Lemma MaxSubmissionTime_keeps_outputs :
  preserves_values (MaxSubmissionTime._submission_value).
Proof. unfold preserves_values, MaxSubmissionTime._submission_value. values_kept. Qed.

Lemma MinSubmissionTime_keeps_outputs :
  preserves_values (MinSubmissionTime._submission_value).
Proof. unfold preserves_values, MinSubmissionTime._submission_value. values_kept. Qed.

Lemma SameDatabasePrev_keeps_outputs :
  preserves_values (SameDatabasePrev._submission_value).
Proof. unfold preserves_values, SameDatabasePrev._submission_value. values_kept. Qed.

Lemma DifferentFeedbackOptionsPrev_keeps_outputs :
  preserves_values (DifferentFeedbackOptionsPrev._submission_value).
Proof. unfold preserves_values, DifferentFeedbackOptionsPrev._submission_value. values_kept. Qed.

Lemma TimeSinceSessionStartPrev_keeps_outputs :
  preserves_values (TimeSinceSessionStartPrev._submission_value).
Proof. unfold preserves_values, TimeSinceSessionStartPrev._submission_value. values_kept. Qed.

Lemma ProblemComplexityPrev_keeps_outputs (LOOKUP : lookup_table) :
  preserves_values (ProblemComplexityPrev._submission_value LOOKUP).
Proof. unfold preserves_values, ProblemComplexityPrev._submission_value. values_kept. Qed.

Lemma TimeUntilFirstSubmission_keeps_outputs :
  preserves_derived (TimeUntilFirstSubmission._submission_value).
Proof. unfold preserves_derived, TimeUntilFirstSubmission._submission_value. values_kept. Qed.

Lemma ViolatedConstraints_keeps_outputs :
  preserves_derived (ViolatedConstraints._submission_value).
Proof. unfold preserves_derived, ViolatedConstraints._submission_value. values_kept. Qed.

Lemma TimeSpentOnProblem_keeps_outputs :
  preserves_derived (TimeSpentOnProblem._submission_value).
Proof. unfold preserves_derived, TimeSpentOnProblem._submission_value. values_kept. Qed.

Lemma TimeBetweenSubmissions_keeps_outputs :
  preserves_derived (TimeBetweenSubmissions._submission_value).
Proof. unfold preserves_derived, TimeBetweenSubmissions._submission_value. values_kept. Qed.

Lemma NumberOfSubmissions_keeps_outputs :
  preserves_derived (NumberOfSubmissions._submission_value).
Proof. unfold preserves_derived, NumberOfSubmissions._submission_value. values_kept. Qed.

Lemma ProblemComplexity_keeps_outputs (LOOKUP : lookup_table) :
  preserves_derived (ProblemComplexity._submission_value LOOKUP).
Proof. unfold preserves_derived, ProblemComplexity._submission_value. values_kept. Qed.

Unset Implicit Arguments.

Lemma FEATURES_grow (LOOKUP : lookup_table) : Forall grows (FEATURES LOOKUP).
Proof.
  unfold FEATURES. repeat apply Forall_cons; [.. | apply Forall_nil].
  - apply cumulative_class_grows. apply ViolatedConstraints_keeps_outputs.
  - apply simple_class_grows. apply SatisfiedConstraints_keeps_outputs.
  - apply simple_class_grows. apply HelpLevel_keeps_outputs.
  - apply simple_class_grows. apply DecreasedViolatedConstraints_keeps_outputs.
  - apply simple_class_grows. apply TimeSincePreviousSubmission_keeps_outputs.
  - apply simple_class_grows. apply ProblemTimeFromStart_keeps_outputs.
  - apply simple_class_grows. apply SubmissionNumber_keeps_outputs.
  - apply simple_class_grows. apply SessionTimeFromStart_keeps_outputs.
  - apply simple_class_grows. apply SubmissionTimeDifference_keeps_outputs.
  - apply prev_class_grows. apply FirstSubmitTimePrev_keeps_outputs.
  - apply prev_class_grows. apply TimeTakenPrev_keeps_outputs.
  - apply prev_class_grows. apply CompletedPrev_keeps_outputs.
  - apply prev_class_grows. apply SubmissionCountPrev_keeps_outputs.
  - apply prev_class_grows. apply MaxViolatedConstraints_keeps_outputs.
  - apply prev_class_grows. apply NumberWrongSubmissions_keeps_outputs.
  - apply prev_class_grows. apply AverageSubmissionTime_keeps_outputs.
  - apply prev_class_grows. apply LatestSubmissionTime_keeps_outputs.
  - apply prev_class_grows. apply StdevSubmissionTime_keeps_outputs.
  - apply prev_class_grows. apply MaxSubmissionTime_keeps_outputs.
  - apply prev_class_grows. apply MinSubmissionTime_keeps_outputs.
  - apply prev_class_grows. apply SameDatabasePrev_keeps_outputs.
  - apply prev_class_grows. apply DifferentFeedbackOptionsPrev_keeps_outputs.
  - apply prev_class_grows. apply TimeSinceSessionStartPrev_keeps_outputs.
  - apply simple_class_grows. apply ProblemsAttemptedCumulative_keeps_outputs.
  - apply simple_class_grows. apply ProblemsCompletedCumulative_keeps_outputs.
  - apply simple_class_grows. apply DatabaseChangesCumulative_keeps_outputs.
  - apply cumulative_class_grows. apply TimeSpentOnProblem_keeps_outputs.
  - apply cumulative_class_grows. apply TimeBetweenSubmissions_keeps_outputs.
  - apply cumulative_class_grows. apply NumberOfSubmissions_keeps_outputs.
  - apply cumulative_class_grows. apply ProblemComplexity_keeps_outputs.
  - apply prev_class_grows. apply ProblemComplexityPrev_keeps_outputs.
  - apply simple_class_grows. apply StudentLevel_keeps_outputs.
  - apply simple_class_grows. apply StudentLevelComplexityDifference_keeps_outputs.
  - apply simple_class_grows. apply IdenticalSubmission_keeps_outputs.
  - apply cumulative_class_grows. apply TimeUntilFirstSubmission_keeps_outputs.
Qed.

Lemma FEATURES_start_empty (LOOKUP : lookup_table) :
  Forall (rows 0) (map feature_new (FEATURES LOOKUP)).
Proof.
  unfold FEATURES. simpl.
  repeat apply Forall_cons; try apply Forall_nil;
    unfold rows, columns; simpl; repeat constructor.
Qed.

Lemma rows_column_lengths (n : nat) (f : feature) :
  rows n f <-> column_lengths f = map (fun _ => n) (columns f).
Proof.
  unfold rows, column_lengths. induction (columns f) as [|c cs IH]; simpl.
  - split; auto.
  - split.
    + intros H. inversion H; subst. f_equal. apply IH. assumption.
    + intros H. injection H as H1 H2. constructor; [exact H1|].
      apply IH. exact H2.
Qed.

Lemma lengths_all (n : nat) (cols ds : list (list value)) :
  map (@List.length value) cols = map (fun _ => n) ds ->
  Forall (fun col : list value => List.length col = n) cols.
Proof.
  revert ds. induction cols as [|col cols IH]; intros [|d ds] E;
    simpl in E; try discriminate; constructor; injection E as E1 E2.
  - exact E1.
  - apply (IH ds E2).
Qed.

Lemma feature_new_submission_rows (n : nat) (f f' : feature) (s : Submission) :
  grows (cls f) -> rows n f ->
  feature_new_submission f s = Ok f' ->
  cls f' = cls f /\ rows (S n) f'.
Proof.
  intros Hg Hr H. unfold feature_new_submission in H.
  bind_inv H as self' Hs. inversion H; subst f'; clear H.
  split; [reflexivity|]. simpl.
  apply Hg in Hs. destruct f as [c self]. simpl in *.
  apply rows_column_lengths in Hr.
  unfold rows. unfold column_lengths in *.
  rewrite Hr, map_map in Hs.
  exact (lengths_all _ _ _ Hs).
Qed.

Lemma for_each_new_submission_rows (n : nat) (s : Submission)
    (fs fs' : list feature) :
  Forall grows (map cls fs) -> Forall (rows n) fs ->
  for_each (fun f => feature_new_submission f s) fs = Ok fs' ->
  map cls fs' = map cls fs /\ Forall (rows (S n)) fs'.
Proof.
  revert fs'. induction fs as [|f fs IH]; intros fs' Hg Hr H; simpl in H.
  - inversion H. split; [reflexivity | constructor].
  - bind_inv H as f1 Hf1. bind_inv H as fs1 Hfs1.
    inversion H; subst fs'; clear H.
    simpl in Hg. apply Forall_cons_iff in Hg. destruct Hg as [Hg1 Hg2].
    apply Forall_cons_iff in Hr. destruct Hr as [Hr1 Hr2].
    destruct (feature_new_submission_rows n f f1 s Hg1 Hr1 Hf1) as [Ec Er].
    destruct (IH fs1 Hg2 Hr2 Hfs1) as [Ecs Ers].
    simpl. rewrite Ec, Ecs. split; [reflexivity|].
    constructor; assumption.
Qed.

Lemma build_loop_rows (submissions : list Submission) :
  forall (n : nat) (fs fs' : list feature),
    Forall grows (map cls fs) -> Forall (rows n) fs ->
    build_loop fs submissions = Ok fs' ->
    map cls fs' = map cls fs
    /\ Forall (rows (n + List.length (consumed submissions))) fs'.
Proof.
  induction submissions as [|s rest IH]; intros n fs fs' Hg Hr H; simpl in H.
  - inversion H; subst. simpl. rewrite Nat.add_0_r. auto.
  - unfold consumed. simpl.
    destruct (should_skip_subm s); simpl.
    + apply IH; assumption.
    + bind_inv H as fs1 H1.
      destruct (for_each_new_submission_rows n s fs fs1 Hg Hr H1) as [Ec Er].
      rewrite <- Ec in Hg.
      destruct (IH (S n) fs1 fs' Hg Er H) as [Ec' Er'].
      split; [congruence|].
      fold (consumed rest).
      replace (n + S (List.length (consumed rest)))%nat
        with (S n + List.length (consumed rest))%nat by lia.
      exact Er'.
Qed.

Lemma build_loop_consumed (submissions : list Submission)
    (fs : list feature) :
  build_loop fs submissions = build_loop fs (consumed submissions).
Proof.
  revert fs. induction submissions as [|s rest IH]; intros fs;
    [reflexivity|].
  unfold consumed. simpl.
  destruct (should_skip_subm s) eqn:E; simpl.
  - apply IH.
  - rewrite E. destruct (for_each _ fs); simpl; [apply IH | reflexivity].
Qed.

Lemma should_skip_subm_iff (s : Submission) :
  should_skip_subm s = true <-> solution s = None /\ begin_session s = None.
Proof.
  unfold should_skip_subm.
  destruct (solution s), (begin_session s); simpl; split;
    try discriminate; try (intros [? ?]; discriminate); auto.
Qed.

Lemma map_cls_feature_new (cs : list Feature) :
  map cls (map feature_new cs) = cs.
Proof. induction cs; simpl; congruence. Qed.

Lemma rows_values (n : nat) (f : feature) :
  rows n f -> List.length (values f) = n.
Proof.
  unfold rows, columns.
  destruct (derived (cls f) (self_ f)) as [[[[mx mn] me] sd]|];
    intros H; inversion H; assumption.
Qed.

Lemma build_features_rows (LOOKUP : lookup_table)
    (submissions : list Submission) (fs : list feature) :
  build_features LOOKUP submissions = Ok fs ->
  map cls fs = FEATURES LOOKUP
  /\ Forall (fun f => List.length (values f) =
                      List.length (consumed submissions)) fs
  /\ Forall (rows (List.length (consumed submissions))) fs.
Proof.
  intros H. unfold build_features in H.
  apply (build_loop_rows submissions 0) in H.
  - destruct H as [Ec Er]. rewrite map_cls_feature_new in Ec.
    simpl in Er. repeat split; try assumption.
    eapply Forall_impl; [|exact Er]. intros f. apply rows_values.
  - rewrite map_cls_feature_new. apply FEATURES_grow.
  - apply FEATURES_start_empty.
Qed.

(** C2.  A submission is skipped exactly when it has neither a solution
    text nor a session-begin timestamp; the framework's result is the one
    it computes for the sequence without the skipped submissions (no
    extractor consumes them); and when the framework returns, the objects
    are one per registered class, in order, and every output sequence of
    every extractor (its values, and the four derived sequences of a
    cumulative extractor) has as many cells as there are non-skipped
    submissions. *)
Theorem build_features_aligned (LOOKUP : lookup_table)
    (submissions : list Submission) :
  (forall s : Submission,
      should_skip_subm s = true <->
      solution s = None /\ begin_session s = None)
  /\ build_features LOOKUP submissions =
     build_features LOOKUP (consumed submissions)
  /\ forall fs : list feature,
      build_features LOOKUP submissions = Ok fs ->
      map cls fs = FEATURES LOOKUP
      /\ Forall (fun f => List.length (values f) =
                          List.length (consumed submissions)) fs
      /\ Forall (rows (List.length (consumed submissions))) fs.
Proof.
  split; [apply should_skip_subm_iff|].
  split; [apply build_loop_consumed|].
  apply build_features_rows.
Qed.

Lemma build_features_aligned_witness :
  exists fs : list feature,
    build_features example_LOOKUP (events_to_submissions example_events) =
      Ok fs
    /\ map cls fs = FEATURES example_LOOKUP
    /\ Forall (fun f => List.length (values f) = 3%nat) fs.
Proof.
  assert (R : is_Ok (build_features example_LOOKUP
                       (events_to_submissions example_events)) = true)
    by (vm_compute; reflexivity).
  assert (L : List.length (consumed (events_to_submissions example_events))
              = 3%nat) by (vm_compute; reflexivity).
  destruct (build_features example_LOOKUP
              (events_to_submissions example_events)) as [fs|e] eqn:E;
    [|discriminate R].
  exists fs. split; [reflexivity|].
  destruct (proj2 (proj2 (build_features_aligned example_LOOKUP
                            (events_to_submissions example_events))) fs E)
    as (Hc & Hv & _).
  rewrite L in Hv. split; [exact Hc | exact Hv].
Defined.

(** ** From the framework to a single extractor *)

Lemma consume_all_run (c : Feature) (subs : list Submission) :
  forall self : FeatureBase (attrs_t c),
    consume_all (mk_obj c self) subs =
    (self' <- run c self subs ;; Ok (mk_obj c self')).
Proof.
  induction subs as [|s rest IH]; intros self; simpl; [reflexivity|].
  unfold feature_new_submission. simpl.
  destruct (new_submission c self s) as [self1|e]; simpl;
    [apply IH | reflexivity].
Qed.

Lemma for_each_Forall2 (s : Submission) (fs fs' : list feature) :
  for_each (fun f => feature_new_submission f s) fs = Ok fs' ->
  Forall2 (fun f f' => feature_new_submission f s = Ok f') fs fs'.
Proof.
  revert fs'. induction fs as [|f fs IH]; intros fs' H; simpl in H.
  - inversion H. constructor.
  - bind_inv H as f1 Hf1. bind_inv H as fs1 Hfs1. inversion H; subst.
    constructor; [assumption | apply IH; assumption].
Qed.

Lemma build_loop_consume_all (submissions : list Submission) :
  forall fs fs' : list feature,
    build_loop fs submissions = Ok fs' ->
    Forall2 (fun f f' => consume_all f (consumed submissions) = Ok f') fs fs'.
Proof.
  induction submissions as [|s rest IH]; intros fs fs' H; simpl in H.
  - inversion H; subst. induction fs'; constructor; auto.
  - unfold consumed. simpl. destruct (should_skip_subm s); simpl.
    + apply IH. assumption.
    + bind_inv H as fs1 H1. apply for_each_Forall2 in H1.
      apply IH in H. fold (consumed rest).
      clear IH. revert fs' H. induction H1 as [|f f1 fs fs1 Hf _ IH1];
        intros fs' H; inversion H; subst; constructor.
      * simpl. rewrite Hf. simpl. assumption.
      * apply IH1. assumption.
Qed.

Lemma Forall2_nth_error {A B : Type} (R : A -> B -> Prop)
    (l : list A) (l' : list B) :
  Forall2 R l l' ->
  forall k a b, nth_error l k = Some a -> nth_error l' k = Some b -> R a b.
Proof.
  induction 1 as [|x y l l' Hxy _ IH]; intros [|k] a b Ha Hb;
    simpl in *; try discriminate.
  - inversion Ha; inversion Hb; subst. assumption.
  - eapply IH; eassumption.
Qed.

(** The object that [build_features] returns at position [k] is the
    instance of the [k]-th registered class after it consumed the
    non-skipped submissions. *)
Lemma build_features_nth (LOOKUP : lookup_table)
    (submissions : list Submission) (fs : list feature) (k : nat)
    (c : Feature) (f : feature) :
  build_features LOOKUP submissions = Ok fs ->
  nth_error (FEATURES LOOKUP) k = Some c ->
  nth_error fs k = Some f ->
  exists self : FeatureBase (attrs_t c),
    run c (init c) (consumed submissions) = Ok self /\ f = mk_obj c self.
Proof.
  intros H Hc Hf. unfold build_features in H.
  apply build_loop_consume_all in H.
  assert (Hn : nth_error (map feature_new (FEATURES LOOKUP)) k =
               Some (feature_new c)).
  { rewrite nth_error_map, Hc. reflexivity. }
  pose proof (Forall2_nth_error _ _ _ H k _ _ Hn Hf) as Hr.
  unfold feature_new in Hr. rewrite consume_all_run in Hr.
  destruct (run c (init c) (consumed submissions)) as [self|e];
    simpl in Hr; [|discriminate].
  exists self. split; [reflexivity|]. inversion Hr. reflexivity.
Qed.

(** ** Extractors whose cell depends on the two latest submissions *)

Lemma run_simple_cells {A : Type} (nm : string) (a : A)
    (hook : @submission_value_hook A)
    (cell : option Submission -> Submission -> value) :
  (forall self s,
      _submission self = Some s ->
      hook self = Ok (cell (_last_submission self) s, self)) ->
  forall (subs : list Submission) (self self' : FeatureBase A),
    run (simple_class nm a hook) self subs = Ok self' ->
    _values self' = _values self ++ cells cell (_submission self) subs.
Proof.
  intros Hhook. induction subs as [|s rest IH]; intros self self' H;
    simpl in H.
  - inversion H; subst. simpl. rewrite app_nil_r. reflexivity.
  - bind_inv H as self1 H1.
    unfold FeatureBase_new_submission in H1.
    rewrite (Hhook (shift_submission self s) s eq_refl) in H1.
    simpl in H1. inversion H1; subst self1; clear H1.
    apply IH in H. simpl in H. rewrite H, <- app_assoc. reflexivity.
Qed.

Lemma cells_length cell prev (subs : list Submission) :
  List.length (cells cell prev subs) = List.length subs.
Proof.
  revert prev. induction subs as [|s rest IH]; intros prev; simpl;
    [reflexivity | rewrite IH; reflexivity].
Qed.

Lemma cells_first cell prev (subs : list Submission) (s : Submission)
    (v : value) :
  nth_error subs 0 = Some s -> nth_error (cells cell prev subs) 0 = Some v ->
  v = cell prev s.
Proof.
  destruct subs as [|s0 rest]; simpl; intros Hs Hv; [discriminate|].
  inversion Hs; inversion Hv; subst. reflexivity.
Qed.

Lemma cells_later cell (subs : list Submission) :
  forall prev (j : nat) (p s : Submission) (v : value),
    nth_error subs j = Some p -> nth_error subs (S j) = Some s ->
    nth_error (cells cell prev subs) (S j) = Some v ->
    v = cell (Some p) s.
Proof.
  induction subs as [|s0 rest IH]; intros prev j p s v Hp Hs Hv;
    [destruct j; discriminate|].
  destruct j as [|j]; simpl in *.
  - inversion Hp; subst s0. eapply cells_first; eassumption.
  - eapply IH; eassumption.
Qed.

Lemma finalized_submit_time (current : Submission) (e : LogEvent)
    (s : Submission) :
  In s (finalized current e) -> submit_time s = Some (timestamp e).
Proof.
  unfold finalized. destruct (kind e); simpl; try contradiction.
  intros [<-|[]]. reflexivity.
Qed.

Lemma events_to_submissions_submit_time (events : list LogEvent)
    (s : Submission) :
  In s (events_to_submissions events) -> submit_time s <> None.
Proof.
  induction events as [|e events IH] using rev_ind.
  - intros [].
  - rewrite events_to_submissions_snoc. intros H.
    apply in_app_or in H. destruct H as [H|H]; [apply IH; exact H|].
    apply finalized_submit_time in H. rewrite H. discriminate.
Qed.

Lemma consumed_In (submissions : list Submission) (s : Submission) :
  In s (consumed submissions) -> In s submissions.
Proof. unfold consumed. intros H. apply filter_In in H. tauto. Qed.

Lemma TimeSincePreviousSubmission_hook_cell :
  forall (self : FeatureBase unit) (s : Submission),
    _submission self = Some s ->
    TimeSincePreviousSubmission._submission_value self =
    Ok (TimeSincePreviousSubmission_cell (_last_submission self) s, self).
Proof.
  intros self s Hs.
  unfold TimeSincePreviousSubmission._submission_value,
    TimeSincePreviousSubmission_cell, the_submission.
  rewrite Hs. destruct (_last_submission self) as [l|]; [|reflexivity].
  simpl. destruct (isSome (begin_session s)); [reflexivity|].
  destruct (submit_time s), (submit_time l); reflexivity.
Qed.

(** C8.  In the result of the framework on the submissions of any event
    sequence, the cell of [time_since_previous_submission] for a consumed
    submission is null when it is the first consumed submission, null
    when the submission carries a session-begin timestamp, and otherwise
    the number of seconds from the previous consumed submission's submit
    time to its own (both submit times exist). *)
Theorem time_since_previous_submission_cells (LOOKUP : lookup_table)
    (events : list LogEvent) (fs : list feature) (f : feature) :
  build_features LOOKUP (events_to_submissions events) = Ok fs ->
  nth_error fs 4 = Some f ->
  name (cls f) = "time_since_previous_submission"%string
  /\ List.length (values f) =
     List.length (consumed (events_to_submissions events))
  /\ forall (i : nat) (s : Submission) (v : value),
      nth_error (consumed (events_to_submissions events)) i = Some s ->
      nth_error (values f) i = Some v ->
      (i = 0%nat -> v = VNone)
      /\ (begin_session s <> None -> v = VNone)
      /\ (forall (j : nat) (p : Submission),
             i = S j ->
             nth_error (consumed (events_to_submissions events)) j = Some p ->
             begin_session s = None ->
             exists a b : datetime,
               submit_time s = Some a /\ submit_time p = Some b
               /\ v = VNum (total_seconds a b)).
Proof.
  intros H Hf.
  destruct (build_features_nth LOOKUP _ fs 4
              TimeSincePreviousSubmission.cls f H eq_refl Hf)
    as (self & Hrun & ->).
  unfold TimeSincePreviousSubmission.cls in Hrun.
  apply (run_simple_cells _ _ _ _ TimeSincePreviousSubmission_hook_cell)
    in Hrun.
  simpl in Hrun. unfold values. simpl.
  split; [reflexivity|]. rewrite Hrun.
  split; [apply cells_length|].
  intros i s v Hs Hv. repeat split.
  - intros ->. rewrite (cells_first _ _ _ _ _ Hs Hv). reflexivity.
  - intros Hb. destruct i as [|j].
    + rewrite (cells_first _ _ _ _ _ Hs Hv). reflexivity.
    + destruct (nth_error (consumed (events_to_submissions events)) j)
        as [p|] eqn:Hp.
      * rewrite (cells_later _ _ _ _ _ _ _ Hp Hs Hv).
        unfold TimeSincePreviousSubmission_cell.
        destruct (begin_session s); [reflexivity | contradiction].
      * apply nth_error_None in Hp.
        assert (nth_error (consumed (events_to_submissions events)) (S j)
                <> None) by (rewrite Hs; discriminate).
        apply nth_error_Some in H0. lia.
  - intros j p -> Hp Hb.
    rewrite (cells_later _ _ _ _ _ _ _ Hp Hs Hv).
    unfold TimeSincePreviousSubmission_cell. rewrite Hb. simpl.
    assert (Ss : submit_time s <> None).
    { apply (events_to_submissions_submit_time events).
      apply consumed_In. eapply nth_error_In. exact Hs. }
    assert (Sp : submit_time p <> None).
    { apply (events_to_submissions_submit_time events).
      apply consumed_In. eapply nth_error_In. exact Hp. }
    destruct (submit_time s) as [a|]; [|contradiction].
    destruct (submit_time p) as [b|]; [|contradiction].
    exists a, b. auto.
Qed.

(** The worked log: the submissions made 30 and 42 seconds into the
    session give 12 for the second. *)
Lemma time_since_previous_submission_witness :
  exists (fs : list feature) (f : feature),
    build_features example_LOOKUP (events_to_submissions example_events) =
      Ok fs
    /\ nth_error fs 4 = Some f
    /\ nth_error (values f) 1 = Some (VNum 12).
Proof.
  assert (R : match build_features example_LOOKUP
                      (events_to_submissions example_events) with
              | Ok fs => isSome (nth_error fs 4)
              | Raise _ => false
              end = true) by (vm_compute; reflexivity).
  destruct (build_features example_LOOKUP
              (events_to_submissions example_events)) as [fs|e] eqn:E;
    [|discriminate R].
  destruct (nth_error fs 4) as [f|] eqn:Ef; [|discriminate R].
  exists fs, f. split; [reflexivity|]. split; [exact Ef|].
  destruct (time_since_previous_submission_cells example_LOOKUP
              example_events fs f E Ef) as (_ & Hl & Hc).
  destruct (nth_error (values f) 1) as [v|] eqn:Ev.
  - destruct (nth_error (consumed (events_to_submissions example_events)) 1)
      as [s|] eqn:Es; [|vm_compute in Es; discriminate Es].
    destruct (nth_error (consumed (events_to_submissions example_events)) 0)
      as [p|] eqn:Ep; [|vm_compute in Ep; discriminate Ep].
    destruct (Hc 1%nat s v Es Ev) as (_ & _ & H3).
    vm_compute in Es. vm_compute in Ep.
    injection Es as <-. injection Ep as <-.
    destruct (H3 0%nat _ eq_refl eq_refl eq_refl)
      as (a & b & Ha & Hb & ->).
    injection Ha as <-. injection Hb as <-. reflexivity.
  - apply nth_error_None in Ev. rewrite Hl in Ev.
    vm_compute in Ev. lia.
Defined.

Lemma option_string_eqb_eq (a b : option string) :
  option_string_eqb a b = true <-> a = b.
Proof.
  destruct a as [x|], b as [y|]; simpl; split; intros H;
    try discriminate; try reflexivity.
  - apply String.eqb_eq in H. congruence.
  - inversion H. apply String.eqb_refl.
Qed.

Lemma IdenticalSubmission_hook_cell :
  forall (self : FeatureBase StudentLevel.own_attrs) (s : Submission),
    _submission self = Some s ->
    IdenticalSubmission._submission_value self =
    Ok (IdenticalSubmission_cell (_last_submission self) s, self).
Proof.
  intros self s Hs.
  unfold IdenticalSubmission._submission_value, IdenticalSubmission_cell.
  rewrite Hs. destruct (_last_submission self); reflexivity.
Qed.

(** C9.  In the result of the framework, the cell of
    [submission_same_as_previous] for the first consumed submission is
    [False] (not null), and for every later consumed submission it is the
    boolean that is [True] exactly when its solution text equals that of
    the previous consumed submission. *)
Theorem submission_same_as_previous_cells (LOOKUP : lookup_table)
    (submissions : list Submission) (fs : list feature) (f : feature) :
  build_features LOOKUP submissions = Ok fs ->
  nth_error fs 33 = Some f ->
  name (cls f) = "submission_same_as_previous"%string
  /\ List.length (values f) = List.length (consumed submissions)
  /\ forall (i : nat) (s : Submission) (v : value),
      nth_error (consumed submissions) i = Some s ->
      nth_error (values f) i = Some v ->
      (i = 0%nat -> v = VBool false)
      /\ (forall (j : nat) (p : Submission),
             i = S j ->
             nth_error (consumed submissions) j = Some p ->
             exists b : bool,
               v = VBool b /\ (b = true <-> solution s = solution p)).
Proof.
  intros H Hf.
  destruct (build_features_nth LOOKUP _ fs 33
              IdenticalSubmission.cls f H eq_refl Hf)
    as (self & Hrun & ->).
  unfold IdenticalSubmission.cls in Hrun.
  apply (run_simple_cells _ _ _ _ IdenticalSubmission_hook_cell) in Hrun.
  simpl in Hrun. unfold values. simpl.
  split; [reflexivity|]. rewrite Hrun.
  split; [apply cells_length|].
  intros i s v Hs Hv. split.
  - intros ->. rewrite (cells_first _ _ _ _ _ Hs Hv). reflexivity.
  - intros j p -> Hp.
    rewrite (cells_later _ _ _ _ _ _ _ Hp Hs Hv). simpl.
    eexists. split; [reflexivity|]. apply option_string_eqb_eq.
Qed.

Lemma submission_same_as_previous_witness :
  exists (fs : list feature) (f : feature),
    build_features example_LOOKUP (events_to_submissions example_events) =
      Ok fs
    /\ nth_error fs 33 = Some f
    /\ nth_error (values f) 0 = Some (VBool false)
    /\ List.length (values f) = 3%nat.
Proof.
  assert (R : match build_features example_LOOKUP
                      (events_to_submissions example_events) with
              | Ok fs => isSome (nth_error fs 33)
              | Raise _ => false
              end = true) by (vm_compute; reflexivity).
  destruct (build_features example_LOOKUP
              (events_to_submissions example_events)) as [fs|e] eqn:E;
    [|discriminate R].
  destruct (nth_error fs 33) as [f|] eqn:Ef; [|discriminate R].
  exists fs, f. split; [reflexivity|]. split; [exact Ef|].
  destruct (submission_same_as_previous_cells example_LOOKUP
              (events_to_submissions example_events) fs f E Ef)
    as (_ & Hl & Hc).
  assert (L : List.length (consumed (events_to_submissions example_events))
              = 3%nat) by (vm_compute; reflexivity).
  rewrite L in Hl. split; [|exact Hl].
  destruct (nth_error (values f) 0) as [v|] eqn:Ev.
  - destruct (nth_error (consumed (events_to_submissions example_events)) 0)
      as [s|] eqn:Es; [|vm_compute in Es; discriminate Es].
    destruct (Hc 0%nat s v Es Ev) as (H0 & _).
    rewrite (H0 eq_refl). reflexivity.
  - apply nth_error_None in Ev. rewrite Hl in Ev. lia.
Defined.

(** ** [prev_time_taken] *)

Lemma TimeTakenPrev_value_None (self : PreviousProblem unit) :
  match TimeTakenPrev._submission_value self with
  | Ok (v, _) => v = VNone
  | Raise _ => True
  end.
Proof.
  unfold TimeTakenPrev._submission_value.
  destruct (py_first _); simpl; [|exact I].
  destruct (py_last _); simpl; [|exact I].
  destruct (sub_seconds _ _) as [t|[]]; simpl; auto.
Qed.

(** C7 (as the code behaves).  [TimeTakenPrev._submission_value] never
    returns the elapsed time it computes: every cell it yields is null.
    On the worked log the run of problem 1 lasts from 10:00:05 to
    10:00:42, 37 seconds, and the cell for the following run is null. *)
Theorem prev_time_taken_is_null :
  (forall self : PreviousProblem unit,
      match TimeTakenPrev._submission_value self with
      | Ok (v, _) => v = VNone
      | Raise _ => True
      end)
  /\ returned (build_features example_LOOKUP
                 (events_to_submissions example_events))
       (fun fs => (option_map (fun f => name (cls f)) (nth_error fs 10),
                   columns_of 10 fs)) =
     Some (Some "prev_time_taken"%string, Some [[VNone; VNone; VNone]])
  /\ total_seconds (at_time 10 0 42) (at_time 10 0 5) = 37
  /\ option_map (fun s => (problem_id s, begin_time s))
       (nth_error (consumed (events_to_submissions example_events)) 0) =
     Some (Some 1, Some (at_time 10 0 5))
  /\ option_map (fun s => (problem_id s, submit_time s))
       (nth_error (consumed (events_to_submissions example_events)) 1) =
     Some (Some 1, Some (at_time 10 0 42))
  /\ option_map problem_id
       (nth_error (consumed (events_to_submissions example_events)) 2) =
     Some (Some 2).
Proof.
  split; [exact TimeTakenPrev_value_None|].
  repeat apply conj; vm_compute; reflexivity.
Qed.

(** ** Warm-up trimming *)

(** C10.  A submission that carries a session-begin timestamp restarts
    the set of attempted problems, so its cell is 1 whatever was attempted
    before.  On the worked log with a second login the cells are 1, 1, 2,
    1, and trimming keeps only the third row of every sequence: the fourth
    row, which follows the second login, is dropped although the row
    before it is kept. *)
Theorem problems_attempted_resets_at_session_start :
  (forall (self : FeatureBase (list (option Z))) (s : Submission)
          (b : datetime),
      FeatureBase_new_submission
        ProblemsAttemptedCumulative._submission_value self
        (set_begin_session (Some b) s) =
      Ok (mk_feature (_submission self)
            (Some (set_begin_session (Some b) s))
            (_values self ++ [VNum 1]) [problem_id s]))
  /\ returned (build_features example_LOOKUP
                 (events_to_submissions example_events_relogin))
       (fun fs => (option_map (fun f => name (cls f)) (nth_error fs 23),
                   columns_of 23 fs)) =
     Some (Some "session_problems_attempted"%string,
           Some [[VNum 1; VNum 1; VNum 2; VNum 1]])
  /\ option_map (fun s => isSome (begin_session s))
       (nth_error
          (consumed (events_to_submissions example_events_relogin)) 3) =
     Some true
  /\ returned (extract_data example_LOOKUP example_events_relogin)
       (fun d => map columns (features d)) =
     returned (build_features example_LOOKUP
                 (events_to_submissions example_events_relogin))
       (fun fs =>
          map (fun f => map (fun col => firstn 1 (skipn 2 col)) (columns f))
            fs).
Proof.
  split.
  - intros self s b. reflexivity.
  - repeat apply conj; vm_compute; reflexivity.
Qed.

(** ** The timestamp extractor *)

Lemma cut_at_space_token (t rest : string) :
  no_space t = true ->
  cut_at_space (t ++ String space rest) = Some (t, rest).
Proof.
  induction t as [|c t IH]; simpl; intros H.
  - reflexivity.
  - apply andb_prop in H. destruct H as [Hc Ht].
    destruct (Ascii.eqb c space); [discriminate|].
    rewrite (IH Ht). reflexivity.
Qed.

Lemma re_split_space_line (t d rest : string) :
  no_space t = true -> no_space d = true ->
  re_split_space 2 (log_line t d rest) = [t; d; rest].
Proof.
  intros Ht Hd. unfold log_line. simpl.
  rewrite (cut_at_space_token t _ Ht), (cut_at_space_token d _ Hd).
  reflexivity.
Qed.

Lemma rstrip_snoc (c : ascii) (s : string) :
  rstrip c (s ++ String c EmptyString) = rstrip c s.
Proof.
  induction s as [|a s IH]; simpl.
  - rewrite Ascii.eqb_refl. reflexivity.
  - rewrite IH. reflexivity.
Qed.

Lemma string_app_assoc (a b c : string) :
  ((a ++ b) ++ c = a ++ (b ++ c))%string.
Proof. induction a as [|x a IH]; simpl; [reflexivity | rewrite IH; reflexivity]. Qed.

Lemma strip_snoc (c : ascii) (s : string) :
  strip c (s ++ String c EmptyString) = strip c s.
Proof. unfold strip. rewrite rstrip_snoc. reflexivity. Qed.

(** C6, amended.  On a line made of a time token, a space, a date token,
    a space and a remainder, the extractor (and its copy in
    [MultilineLogEvent]) succeeds exactly when the two tokens, joined by
    a space and stripped of leading and trailing semicolons, are a
    24-hour time and a day/month/year date, and it then returns the
    parsed timestamp and the remainder; a semicolon at the end of the
    timestamp, that is after the date token, is stripped. *)
Theorem timestamp_extract_line (time_token date_token rest : string) :
  no_space time_token = true -> no_space date_token = true ->
  timestamp_extract (log_line time_token date_token rest) =
    match strptime
            (strip semicolon
               (time_token ++ String space EmptyString ++ date_token)) with
    | Some ts => Ok (ts, rest)
    | None => Raise (ValueError "Couldn't parse log file timestamp")
    end
  /\ _timestamp_extract (log_line time_token date_token rest) =
     timestamp_extract (log_line time_token date_token rest)
  /\ timestamp_extract
       (log_line time_token (date_token ++ String semicolon EmptyString)
          rest) =
     timestamp_extract (log_line time_token date_token rest).
Proof.
  intros Ht Hd.
  assert (Hd' : no_space (date_token ++ String semicolon EmptyString) = true).
  { clear Ht. induction date_token as [|c d IH]; simpl in *;
      [reflexivity|].
    apply andb_prop in Hd. destruct Hd as [Hc Hd]. rewrite Hc, (IH Hd).
    reflexivity. }
  assert (E : forall d, no_space d = true ->
    timestamp_extract (log_line time_token d rest) =
    match strptime
            (strip semicolon (time_token ++ String space EmptyString ++ d)) with
    | Some ts => Ok (ts, rest)
    | None => Raise (ValueError "Couldn't parse log file timestamp")
    end).
  { intros d Hdd. unfold timestamp_extract.
    rewrite (re_split_space_line time_token d rest Ht Hdd). simpl.
    destruct (strptime _); reflexivity. }
  split; [apply E; exact Hd|]. split; [reflexivity|].
  rewrite (E _ Hd'), (E _ Hd).
  replace (time_token ++ String space EmptyString ++
           date_token ++ String semicolon EmptyString)%string
    with ((time_token ++ String space EmptyString ++ date_token)
          ++ String semicolon EmptyString)%string.
  - rewrite strip_snoc. reflexivity.
  - rewrite !string_app_assoc. reflexivity.
Qed.

Lemma timestamp_extract_line_witness :
  timestamp_extract "12:00:05 01/02/2020; Logged in" =
    Ok (mk_datetime 2020 2 1 12 0 5, "Logged in"%string)
  /\ timestamp_extract "12:00:05 01/02/2020 Logged in" =
    Ok (mk_datetime 2020 2 1 12 0 5, "Logged in"%string).
Proof.
  destruct (timestamp_extract_line "12:00:05" "01/02/2020" "Logged in"
              eq_refl eq_refl) as (H1 & _ & H3).
  split.
  - etransitivity; [exact H3|]. etransitivity; [exact H1|].
    vm_compute. reflexivity.
  - etransitivity; [exact H1|]. vm_compute. reflexivity.
Defined.

(** C6 as stated fails: a semicolon on the time token is not stripped and
    the line is rejected, although the same line without it is accepted;
    and two valid tokens with nothing after them are rejected too. *)
Lemma timestamp_extract_time_semicolon :
  timestamp_extract "12:00:05; 01/02/2020 Logged in" =
    Raise (ValueError "Couldn't parse log file timestamp")
  /\ timestamp_extract "12:00:05 01/02/2020 Logged in" =
    Ok (mk_datetime 2020 2 1 12 0 5, "Logged in"%string)
  /\ timestamp_extract "12:00:05 01/02/2020" =
    Raise (ValueError "Log file line has unexpected structure").
Proof. repeat apply conj; vm_compute; reflexivity. Qed.

(** ** Row counts after trimming *)

Lemma py_del_length {A : Type} (i : nat) (xs xs' : list A) :
  py_del i xs = Ok xs' -> List.length xs = S (List.length xs').
Proof.
  revert i xs'. induction xs as [|x xs IH]; intros i xs' H; simpl in H.
  - destruct i; discriminate H.
  - destruct i as [|i].
    + inversion H. reflexivity.
    + bind_inv H as r Hr. inversion H; subst. simpl.
      rewrite (IH _ _ Hr). reflexivity.
Qed.

Lemma del_value_shrinks {A : Type} (i : nat) (self self' : FeatureBase A) :
  del_value i self = Ok self' ->
  List.length (_values self) = S (List.length (_values self'))
  /\ attrs self' = attrs self.
Proof.
  unfold del_value. intros H. bind_inv H as vs Hvs. inversion H; subst.
  simpl. split; [apply (py_del_length _ _ _ Hvs) | reflexivity].
Qed.

Lemma simple_class_shrinks {A : Type} (nm : string) (a : A)
    (hook : @submission_value_hook A) : shrinks (simple_class nm a hook).
Proof.
  intros i self self' H. simpl in H. apply del_value_shrinks in H.
  unfold column_lengths, columns, values. simpl. f_equal. tauto.
Qed.

Lemma prev_class_shrinks {B : Type} (nm : string) (b : B)
    (hook : @submission_value_hook (PrevAttrs B)) :
  shrinks (prev_class nm b hook).
Proof.
  intros i self self' H. simpl in H. apply del_value_shrinks in H.
  unfold column_lengths, columns, values. simpl. f_equal. tauto.
Qed.

Lemma cumulative_class_shrinks {B : Type} (nm : string) (b : B)
    (hooks : @CumulativeHooks B) : shrinks (cumulative_class nm b hooks).
Proof.
  intros i self self' H. simpl in H. unfold del_cumulative in H.
  bind_inv H as s1 H1. apply del_value_shrinks in H1.
  destruct H1 as [Lv Ea].
  bind_inv H as mx Hmx. bind_inv H as mn Hmn.
  bind_inv H as me Hme. bind_inv H as sd Hsd.
  inversion H; subst self'; clear H.
  apply py_del_length in Hmx, Hmn, Hme, Hsd. simpl in *.
  rewrite Ea in Hmx, Hmn, Hme, Hsd.
  unfold column_lengths, columns, values. simpl.
  rewrite Lv, Hmx, Hmn, Hme, Hsd. reflexivity.
Qed.

Lemma FEATURES_shrink (LOOKUP : lookup_table) :
  Forall shrinks (FEATURES LOOKUP).
Proof.
  unfold FEATURES.
  repeat (apply Forall_cons;
          [first [apply cumulative_class_shrinks
                 | apply prev_class_shrinks
                 | apply simple_class_shrinks]|]).
  apply Forall_nil.
Qed.

Lemma feature_del_row_rows (n i : nat) (f f' : feature) :
  shrinks (cls f) -> rows n f -> feature_del_row i f = Ok f' ->
  cls f' = cls f /\ rows (pred n) f'.
Proof.
  intros Hs Hr H. unfold feature_del_row in H.
  bind_inv H as self' Hd. inversion H; subst f'; clear H.
  split; [reflexivity|]. destruct f as [c self]. simpl in *.
  apply Hs in Hd. apply rows_column_lengths in Hr.
  unfold column_lengths in *. rewrite Hd in Hr. unfold rows.
  clear Hd. revert Hr.
  generalize (columns (mk_obj c self)).
  induction (columns (mk_obj c self')) as [|col cols IH];
    intros [|d ds] E; simpl in E; try discriminate; constructor;
    injection E as E1 E2.
  - rewrite <- E1. reflexivity.
  - apply (IH ds E2).
Qed.

Lemma for_each_del_row_rows (n i : nat) (fs fs' : list feature) :
  Forall shrinks (map cls fs) -> Forall (rows n) fs ->
  for_each (feature_del_row i) fs = Ok fs' ->
  map cls fs' = map cls fs /\ Forall (rows (pred n)) fs'.
Proof.
  revert fs'. induction fs as [|f fs IH]; intros fs' Hs Hr H; simpl in H.
  - inversion H. split; [reflexivity | constructor].
  - bind_inv H as f1 Hf1. bind_inv H as fs1 Hfs1.
    inversion H; subst fs'; clear H.
    simpl in Hs. apply Forall_cons_iff in Hs. destruct Hs as [Hs1 Hs2].
    apply Forall_cons_iff in Hr. destruct Hr as [Hr1 Hr2].
    destruct (feature_del_row_rows n i f f1 Hs1 Hr1 Hf1) as [Ec Er].
    destruct (IH fs1 Hs2 Hr2 Hfs1) as [Ecs Ers].
    simpl. rewrite Ec, Ecs. split; [reflexivity|].
    constructor; assumption.
Qed.

Lemma delete_loop_rows (indices : list nat) :
  forall (n : nat) (fs fs' : list feature),
    Forall shrinks (map cls fs) -> Forall (rows n) fs ->
    delete_loop indices fs = Ok fs' ->
    map cls fs' = map cls fs
    /\ Forall (rows (n - List.length indices)) fs'.
Proof.
  induction indices as [|i rest IH]; intros n fs fs' Hs Hr H; simpl in H.
  - inversion H; subst. simpl. rewrite Nat.sub_0_r. auto.
  - bind_inv H as fs1 H1.
    destruct (for_each_del_row_rows n i fs fs1 Hs Hr H1) as [Ec Er].
    rewrite <- Ec in Hs.
    destruct (IH (pred n) fs1 fs' Hs Er H) as [Ec' Er'].
    split; [congruence|]. simpl.
    replace (n - S (List.length rest))%nat
      with (pred n - List.length rest)%nat by lia.
    exact Er'.
Qed.

Lemma indices_loop_length (vals : list value) (indices : list nat) :
  forall acc r : list nat,
    indices_loop vals indices acc = Ok r ->
    List.length r =
    (List.length acc
     + List.length (filter (fun i => below_2 (nth i vals VNone)) indices))%nat.
Proof.
  induction indices as [|i rest IH]; intros acc r H; simpl in H.
  - inversion H; subst. simpl. lia.
  - bind_inv H as v Hv. bind_inv H as b Hb.
    unfold py_index in Hv.
    destruct (nth_error vals i) as [w|] eqn:Ew; [|discriminate].
    inversion Hv; subst w; clear Hv.
    unfold lt_2 in Hb.
    destruct (as_num v) as [z|] eqn:Ez; [|discriminate].
    inversion Hb; subst b; clear Hb.
    apply IH in H. rewrite H. simpl.
    rewrite (nth_error_nth _ _ VNone Ew).
    assert (Eb : below_2 v = (z <? 2))
      by (unfold below_2; rewrite Ez; reflexivity).
    rewrite Eb.
    destruct (z <? 2); simpl; rewrite ?length_app; simpl; lia.
Qed.

Lemma filter_seq_length {A : Type} (p : A -> bool) (d : A) (l : list A) :
  forall k : nat,
    List.length (filter (fun i => p (nth (i - k) l d))
                   (seq k (List.length l))) =
    List.length (filter p l).
Proof.
  induction l as [|a l IH]; intros k; simpl; [reflexivity|].
  rewrite Nat.sub_diag.
  rewrite (filter_ext_in (fun i => p (nth (i - k) (a :: l) d))
             (fun i => p (nth (i - S k) l d))).
  - destruct (p a); simpl; rewrite IH; reflexivity.
  - intros i Hi. apply in_seq in Hi.
    replace (i - k)%nat with (S (i - S k)) by lia. reflexivity.
Qed.

Lemma filter_seq_length_0 {A : Type} (p : A -> bool) (d : A) (l : list A) :
  List.length (filter (fun i => p (nth i l d)) (seq 0 (List.length l))) =
  List.length (filter p l).
Proof.
  rewrite <- (filter_seq_length p d l 0).
  f_equal. apply filter_ext. intros i. rewrite Nat.sub_0_r. reflexivity.
Qed.

Lemma classify_problems_length (subms : list Submission) (labels : list outcome) :
  classify_problems subms = Ok labels ->
  List.length labels = List.length (consumed subms).
Proof.
  unfold classify_problems. rewrite classify_loop_label.
  2: { apply Forall_forall. intros i Hi. apply in_seq in Hi. lia. }
  intros H. inversion H; subst. simpl.
  rewrite length_map. unfold retained, consumed.
  apply (filter_seq_length_0 (fun s => negb (should_skip_subm s))).
Qed.

(** After [extract_data], every feature sequence has one row per consumed
    submission whose distinct-problems cell is at least 2, while the label
    sequence has one entry per consumed submission. *)
Lemma extract_data_row_counts (LOOKUP : lookup_table)
    (events : list LogEvent) (d : LogFileData) :
  extract_data LOOKUP events = Ok d ->
  exists (fs : list feature) (problems_feature : feature),
    build_features LOOKUP (events_to_submissions events) = Ok fs
    /\ find is_ProblemsAttemptedCumulative fs = Some problems_feature
    /\ Forall (rows (List.length (consumed (events_to_submissions events))
                     - List.length
                         (filter below_2 (values problems_feature))))
         (features d)
    /\ List.length (classifications d) =
       List.length (consumed (events_to_submissions events)).
Proof.
  intros H. unfold extract_data in H.
  bind_inv H as fs Hfs. bind_inv H as pf Hpf.
  bind_inv H as f0 Hf0. bind_inv H as idx Hidx.
  bind_inv H as fs' Hdel. bind_inv H as labels Hlab.
  inversion H; subst d; clear H. simpl.
  destruct (find is_ProblemsAttemptedCumulative fs) as [pf'|] eqn:Efind;
    [|discriminate].
  inversion Hpf; subst pf'; clear Hpf.
  exists fs, pf. split; [assumption|]. split; [exact Efind|].
  destruct (build_features_rows LOOKUP (events_to_submissions events)
              fs Hfs) as (Ec & Ev & Er).
  split; [|apply classify_problems_length; assumption].
  assert (Lf0 : List.length (values f0) =
                List.length (consumed (events_to_submissions events))).
  { destruct fs as [|g gs]; [discriminate|]. inversion Hf0; subst g.
    apply Forall_cons_iff in Ev. tauto. }
  assert (Lpf : List.length (values pf) =
                List.length (consumed (events_to_submissions events))).
  { apply find_some in Efind. destruct Efind as [Hin _].
    rewrite Forall_forall in Ev. apply Ev. assumption. }
  apply indices_loop_length in Hidx. simpl in Hidx.
  rewrite Lf0, <- Lpf, filter_seq_length_0 in Hidx.
  apply delete_loop_rows
    with (n := List.length (consumed (events_to_submissions events)))
    in Hdel.
  - destruct Hdel as [_ Hr]. rewrite length_rev, Hidx in Hr. exact Hr.
  - rewrite Ec. apply FEATURES_shrink.
  - exact Er.
Qed.

(** C4 (as the code behaves).  [extract_data] deletes the rows whose
    distinct-problems cell is below 2 from every feature sequence, the
    derived ones included, but not from the label sequence: whenever it
    returns, each feature sequence has one row per consumed submission
    whose cell is at least 2, and the label sequence has one entry per
    consumed submission.  On the worked log the cells are 1, 1, 2: one row
    is left in each of the 59 feature sequences and three labels remain. *)
Theorem trimming_leaves_labels_untrimmed :
  (forall (LOOKUP : lookup_table) (events : list LogEvent)
          (d : LogFileData),
      extract_data LOOKUP events = Ok d ->
      exists (fs : list feature) (problems_feature : feature),
        build_features LOOKUP (events_to_submissions events) = Ok fs
        /\ find is_ProblemsAttemptedCumulative fs = Some problems_feature
        /\ Forall (rows (List.length
                           (consumed (events_to_submissions events))
                         - List.length
                             (filter below_2 (values problems_feature))))
             (features d)
        /\ List.length (classifications d) =
           List.length (consumed (events_to_submissions events)))
  /\ returned (build_features example_LOOKUP
                 (events_to_submissions example_events))
       (columns_of 23) =
     Some (Some [[VNum 1; VNum 1; VNum 2]])
  /\ returned (extract_data example_LOOKUP example_events)
       (fun d => (List.concat (map column_lengths (features d)),
                  classifications d)) =
     Some (repeat 1%nat 59, [not_abandoned; not_abandoned; abandoned]).
Proof.
  split; [exact extract_data_row_counts|].
  apply conj; vm_compute; reflexivity.
Qed.

(** * Further properties *)

(** ** The submission state machine, continued *)

Lemma events_loop_acc (events : list LogEvent) :
  forall (c : Submission) (acc : list Submission),
    events_loop events (c, acc) =
    (fst (events_loop events (c, [])),
     acc ++ snd (events_loop events (c, []))).
Proof.
  induction events as [|e events IH] using rev_ind; intros c acc.
  - simpl. rewrite app_nil_r. reflexivity.
  - rewrite !events_loop_snoc, (IH c acc).
    destruct (events_loop events (c, [])) as [c1 acc1]. simpl.
    unfold step_event.
    destruct (kind e); simpl; try reflexivity.
    rewrite app_assoc. reflexivity.
Qed.

Lemma events_loop_app (xs ys : list LogEvent) st :
  events_loop (xs ++ ys) st = events_loop ys (events_loop xs st).
Proof. unfold events_loop. apply fold_left_app. Qed.

(** X1.  A post-process event closes a segment: the submissions of an
    event list are those of the part up to and including a post-process
    event followed by those of the part after it, computed on its own. *)
Theorem events_to_submissions_segments (before after : list LogEvent)
    (ts : datetime) (satisfied violated : list Z) (feedback : Z) :
  let e := mk_event ts (PostProcessEvent satisfied violated feedback) in
  events_to_submissions (before ++ e :: after) =
  events_to_submissions (before ++ [e]) ++ events_to_submissions after.
Proof.
  intros e. unfold events_to_submissions.
  replace (before ++ e :: after) with ((before ++ [e]) ++ after)
    by (rewrite <- app_assoc; reflexivity).
  rewrite events_loop_app, events_loop_snoc.
  destruct (events_loop before (new_Submission, [])) as [c acc].
  unfold step_event, e. simpl.
  rewrite events_loop_acc. reflexivity.
Qed.

Lemma step_event_solved (c : Submission) (acc : list Submission)
    (e : LogEvent) :
  solved c = false -> solved (fst (step_event (c, acc) e)) = false.
Proof.
  intros H. unfold step_event. destruct (kind e); simpl; try assumption.
  - unfold database_change.
    destruct (negb _); destruct (begin_time _); simpl; assumption.
  - unfold database_change.
    destruct (negb _); destruct (begin_time _); simpl; assumption.
  - reflexivity.
Qed.

Lemma events_loop_solved (events : list LogEvent) :
  solved (fst (events_loop events (new_Submission, []))) = false.
Proof.
  induction events as [|e events IH] using rev_ind; [reflexivity|].
  rewrite events_loop_snoc.
  destruct (events_loop events (new_Submission, [])) as [c acc].
  apply step_event_solved. exact IH.
Qed.

Lemma events_to_submissions_Forall (P : Submission -> Prop)
    (events : list LogEvent) :
  (forall prefix e s,
      In s (finalized (fst (events_loop prefix (new_Submission, []))) e) ->
      P s) ->
  Forall P (events_to_submissions events).
Proof.
  intros H. induction events as [|e events IH] using rev_ind.
  - constructor.
  - rewrite events_to_submissions_snoc. apply Forall_app. split; [exact IH|].
    apply Forall_forall. intros s Hs. exact (H events e s Hs).
Qed.

Lemma finalized_inv (c : Submission) (e : LogEvent) (s : Submission) :
  In s (finalized c e) ->
  exists satisfied violated feedback,
    kind e = PostProcessEvent satisfied violated feedback
    /\ s = post_process c (timestamp e) satisfied violated.
Proof.
  unfold finalized. destruct (kind e) eqn:K; simpl; try contradiction.
  intros [<-|[]]. eauto.
Qed.

(** X2.  Every submission the state machine emits has a submit time, and
    it is marked solved exactly when its list of violated constraints is
    empty. *)
Theorem emitted_submissions_solved (events : list LogEvent) :
  Forall (fun s => submit_time s <> None
                   /\ (solved s = true <-> violated_constraints s = []))
    (events_to_submissions events).
Proof.
  apply events_to_submissions_Forall. intros prefix e s Hs.
  pose proof (events_loop_solved prefix) as Hc.
  apply finalized_inv in Hs. destruct Hs as (sat & viol & fl & _ & ->).
  simpl. split; [discriminate|].
  rewrite Hc. destruct viol; simpl; split;
    intros H; try reflexivity; discriminate.
Qed.

Lemma database_change_fields (c : Submission) (ts : datetime) (db : string)
    (p : option Z) :
  database (database_change c ts db p) <> None
  /\ database_changes (database_change c ts db p) =
     database_changes c
     + (if option_string_eqb (Some db) (database c) then 0 else 1).
Proof.
  unfold database_change.
  destruct (option_string_eqb (Some db) (database c)) eqn:E; simpl.
  - apply option_string_eqb_eq in E.
    destruct (begin_time c); destruct p; simpl; rewrite <- E;
      (split; [discriminate | lia]).
  - destruct (begin_time c); destruct p; simpl;
      (split; [discriminate | reflexivity]).
Qed.

(** The accumulator records a database exactly when it has counted a
    database change. *)
Lemma step_event_database (c : Submission) (acc : list Submission)
    (e : LogEvent) :
  (database c = None /\ database_changes c = 0)
  \/ (database c <> None /\ 1 <= database_changes c) ->
  let c' := fst (step_event (c, acc) e) in
  (database c' = None /\ database_changes c' = 0)
  \/ (database c' <> None /\ 1 <= database_changes c').
Proof.
  intros H. unfold step_event.
  destruct (kind e); cbn [fst];
    first
      [ match goal with
        | |- context [database_change c ?ts ?db ?p] =>
            destruct (database_change_fields c ts db p) as [Hd Hn];
            right; split; [exact Hd|]; rewrite Hn;
            destruct (option_string_eqb (Some db) (database c)) eqn:E;
            destruct H as [[H0 H1]|[H0 H1]]; try lia;
            rewrite H0 in E; discriminate E
        end
      | simpl; first [assumption | left; split; reflexivity] ].
Qed.

Lemma events_loop_database (events : list LogEvent) :
  let c := fst (events_loop events (new_Submission, [])) in
  (database c = None /\ database_changes c = 0)
  \/ (database c <> None /\ 1 <= database_changes c).
Proof.
  induction events as [|e events IH] using rev_ind.
  - left. split; reflexivity.
  - rewrite events_loop_snoc.
    destruct (events_loop events (new_Submission, [])) as [c acc].
    apply step_event_database. exact IH.
Qed.

(** X3.  In every emitted submission the count of database changes is 0
    when no database was recorded and at least 1 when one was: the first
    database event of a submission counts as a change, whatever the
    database of the submission before. *)
Theorem emitted_submissions_database (events : list LogEvent) :
  Forall (fun s => (database s = None /\ database_changes s = 0)
                   \/ (database s <> None /\ 1 <= database_changes s))
    (events_to_submissions events).
Proof.
  apply events_to_submissions_Forall. intros prefix e s Hs.
  apply finalized_inv in Hs. destruct Hs as (sat & viol & fl & _ & ->).
  exact (events_loop_database prefix).
Qed.

Lemma step_event_marks (c : Submission) (acc : list Submission)
    (e : LogEvent) :
  is_post_process e = false ->
  let c' := fst (step_event (c, acc) e) in
  isSome (solution c') = (isSome (solution c) || is_pre_process e)
  /\ isSome (begin_session c') =
     (isSome (begin_session c) || is_logged_in e).
Proof.
  unfold step_event, is_post_process, is_pre_process, is_logged_in.
  destruct (kind e); intros H; try discriminate H; cbn [fst];
    first
      [ match goal with
        | |- context [database_change c ?ts ?db ?p] =>
            unfold database_change;
            destruct (negb (option_string_eqb (Some db) (database c)));
            destruct (begin_time _); simpl;
            rewrite !orb_false_r; split; reflexivity
        end
      | simpl; rewrite ?orb_false_r, ?orb_true_r; split; reflexivity ].
Qed.

Lemma events_loop_marks (w : list LogEvent) :
  let c := fst (events_loop (without_post_process w) (new_Submission, [])) in
  isSome (solution c) = existsb is_pre_process (without_post_process w)
  /\ isSome (begin_session c) =
     existsb is_logged_in (without_post_process w).
Proof.
  induction w as [|e w IH] using rev_ind; [split; reflexivity|].
  unfold without_post_process in *. rewrite filter_app. simpl.
  destruct (is_post_process e) eqn:E; simpl.
  - rewrite app_nil_r. exact IH.
  - rewrite events_loop_snoc, !existsb_app. simpl. rewrite !orb_false_r.
    destruct (events_loop _ (new_Submission, [])) as [c acc].
    destruct (step_event_marks c acc e E) as [H1 H2].
    simpl in IH. destruct IH as [I1 I2].
    rewrite <- I1, <- I2. split; assumption.
Qed.

(** X4.  The submission closed by a post-process event is skip-filtered
    exactly when no pre-process event and no login event precede the
    post-process event in its segment. *)
Theorem skip_iff_no_pre_process_no_login (w : list LogEvent)
    (ts : datetime) (satisfied violated : list Z) (feedback : Z) :
  map should_skip_subm
    (events_to_submissions
       (without_post_process w
        ++ [mk_event ts (PostProcessEvent satisfied violated feedback)])) =
  [negb (existsb is_pre_process (without_post_process w))
   && negb (existsb is_logged_in (without_post_process w))].
Proof.
  rewrite events_to_submissions_snoc.
  assert (E : events_to_submissions (without_post_process w) = []).
  { pose proof (events_to_submissions_trailing [] w) as H. exact H. }
  rewrite E. unfold finalized. simpl.
  destruct (events_loop_marks w) as [H1 H2].
  unfold should_skip_subm. simpl. rewrite H1, H2. reflexivity.
Qed.

(** ** Trimming, row by row *)

Lemma positions_from_S (k : nat) (mask : list bool) :
  positions_from (S k) mask = map S (positions_from k mask).
Proof.
  revert k. induction mask as [|b mask IH]; intros k; simpl; [reflexivity|].
  rewrite map_app, IH. destruct b; reflexivity.
Qed.

Lemma py_del_all_app {A : Type} (l1 l2 : list nat) (col : list A) :
  py_del_all (l1 ++ l2) col = (c <- py_del_all l1 col ;; py_del_all l2 c).
Proof.
  revert col. induction l1 as [|i l1 IH]; intros col; simpl; [reflexivity|].
  destruct (py_del i col) as [c|e]; simpl; [apply IH | reflexivity].
Qed.

Lemma py_del_all_map_S {A : Type} (l : list nat) (x : A) (col : list A) :
  py_del_all (map S l) (x :: col) =
  (c <- py_del_all l col ;; Ok (x :: c)).
Proof.
  revert col. induction l as [|i l IH]; intros col; simpl; [reflexivity|].
  destruct (py_del i col) as [c|e]; simpl; [apply IH | reflexivity].
Qed.

(** Deleting the set positions of a mask, highest first, keeps the rows
    whose bit is clear. *)
Lemma py_del_all_keep_rows {A : Type} (mask : list bool) :
  forall col : list A,
    List.length col = List.length mask ->
    py_del_all (rev (positions_from 0 mask)) col =
    Ok (keep_rows (map negb mask) col).
Proof.
  induction mask as [|b mask IH]; intros [|x col] L; simpl in L;
    try discriminate; [reflexivity|].
  simpl. rewrite positions_from_S, rev_app_distr, <- map_rev.
  rewrite py_del_all_app, py_del_all_map_S, IH by lia. simpl.
  destruct b; reflexivity.
Qed.

Lemma filter_seq_positions (vals : list value) :
  forall k : nat,
    filter (fun i => below_2 (nth (i - k) vals VNone))
      (seq k (List.length vals)) =
    positions_from k (map below_2 vals).
Proof.
  induction vals as [|v vals IH]; intros k; simpl; [reflexivity|].
  rewrite Nat.sub_diag.
  rewrite (filter_ext_in (fun i => below_2 (nth (i - k) (v :: vals) VNone))
             (fun i => below_2 (nth (i - S k) vals VNone))).
  - rewrite IH. destruct (below_2 v); reflexivity.
  - intros i Hi. apply in_seq in Hi.
    replace (i - k)%nat with (S (i - S k)) by lia. reflexivity.
Qed.

Lemma indices_loop_positions (vals : list value) (indices : list nat) :
  forallb is_number vals = true ->
  Forall (fun i => (i < List.length vals)%nat) indices ->
  forall acc : list nat,
    indices_loop vals indices acc =
    Ok (acc ++ filter (fun i => below_2 (nth i vals VNone)) indices).
Proof.
  intros Hnum. induction 1 as [|i rest Hi _ IH]; intros acc; simpl.
  - rewrite app_nil_r. reflexivity.
  - rewrite (py_index_nth vals VNone Hi). simpl.
    assert (Hv : is_number (nth i vals VNone) = true).
    { rewrite forallb_forall in Hnum. apply Hnum. apply nth_In. exact Hi. }
    unfold lt_2, below_2. unfold is_number in Hv.
    destruct (as_num (nth i vals VNone)) as [z|]; [|discriminate Hv].
    simpl. rewrite IH. destruct (z <? 2); simpl.
    + rewrite <- app_assoc. reflexivity.
    + reflexivity.
Qed.

Lemma simple_class_deletes {A : Type} (nm : string) (a : A)
    (hook : @submission_value_hook A) : deletes (simple_class nm a hook).
Proof.
  intros i self cols' H. unfold columns, values in *. simpl in *.
  unfold del_value.
  destruct (py_del i (_values self)) as [vs|e]; simpl in *; [|discriminate].
  inversion H; subst. eexists. split; reflexivity.
Qed.

Lemma prev_class_deletes {B : Type} (nm : string) (b : B)
    (hook : @submission_value_hook (PrevAttrs B)) :
  deletes (prev_class nm b hook).
Proof.
  intros i self cols' H. unfold columns, values in *. simpl in *.
  unfold del_value.
  destruct (py_del i (_values self)) as [vs|e]; simpl in *; [|discriminate].
  inversion H; subst. eexists. split; reflexivity.
Qed.

Lemma cumulative_class_deletes {B : Type} (nm : string) (b : B)
    (hooks : @CumulativeHooks B) : deletes (cumulative_class nm b hooks).
Proof.
  intros i self cols' H. unfold columns, values in *. simpl in *.
  unfold del_cumulative, del_value.
  destruct (py_del i (_values self)) as [vs|e]; simpl in *; [|discriminate].
  destruct (py_del i (_max_values (attrs self))) as [mx|e]; simpl in *;
    [|discriminate].
  destruct (py_del i (_min_values (attrs self))) as [mn|e]; simpl in *;
    [|discriminate].
  destruct (py_del i (_mean_values (attrs self))) as [me|e]; simpl in *;
    [|discriminate].
  destruct (py_del i (_stdev_values (attrs self))) as [sd|e]; simpl in *;
    [|discriminate].
  inversion H; subst. eexists. split; reflexivity.
Qed.

Lemma FEATURES_delete (LOOKUP : lookup_table) :
  Forall deletes (FEATURES LOOKUP).
Proof.
  unfold FEATURES.
  repeat (apply Forall_cons;
          [first [apply cumulative_class_deletes
                 | apply prev_class_deletes
                 | apply simple_class_deletes]|]).
  apply Forall_nil.
Qed.

Lemma for_each_compose {A : Type} (f g : A -> result A) (xs zs : list A) :
  for_each (fun x => y <- f x ;; g y) xs = Ok zs ->
  exists ys, for_each f xs = Ok ys /\ for_each g ys = Ok zs.
Proof.
  revert zs. induction xs as [|x xs IH]; intros zs H; simpl in H.
  - inversion H. exists []. split; reflexivity.
  - bind_inv H as z Hz. bind_inv H as zs' Hzs. inversion H; subst zs.
    bind_inv Hz as y Hy. destruct (IH _ Hzs) as (ys & H1 & H2).
    exists (y :: ys). simpl. rewrite Hy, H1, Hz, H2. split; reflexivity.
Qed.

Lemma feature_del_all_columns (indices : list nat) :
  forall (f : feature) (cols' : list (list value)),
    deletes (cls f) ->
    for_each (py_del_all indices) (columns f) = Ok cols' ->
    exists f',
      feature_del_all indices f = Ok f'
      /\ cls f' = cls f /\ columns f' = cols'.
Proof.
  induction indices as [|i rest IH]; intros f cols' Hd H; simpl in H.
  - exists f. simpl. repeat split.
    revert cols' H. induction (columns f) as [|c cs IHc]; intros cols' H;
      simpl in H.
    + inversion H. reflexivity.
    + bind_inv H as cs' Hcs. inversion H; subst. rewrite (IHc _ Hcs).
      reflexivity.
  - apply for_each_compose in H. destruct H as (cols1 & H1 & H2).
    destruct f as [c self]. simpl in Hd.
    destruct (Hd i self cols1 H1) as (self1 & Hdel & Ecols).
    destruct (IH (mk_obj c self1) cols' Hd) as (f' & Hf' & Ec & Ecol).
    { rewrite Ecols. exact H2. }
    exists f'. simpl. unfold feature_del_row. simpl. rewrite Hdel. simpl.
    auto.
Qed.

Lemma delete_loop_each (indices : list nat) :
  forall fs fs' : list feature,
    Forall2 (fun f f' => feature_del_all indices f = Ok f') fs fs' ->
    delete_loop indices fs = Ok fs'.
Proof.
  induction indices as [|i rest IH]; intros fs fs' H; simpl.
  - f_equal. induction H as [|f f' fs fs' Hf _ IHf]; [reflexivity|].
    simpl in Hf. inversion Hf. rewrite IHf. reflexivity.
  - assert (E : exists fs1,
               for_each (feature_del_row i) fs = Ok fs1
               /\ Forall2 (fun f f' => feature_del_all rest f = Ok f')
                    fs1 fs').
    { induction H as [|f f' fs fs' Hf _ IHf].
      - exists []. split; [reflexivity | constructor].
      - destruct IHf as (fs1 & E1 & E2). simpl in Hf.
        bind_inv Hf as f1 Hf1.
        exists (f1 :: fs1). simpl. rewrite Hf1, E1. simpl.
        split; [reflexivity|]. constructor; assumption. }
    destruct E as (fs1 & E1 & E2). rewrite E1. simpl. apply IH. exact E2.
Qed.

Lemma ProblemsAttemptedCumulative_numbers (subs : list Submission) :
  forall self self' : FeatureBase (list (option Z)),
    run ProblemsAttemptedCumulative.cls self subs = Ok self' ->
    forallb is_number (_values self) = true ->
    forallb is_number (_values self') = true.
Proof.
  induction subs as [|s rest IH]; intros self self' H Hn; simpl in H.
  - inversion H; subst. exact Hn.
  - apply (IH _ _ H). simpl. rewrite forallb_app, Hn. reflexivity.
Qed.

Lemma find_by_class (q : Feature -> bool) (fs : list feature) :
  forall (k : nat) (c : Feature),
    nth_error (map cls fs) k = Some c ->
    q c = true ->
    forallb (fun c' => negb (q c')) (firstn k (map cls fs)) = true ->
    exists f,
      find (fun f => q (cls f)) fs = Some f
      /\ nth_error fs k = Some f /\ cls f = c.
Proof.
  induction fs as [|f fs IH]; intros [|k] c Hk Hq Hfirst; simpl in *;
    try discriminate.
  - inversion Hk; subst. rewrite Hq. exists f. auto.
  - apply andb_prop in Hfirst. destruct Hfirst as [Hf Hrest].
    destruct (q (cls f)); [discriminate Hf|].
    apply (IH k c Hk Hq Hrest).
Qed.

Lemma for_each_Ok_map {A : Type} (g : A -> result A) (h : A -> A)
    (xs : list A) :
  (forall x, In x xs -> g x = Ok (h x)) ->
  for_each g xs = Ok (map h xs).
Proof.
  induction xs as [|x xs IH]; intros H; simpl; [reflexivity|].
  rewrite (H x (or_introl eq_refl)). simpl.
  rewrite IH by (intros y Hy; apply H; right; exact Hy). reflexivity.
Qed.

Lemma Forall_exists_Forall2 {A B : Type} (R : A -> B -> Prop) (xs : list A) :
  Forall (fun x => exists y, R x y) xs -> exists ys, Forall2 R xs ys.
Proof.
  induction 1 as [|x xs [y Hy] _ [ys IH]].
  - exists []. constructor.
  - exists (y :: ys). constructor; assumption.
Qed.

Lemma filter_seq_positions_0 (vals : list value) :
  filter (fun i => below_2 (nth i vals VNone)) (seq 0 (List.length vals)) =
  positions_from 0 (map below_2 vals).
Proof.
  rewrite <- (filter_seq_positions vals 0).
  apply filter_ext. intros i. rewrite Nat.sub_0_r. reflexivity.
Qed.

(** When the framework has returned, the rest of [extract_data] cannot
    fail, and it keeps, in every output sequence of every extractor,
    exactly the rows whose distinct-problems cell is not below 2. *)
Lemma extract_data_keep_rows (LOOKUP : lookup_table)
    (events : list LogEvent) (fs : list feature) :
  build_features LOOKUP (events_to_submissions events) = Ok fs ->
  exists (d : LogFileData) (problems_feature : feature),
    extract_data LOOKUP events = Ok d
    /\ nth_error fs 23 = Some problems_feature
    /\ name (cls problems_feature) = "session_problems_attempted"%string
    /\ Forall2
         (fun f f' =>
            cls f' = cls f
            /\ columns f' =
               map (keep_rows (warm_up_mask (values problems_feature)))
                 (columns f))
         fs (features d)
    /\ classify_problems (events_to_submissions events) =
       Ok (classifications d).
Proof.
  intros H.
  destruct (build_features_rows LOOKUP _ fs H) as (Ec & Ev & Er).
  set (subs := events_to_submissions events) in *.
  set (N := List.length (consumed subs)) in *.
  (* the distinct-problems extractor *)
  destruct (find_by_class
              (fun c => String.eqb (name c)
                          (name ProblemsAttemptedCumulative.cls))
              fs 23 ProblemsAttemptedCumulative.cls)
    as (pf & Hfind & Hnth & Hcls).
  { rewrite Ec. reflexivity. }
  { reflexivity. }
  { rewrite Ec. reflexivity. }
  destruct (build_features_nth LOOKUP subs fs 23
              ProblemsAttemptedCumulative.cls pf H eq_refl Hnth)
    as (self & Hrun & Epf).
  assert (Hnum : forallb is_number (values pf) = true).
  { rewrite Epf. unfold values. simpl.
    apply (ProblemsAttemptedCumulative_numbers _ _ _ Hrun). reflexivity. }
  assert (Lpf : List.length (values pf) = N).
  { rewrite Forall_forall in Ev. apply Ev.
    eapply nth_error_In. exact Hnth. }
  (* the first extractor *)
  destruct fs as [|f0 fs0] eqn:Efs; [discriminate Ec|]. rewrite <- Efs in *.
  assert (Lf0 : List.length (values f0) = N).
  { rewrite Efs in Ev. apply Forall_cons_iff in Ev. tauto. }
  (* the indices *)
  assert (Hidx : indices_loop (values pf)
                   (seq 0 (List.length (values f0))) [] =
                 Ok (positions_from 0 (map below_2 (values pf)))).
  { rewrite indices_loop_positions; [|exact Hnum|].
    - simpl. rewrite Lf0, <- Lpf, filter_seq_positions_0. reflexivity.
    - apply Forall_forall. intros i Hi. apply in_seq in Hi. lia. }
  (* the deletions *)
  set (mask := map below_2 (values pf)) in *.
  assert (Hall : Forall
            (fun f => exists f',
               feature_del_all (rev (positions_from 0 mask)) f = Ok f'
               /\ cls f' = cls f
               /\ columns f' =
                  map (keep_rows (warm_up_mask (values pf))) (columns f))
            fs).
  { apply Forall_forall. intros f Hf.
    assert (Hd : deletes (cls f)).
    { pose proof (FEATURES_delete LOOKUP) as HD. rewrite <- Ec in HD.
      rewrite Forall_forall in HD. apply HD. apply in_map. exact Hf. }
    apply feature_del_all_columns; [exact Hd|].
    apply for_each_Ok_map. intros col Hcol.
    unfold warm_up_mask. rewrite <- (map_map below_2 negb). fold mask.
    apply py_del_all_keep_rows. unfold mask. rewrite length_map, Lpf.
    rewrite Forall_forall in Er. specialize (Er f Hf). unfold rows in Er.
    rewrite Forall_forall in Er. apply Er. exact Hcol. }
  apply Forall_exists_Forall2 in Hall. destruct Hall as (fs' & Hfs').
  assert (Hdel : delete_loop (rev (positions_from 0 mask)) fs = Ok fs').
  { apply delete_loop_each. eapply Forall2_impl; [|exact Hfs'].
    simpl. intros a b Hab. tauto. }
  (* the labels *)
  assert (Hlab : exists labels, classify_problems subs = Ok labels).
  { unfold classify_problems. rewrite classify_loop_label; [eauto|].
    apply Forall_forall. intros i Hi. apply in_seq in Hi. lia. }
  destruct Hlab as (labels & Hlab).
  exists (mk_LogFileData fs' labels), pf.
  split.
  { unfold extract_data. fold subs. rewrite H. simpl.
    change (find is_ProblemsAttemptedCumulative fs)
      with (find (fun f => String.eqb (name (cls f))
                             (name ProblemsAttemptedCumulative.cls)) fs).
    rewrite Hfind. simpl. rewrite Efs at 1. simpl.
    rewrite Hidx. simpl. fold mask. rewrite Hdel. simpl.
    rewrite Hlab. reflexivity. }
  split; [exact Hnth|]. split; [rewrite Hcls; reflexivity|].
  split; [|exact Hlab]. simpl.
  eapply Forall2_impl; [|exact Hfs']. simpl. intros a b Hab. tauto.
Qed.

(** X5.  Once the framework has returned, [extract_data] returns too: the
    trimming and the labelling cannot fail.  In every output sequence of
    every extractor it keeps exactly the rows at which the
    distinct-problems cell is not below 2, in order, and it returns the
    labels of [classify_problems] as they are. *)
Theorem extract_data_trims_rows (LOOKUP : lookup_table)
    (events : list LogEvent) (fs : list feature) :
  build_features LOOKUP (events_to_submissions events) = Ok fs ->
  exists (d : LogFileData) (problems_feature : feature),
    extract_data LOOKUP events = Ok d
    /\ nth_error fs 23 = Some problems_feature
    /\ name (cls problems_feature) = "session_problems_attempted"%string
    /\ Forall2
         (fun f f' =>
            cls f' = cls f
            /\ columns f' =
               map (keep_rows (warm_up_mask (values problems_feature)))
                 (columns f))
         fs (features d)
    /\ classify_problems (events_to_submissions events) =
       Ok (classifications d).
Proof. exact (extract_data_keep_rows LOOKUP events fs). Qed.

Lemma extract_data_trims_rows_witness :
  exists (fs : list feature) (d : LogFileData),
    build_features example_LOOKUP (events_to_submissions example_events) =
      Ok fs
    /\ extract_data example_LOOKUP example_events = Ok d
    /\ List.length (features d) = List.length fs.
Proof.
  assert (R : is_Ok (build_features example_LOOKUP
                       (events_to_submissions example_events)) = true)
    by (vm_compute; reflexivity).
  destruct (build_features example_LOOKUP
              (events_to_submissions example_events)) as [fs|e] eqn:E;
    [|discriminate R].
  destruct (extract_data_trims_rows example_LOOKUP example_events fs E)
    as (d & pf & Hd & _ & _ & Hf & _).
  exists fs, d. split; [reflexivity|]. split; [exact Hd|].
  symmetry. eapply Forall2_length. exact Hf.
Defined.

(** ** Single extractors over a sequence of submissions *)

Lemma run_app (c : Feature) (xs ys : list Submission) :
  forall self : FeatureBase (attrs_t c),
    run c self (xs ++ ys) = (self' <- run c self xs ;; run c self' ys).
Proof.
  induction xs as [|x xs IH]; intros self; simpl; [reflexivity|].
  destruct (new_submission c self x) as [self1|e]; simpl;
    [apply IH | reflexivity].
Qed.

(** *** [SubmissionNumber] *)

Lemma SubmissionNumber_run (subs : list Submission) :
  forall self : FeatureBase Z,
    (_submission self <> None -> 1 <= attrs self) ->
    exists st : FeatureBase Z,
      run SubmissionNumber.cls self subs = Ok st
      /\ (match subs with
          | [] => _submission st = _submission self /\ attrs st = attrs self
          | _ => _submission st = Some (last subs new_Submission)
          end)
      /\ (_submission st <> None -> 1 <= attrs st)
      /\ exists cells : list value,
           _values st = _values self ++ cells
           /\ List.length cells = List.length subs
           /\ (subs <> [] -> last cells VNone = VNum (attrs st)).
Proof.
  induction subs as [|s rest IH]; intros self Hself.
  - exists self. simpl. repeat split; auto.
    exists []. rewrite app_nil_r. repeat split; auto. intros []. reflexivity.
  - cbn [run].
    set (n := match _submission self with
              | None => 1
              | Some l =>
                  if negb (option_Z_eqb (problem_id l) (problem_id s))
                  then 1 else attrs self + 1
              end).
    assert (Hn : 1 <= n).
    { unfold n. destruct (_submission self) as [l|]; [|lia].
      destruct (negb _); [lia|].
      assert (1 <= attrs self) by (apply Hself; discriminate). lia. }
    assert (E : new_submission SubmissionNumber.cls self s =
                Ok (mk_feature (_submission self) (Some s)
                      (_values self ++ [VNum n]) n)).
    { unfold SubmissionNumber.cls, simple_class, new_submission,
        FeatureBase_new_submission, SubmissionNumber._submission_value,
        n, shift_submission, with_attrs, append_value, the_submission.
      simpl. destruct (_submission self); reflexivity. }
    rewrite E. cbn [bind].
    destruct (IH (mk_feature (_submission self) (Some s)
                    (_values self ++ [VNum n]) n))
      as (st & Hrun & Hsub & Hpos & cells & Hv & Hl & Hlast).
    { intros _. exact Hn. }
    exists st. split; [exact Hrun|]. split.
    { destruct rest as [|r rest']; simpl in *; [tauto | exact Hsub]. }
    split; [exact Hpos|].
    exists (VNum n :: cells). simpl in Hv. rewrite <- app_assoc in Hv.
    split; [exact Hv|]. split; [simpl; rewrite Hl; reflexivity|].
    intros _. destruct rest as [|r rest'].
    + destruct cells; [|discriminate Hl]. simpl in *.
      destruct Hsub as [_ ->]. reflexivity.
    + destruct cells as [|c cells']; [discriminate Hl|].
      change (last (VNum n :: c :: cells') VNone)
        with (last (c :: cells') VNone).
      apply Hlast. discriminate.
Qed.

(** X6.  [SubmissionNumber] never raises; consuming further submissions
    only appends cells; every cell is an integer of at least 1; and when
    submissions [p] and [s] are consumed one after the other, the cell of
    [s] is one more than the cell of [p] if they have the same problem id
    and 1 otherwise. *)
Theorem submission_number_counts_within_problem (subs : list Submission)
    (p s : Submission) :
  exists (st0 st : FeatureBase Z) (n : Z),
    run SubmissionNumber.cls (init SubmissionNumber.cls) subs = Ok st0
    /\ run SubmissionNumber.cls (init SubmissionNumber.cls)
         (subs ++ [p; s]) = Ok st
    /\ 1 <= n
    /\ _values st =
       _values st0
       ++ [VNum n;
           VNum (if option_Z_eqb (problem_id p) (problem_id s)
                 then n + 1 else 1)].
Proof.
  destruct (SubmissionNumber_run subs (init SubmissionNumber.cls))
    as (st0 & H0 & _ & Hpos0 & _).
  { simpl. intros H. contradiction H. reflexivity. }
  destruct (SubmissionNumber_run [p] st0 Hpos0)
    as (st1 & H1 & Hsub1 & Hpos1 & cells1 & Hv1 & Hl1 & Hlast1).
  destruct cells1 as [|c1 [|? ?]]; try discriminate Hl1.
  simpl in Hlast1, Hsub1. specialize (Hlast1 ltac:(discriminate)).
  subst c1.
  exists st0.
  assert (E : new_submission SubmissionNumber.cls st1 s =
              Ok (mk_feature (_submission st1) (Some s)
                    (_values st1
                     ++ [VNum (if option_Z_eqb (problem_id p) (problem_id s)
                               then attrs st1 + 1 else 1)])
                    (if option_Z_eqb (problem_id p) (problem_id s)
                     then attrs st1 + 1 else 1))).
  { unfold SubmissionNumber.cls, simple_class, new_submission,
      FeatureBase_new_submission, SubmissionNumber._submission_value,
      shift_submission, with_attrs, append_value, the_submission.
    simpl. rewrite Hsub1. simpl.
    destruct (option_Z_eqb (problem_id p) (problem_id s)); reflexivity. }
  eexists. exists (attrs st1).
  split; [exact H0|]. split.
  { assert (R1 : run SubmissionNumber.cls (init SubmissionNumber.cls)
                   (subs ++ [p]) = Ok st1).
    { rewrite run_app, H0. exact H1. }
    change [p; s] with ([p] ++ [s]). rewrite app_assoc.
    rewrite run_app, R1. cbn [bind run]. rewrite E. reflexivity. }
  split; [apply Hpos1; rewrite Hsub1; discriminate|].
  simpl. rewrite Hv1, <- app_assoc. reflexivity.
Qed.

(** *** Attempted and completed problems *)

Lemma option_Z_eqb_eq (a b : option Z) : option_Z_eqb a b = true <-> a = b.
Proof.
  destruct a as [x|], b as [y|]; simpl; split; intros H;
    try discriminate; try reflexivity.
  - apply Z.eqb_eq in H. congruence.
  - inversion H. apply Z.eqb_refl.
Qed.

Lemma py_set_add_In (x y : option Z) (s : list (option Z)) :
  In y (py_set_add x s) <-> y = x \/ In y s.
Proof.
  unfold py_set_add. destruct (existsb (option_Z_eqb x) s) eqn:E.
  - split; [tauto|]. intros [->|H]; [|exact H].
    apply existsb_exists in E. destruct E as (z & Hz & Ez).
    apply option_Z_eqb_eq in Ez. subst z. exact Hz.
  - rewrite in_app_iff. simpl. intuition congruence.
Qed.

Lemma py_set_add_NoDup (x : option Z) (s : list (option Z)) :
  NoDup s -> NoDup (py_set_add x s).
Proof.
  intros H. unfold py_set_add.
  destruct (existsb (option_Z_eqb x) s) eqn:E; [exact H|].
  apply NoDup_app; [exact H | repeat constructor; intros [] |].
  intros y Hy [Exy|[]]. subst y.
  assert (existsb (option_Z_eqb x) s = true); [|congruence].
  apply existsb_exists. exists x. split; [exact Hy|].
  apply option_Z_eqb_eq. reflexivity.
Qed.

Lemma attempted_completed_run (subs : list Submission) :
  forall a c : FeatureBase (list (option Z)),
    NoDup (attrs a) -> NoDup (attrs c) -> incl (attrs c) (attrs a) ->
    exists (a' c' : FeatureBase (list (option Z))) (ca cc : list value),
      run ProblemsAttemptedCumulative.cls a subs = Ok a'
      /\ run ProblemsCompletedCumulative.cls c subs = Ok c'
      /\ _values a' = _values a ++ ca
      /\ _values c' = _values c ++ cc
      /\ Forall2 (fun va vc =>
                    exists x y : Z,
                      va = VNum x /\ vc = VNum y /\ 0 <= y <= x /\ 1 <= x)
           ca cc.
Proof.
  induction subs as [|s rest IH]; intros a c Na Nc Hincl.
  - exists a, c, [], []. simpl. rewrite !app_nil_r.
    repeat split; constructor.
  - cbn [run].
    set (A0 := if isSome (begin_session s) then [] else attrs a).
    set (C0 := if isSome (begin_session s) then [] else attrs c).
    set (A1 := py_set_add (problem_id s) A0).
    set (C1 := if solved s then py_set_add (problem_id s) C0 else C0).
    assert (Ea : new_submission ProblemsAttemptedCumulative.cls a s =
                 Ok (mk_feature (_submission a) (Some s)
                       (_values a ++ [VNum (len A1)]) A1)) by reflexivity.
    assert (Ec : new_submission ProblemsCompletedCumulative.cls c s =
                 Ok (mk_feature (_submission c) (Some s)
                       (_values c ++ [VNum (len C1)]) C1)) by reflexivity.
    rewrite Ea, Ec. cbn [bind].
    assert (NA0 : NoDup A0)
      by (unfold A0; destruct (isSome _); [constructor | exact Na]).
    assert (NC0 : NoDup C0)
      by (unfold C0; destruct (isSome _); [constructor | exact Nc]).
    assert (I0 : incl C0 A0).
    { unfold C0, A0. destruct (isSome _); [intros x [] | exact Hincl]. }
    assert (NA1 : NoDup A1) by (apply py_set_add_NoDup; exact NA0).
    assert (NC1 : NoDup C1).
    { unfold C1. destruct (solved s);
        [apply py_set_add_NoDup|]; exact NC0. }
    assert (I1 : incl C1 A1).
    { unfold C1, A1. intros x Hx. apply py_set_add_In.
      destruct (solved s).
      - apply py_set_add_In in Hx. destruct Hx as [->|Hx]; [tauto|].
        right. apply I0. exact Hx.
      - right. apply I0. exact Hx. }
    destruct (IH (mk_feature (_submission a) (Some s)
                    (_values a ++ [VNum (len A1)]) A1)
                 (mk_feature (_submission c) (Some s)
                    (_values c ++ [VNum (len C1)]) C1) NA1 NC1 I1)
      as (a' & c' & ca & cc & Ra & Rc & Va & Vc & HF).
    exists a', c', (VNum (len A1) :: ca), (VNum (len C1) :: cc).
    simpl in Va, Vc. rewrite <- app_assoc in Va, Vc.
    repeat split; try assumption.
    constructor; [|exact HF].
    exists (len A1), (len C1). repeat split; unfold len.
    + lia.
    + apply inj_le. apply NoDup_incl_length; assumption.
    + assert (In (problem_id s) A1)
        by (apply py_set_add_In; left; reflexivity).
      destruct A1; [contradiction|]. simpl. lia.
Qed.

(** X7.  Neither the attempted-problems nor the completed-problems
    extractor ever raises, and row by row the number of completed
    problems is between 0 and the number of attempted problems, which is
    at least 1. *)
Theorem completed_at_most_attempted (subs : list Submission) :
  exists a c : FeatureBase (list (option Z)),
    run ProblemsAttemptedCumulative.cls
      (init ProblemsAttemptedCumulative.cls) subs = Ok a
    /\ run ProblemsCompletedCumulative.cls
         (init ProblemsCompletedCumulative.cls) subs = Ok c
    /\ Forall2 (fun va vc =>
                  exists x y : Z,
                    va = VNum x /\ vc = VNum y /\ 0 <= y <= x /\ 1 <= x)
         (_values a) (_values c).
Proof.
  destruct (attempted_completed_run subs
              (init ProblemsAttemptedCumulative.cls)
              (init ProblemsCompletedCumulative.cls))
    as (a & c & ca & cc & Ra & Rc & Va & Vc & HF);
    try (simpl; constructor).
  { intros x []. }
  exists a, c. split; [exact Ra|]. split; [exact Rc|].
  rewrite Va, Vc. exact HF.
Qed.

(** *** [DatabaseChangesCumulative] *)

Lemma DatabaseChangesCumulative_run (subs : list Submission) :
  forall self : FeatureBase Z,
    exists st : FeatureBase Z,
      run DatabaseChangesCumulative.cls self subs = Ok st
      /\ attrs st =
         attrs self + fold_right Z.add 0 (map database_changes subs)
      /\ exists cells, _values st = _values self ++ cells.
Proof.
  induction subs as [|s rest IH]; intros self.
  - exists self. simpl. split; [reflexivity|]. split; [lia|].
    exists []. rewrite app_nil_r. reflexivity.
  - cbn [run].
    assert (E : new_submission DatabaseChangesCumulative.cls self s =
                Ok (mk_feature (_submission self) (Some s)
                      (_values self ++ [VNum (attrs self + database_changes s)])
                      (attrs self + database_changes s))) by reflexivity.
    rewrite E. cbn [bind].
    destruct (IH (mk_feature (_submission self) (Some s)
                    (_values self ++ [VNum (attrs self + database_changes s)])
                    (attrs self + database_changes s)))
      as (st & R & A & cells & V).
    exists st. split; [exact R|]. simpl in A, V. split; [simpl; lia|].
    exists (VNum (attrs self + database_changes s) :: cells).
    rewrite V, <- app_assoc. reflexivity.
Qed.

(** X8.  [DatabaseChangesCumulative] never raises, only appends, and the
    cell of a submission is the sum of the database changes of all
    submissions consumed so far: the running total is not restarted when
    a session begins. *)
Theorem database_changes_running_total (subs : list Submission)
    (s : Submission) :
  exists st0 st : FeatureBase Z,
    run DatabaseChangesCumulative.cls (init DatabaseChangesCumulative.cls)
      subs = Ok st0
    /\ run DatabaseChangesCumulative.cls
         (init DatabaseChangesCumulative.cls) (subs ++ [s]) = Ok st
    /\ _values st =
       _values st0
       ++ [VNum (fold_right Z.add 0 (map database_changes (subs ++ [s])))].
Proof.
  destruct (DatabaseChangesCumulative_run subs
              (init DatabaseChangesCumulative.cls)) as (st0 & R0 & A0 & _).
  exists st0. eexists. split; [exact R0|]. split.
  - rewrite run_app, R0. cbn [bind run].
    assert (E : new_submission DatabaseChangesCumulative.cls st0 s =
                Ok (mk_feature (_submission st0) (Some s)
                      (_values st0 ++ [VNum (attrs st0 + database_changes s)])
                      (attrs st0 + database_changes s))) by reflexivity.
    rewrite E. reflexivity.
  - simpl. rewrite A0, map_app, fold_right_app. simpl.
    do 3 f_equal.
    generalize (map database_changes subs). intros l.
    induction l as [|z l IHl]; simpl; lia.
Qed.

(** *** [StudentLevel] *)

Lemma StudentLevel_update_level (LOOKUP : lookup_table) (s : Submission)
    (a : StudentLevel.own_attrs) :
  0 <= StudentLevel._level a ->
  exists a' : StudentLevel.own_attrs,
    StudentLevel.update LOOKUP s a = Ok a'
    /\ 0 <= StudentLevel._level a'
    /\ Z.abs (StudentLevel._level a' - StudentLevel._level a) <= 1.
Proof.
  intros H0. unfold StudentLevel.update.
  destruct (negb (option_Z_eqb (StudentLevel._current_prob_id a)
                    (problem_id s))
            && LOOKUP_contains LOOKUP (problem_id s)) eqn:E.
  - apply andb_prop in E. destruct E as [_ E].
    unfold LOOKUP_contains in E. unfold LOOKUP_get.
    destruct (problem_id s) as [k|]; [|discriminate E].
    destruct (LOOKUP k) as [lv|]; [|discriminate E].
    cbn [bind]. eexists. split; [reflexivity|]. cbn.
    match goal with
    | |- context [if (?c && (0 <? ?l)) then _ else _] =>
        destruct (c && (0 <? l)) eqn:E1
    end.
    + apply andb_prop in E1. destruct E1 as [_ E1]. apply Z.ltb_lt in E1.
      repeat match goal with
             | |- context [if ?b then _ else _] => destruct b
             end; lia.
    + repeat match goal with
             | |- context [if ?b then _ else _] => destruct b
             end; lia.
  - cbn [bind]. eexists. split; [reflexivity|]. cbn.
    repeat match goal with
           | |- context [if ?b then _ else _] => destruct b
           end; lia.
Qed.

Lemma StudentLevel_run (LOOKUP : lookup_table) (subs : list Submission) :
  forall self : FeatureBase StudentLevel.own_attrs,
    0 <= StudentLevel._level (attrs self) ->
    exists st : FeatureBase StudentLevel.own_attrs,
      run (StudentLevel.cls LOOKUP) self subs = Ok st
      /\ 0 <= StudentLevel._level (attrs st)
      /\ exists cells, _values st = _values self ++ cells.
Proof.
  induction subs as [|s rest IH]; intros self H0.
  - exists self. simpl. split; [reflexivity|]. split; [exact H0|].
    exists []. rewrite app_nil_r. reflexivity.
  - cbn [run].
    destruct (StudentLevel_update_level LOOKUP s (attrs self) H0)
      as (a' & U & P & _).
    assert (E : new_submission (StudentLevel.cls LOOKUP) self s =
                Ok (mk_feature (_submission self) (Some s)
                      (_values self ++ [VNum (StudentLevel._level a')]) a')).
    { unfold StudentLevel.cls, simple_class, new_submission,
        FeatureBase_new_submission, StudentLevel._submission_value,
        the_submission, shift_submission.
      cbn [_submission attrs bind]. rewrite U. reflexivity. }
    rewrite E. cbn [bind].
    destruct (IH (mk_feature (_submission self) (Some s)
                    (_values self ++ [VNum (StudentLevel._level a')]) a') P)
      as (st & R & P' & cells & V).
    exists st. split; [exact R|]. split; [exact P'|].
    exists (VNum (StudentLevel._level a') :: cells).
    simpl in V. rewrite V, <- app_assoc. reflexivity.
Qed.

(** X9.  [StudentLevel] never raises, whatever the complexity table
    holds; the level it reports is never negative, and consuming one more
    submission moves it by at most one. *)
Theorem student_level_moves_by_one (LOOKUP : lookup_table)
    (subs : list Submission) (s : Submission) :
  exists (st0 st : FeatureBase StudentLevel.own_attrs) (n : Z),
    run (StudentLevel.cls LOOKUP) (init (StudentLevel.cls LOOKUP)) subs =
      Ok st0
    /\ run (StudentLevel.cls LOOKUP) (init (StudentLevel.cls LOOKUP))
         (subs ++ [s]) = Ok st
    /\ _values st = _values st0 ++ [VNum n]
    /\ StudentLevel._level (attrs st) = n
    /\ 0 <= n
    /\ Z.abs (n - StudentLevel._level (attrs st0)) <= 1.
Proof.
  destruct (StudentLevel_run LOOKUP subs (init (StudentLevel.cls LOOKUP)))
    as (st0 & R0 & P0 & _); [simpl; lia|].
  destruct (StudentLevel_update_level LOOKUP s (attrs st0) P0)
    as (a' & U & P & D).
  exists st0. eexists. exists (StudentLevel._level a').
  split; [exact R0|]. split.
  - rewrite run_app, R0. cbn [bind run].
    assert (E : new_submission (StudentLevel.cls LOOKUP) st0 s =
                Ok (mk_feature (_submission st0) (Some s)
                      (_values st0 ++ [VNum (StudentLevel._level a')]) a')).
    { unfold StudentLevel.cls, simple_class, new_submission,
        FeatureBase_new_submission, StudentLevel._submission_value,
        the_submission, shift_submission.
      cbn [_submission attrs bind]. rewrite U. reflexivity. }
    rewrite E. reflexivity.
  - simpl. auto.
Qed.

(** *** Previous-problem extractors that cannot fail *)

Lemma PreviousProblem_step_total {B : Type}
    (hook : @submission_value_hook (PrevAttrs B)) :
  total_on_runs hook ->
  forall (self : PreviousProblem B) (s : Submission),
    exists self', PreviousProblem_new_submission hook self s = Ok self'.
Proof.
  intros Ht self s. unfold PreviousProblem_new_submission.
  match goal with
  | |- context [with_attrs ?p ?x] =>
      set (p' := p); set (self1 := with_attrs p' x)
  end.
  destruct (Z.of_nat (List.length (_prev_prob_submissions p')) =? 0) eqn:E.
  - eexists. reflexivity.
  - destruct (Ht self1) as [[v self2] Hr].
    + simpl. intros Hp. rewrite Hp in E. discriminate E.
    + simpl. unfold p'.
      destruct (option_Z_eqb _ (problem_id s)); simpl;
        [intros Hc; apply app_eq_nil in Hc; destruct Hc; discriminate
        | discriminate].
    + rewrite Hr. simpl. eexists. reflexivity.
Qed.

Lemma prev_class_run_total {B : Type} (nm : string) (b : B)
    (hook : @submission_value_hook (PrevAttrs B)) :
  total_on_runs hook ->
  forall (subs : list Submission) (self : PreviousProblem B),
    is_Ok (run (prev_class nm b hook) self subs) = true.
Proof.
  intros Ht. induction subs as [|s rest IH]; intros self; [reflexivity|].
  cbn [run].
  destruct (PreviousProblem_step_total hook Ht self s) as [self' E].
  change (new_submission (prev_class nm b hook) self s)
    with (PreviousProblem_new_submission hook self s).
  rewrite E. cbn [bind]. apply IH.
Qed.

Lemma py_first_nonempty {A : Type} (xs : list A) :
  xs <> [] -> exists x, py_first xs = Ok x.
Proof. destruct xs; [contradiction | eexists; reflexivity]. Qed.

Lemma py_last_nonempty {A : Type} (xs : list A) :
  xs <> [] -> exists x, py_last xs = Ok x.
Proof.
  intros H. unfold py_last. destruct (rev xs) eqn:E.
  - apply (f_equal (@rev A)) in E. rewrite rev_involutive in E.
    contradiction.
  - eexists. reflexivity.
Qed.

Lemma as_nums_map_VNum (zs : list Z) : as_nums (map VNum zs) = Some zs.
Proof. induction zs as [|z zs IH]; simpl; [|rewrite IH]; reflexivity. Qed.

Ltac runs_total :=
  intros self Hp Hc;
  repeat match goal with
         | |- context [py_first ?l] =>
             let x := fresh "x" in
             let E := fresh "E" in
             destruct (py_first_nonempty l ltac:(assumption)) as [x E];
             rewrite E; cbn [bind]
         | |- context [py_last ?l] =>
             let x := fresh "x" in
             let E := fresh "E" in
             destruct (py_last_nonempty l ltac:(assumption)) as [x E];
             rewrite E; cbn [bind]
         end.

Lemma FirstSubmitTimePrev_total :
  total_on_runs FirstSubmitTimePrev._submission_value.
Proof.
  unfold total_on_runs, FirstSubmitTimePrev._submission_value. runs_total.
  destruct (submit_time x), (begin_time x); simpl; eexists; reflexivity.
Qed.

Lemma TimeTakenPrev_total : total_on_runs TimeTakenPrev._submission_value.
Proof.
  unfold total_on_runs, TimeTakenPrev._submission_value. runs_total.
  destruct (submit_time x0), (begin_time x); simpl; eexists; reflexivity.
Qed.

Lemma CompletedPrev_total : total_on_runs CompletedPrev._submission_value.
Proof. intros self _ _. eexists. reflexivity. Qed.

Lemma SubmissionCountPrev_total :
  total_on_runs SubmissionCountPrev._submission_value.
Proof. intros self _ _. eexists. reflexivity. Qed.

Lemma MaxViolatedConstraints_total :
  total_on_runs MaxViolatedConstraints._submission_value.
Proof.
  intros self Hp _. unfold MaxViolatedConstraints._submission_value.
  destruct (_prev_prob_submissions (attrs self)); [contradiction|].
  simpl. eexists. reflexivity.
Qed.

Lemma NumberWrongSubmissions_total :
  total_on_runs NumberWrongSubmissions._submission_value.
Proof. intros self _ _. eexists. reflexivity. Qed.

Lemma AverageSubmissionTime_total :
  total_on_runs AverageSubmissionTime._submission_value.
Proof.
  intros self _ _. unfold AverageSubmissionTime._submission_value, py_mean.
  destruct (durations _) as [|z zs] eqn:E; simpl; [eexists; reflexivity|].
  rewrite as_nums_map_VNum. simpl. eexists. reflexivity.
Qed.

Lemma StdevSubmissionTime_total :
  total_on_runs StdevSubmissionTime._submission_value.
Proof.
  intros self _ _. unfold StdevSubmissionTime._submission_value, py_stdev.
  destruct (durations _) as [|z [|z' zs]] eqn:E; simpl;
    try (eexists; reflexivity).
  unfold len. simpl List.length.
  replace (Z.of_nat (S (S (List.length zs))) <? 2) with false
    by (symmetry; apply Z.ltb_ge; lia).
  rewrite as_nums_map_VNum. simpl. eexists. reflexivity.
Qed.

Lemma MaxSubmissionTime_total :
  total_on_runs MaxSubmissionTime._submission_value.
Proof.
  intros self _ _. unfold MaxSubmissionTime._submission_value.
  destruct (durations _) as [|z zs]; simpl; eexists; reflexivity.
Qed.

Lemma MinSubmissionTime_total :
  total_on_runs MinSubmissionTime._submission_value.
Proof.
  intros self _ _. unfold MinSubmissionTime._submission_value.
  destruct (durations _) as [|z zs]; simpl; eexists; reflexivity.
Qed.

Lemma SameDatabasePrev_total :
  total_on_runs SameDatabasePrev._submission_value.
Proof.
  unfold total_on_runs, SameDatabasePrev._submission_value. runs_total.
  eexists. reflexivity.
Qed.

Lemma DifferentFeedbackOptionsPrev_total :
  total_on_runs DifferentFeedbackOptionsPrev._submission_value.
Proof. intros self _ _. eexists. reflexivity. Qed.

Lemma ProblemComplexityPrev_total (LOOKUP : lookup_table) :
  total_on_runs (ProblemComplexityPrev._submission_value LOOKUP).
Proof.
  unfold total_on_runs, ProblemComplexityPrev._submission_value. runs_total.
  unfold LOOKUP_get. destruct (problem_id x) as [k|]; simpl;
    [destruct (LOOKUP k)|]; eexists; reflexivity.
Qed.

(** X10.  Thirteen of the previous-problem extractors return on every
    sequence of submissions: the base class calls [_submission_value]
    only when the previous run is not empty, so indexing it and taking
    its maximum cannot fail, and the statistics are guarded by the size
    of their data. *)
Theorem previous_problem_extractors_never_raise (LOOKUP : lookup_table) :
  Forall (fun c : Feature =>
            forall subs : list Submission,
              is_Ok (run c (init c) subs) = true)
    [ FirstSubmitTimePrev.cls; TimeTakenPrev.cls; CompletedPrev.cls;
      SubmissionCountPrev.cls; MaxViolatedConstraints.cls;
      NumberWrongSubmissions.cls; AverageSubmissionTime.cls;
      StdevSubmissionTime.cls; MaxSubmissionTime.cls;
      MinSubmissionTime.cls; SameDatabasePrev.cls;
      DifferentFeedbackOptionsPrev.cls; ProblemComplexityPrev.cls LOOKUP ].
Proof.
  repeat apply Forall_cons; try apply Forall_nil; intros subs;
    apply prev_class_run_total.
  - exact FirstSubmitTimePrev_total.
  - exact TimeTakenPrev_total.
  - exact CompletedPrev_total.
  - exact SubmissionCountPrev_total.
  - exact MaxViolatedConstraints_total.
  - exact NumberWrongSubmissions_total.
  - exact AverageSubmissionTime_total.
  - exact StdevSubmissionTime_total.
  - exact MaxSubmissionTime_total.
  - exact MinSubmissionTime_total.
  - exact SameDatabasePrev_total.
  - exact DifferentFeedbackOptionsPrev_total.
  - exact (ProblemComplexityPrev_total LOOKUP).
Qed.

(** *** [TimeSinceSessionStartPrev] without a login *)

Lemma TimeSinceSessionStartPrev_first_run (p : Z) (run1 : list Submission) :
  forallb (fun s => option_Z_eqb (problem_id s) (Some p)
                    && negb (isSome (begin_session s))
                    && isSome (solution s)) run1 = true ->
  forall self : PreviousProblem (option datetime),
    _prev_prob_submissions (attrs self) = [] ->
    pown (attrs self) = None ->
    (_current_prob_id (attrs self) = None
     \/ _current_prob_id (attrs self) = Some p) ->
    exists st : PreviousProblem (option datetime),
      run TimeSinceSessionStartPrev.cls self run1 = Ok st
      /\ _prev_prob_submissions (attrs st) = []
      /\ pown (attrs st) = None
      /\ _current_prob_submissions (attrs st) =
         _current_prob_submissions (attrs self) ++ run1
      /\ (run1 <> [] -> _current_prob_id (attrs st) = Some p)
      /\ (run1 = [] -> _current_prob_id (attrs st) =
                       _current_prob_id (attrs self)).
Proof.
  induction run1 as [|s rest IH]; intros Hall self Hprev Hown Hid.
  - exists self. simpl. rewrite app_nil_r. repeat split; auto.
    intros H. contradiction H. reflexivity.
  - simpl in Hall. apply andb_prop in Hall. destruct Hall as [Hs Hrest].
    apply andb_prop in Hs. destruct Hs as [Hs _].
    apply andb_prop in Hs. destruct Hs as [Hpid _].
    apply option_Z_eqb_eq in Hpid.
    cbn [run].
    assert (E : new_submission TimeSinceSessionStartPrev.cls self s =
                Ok (mk_feature (_submission self) (Some s)
                      (_values self ++ [VNone])
                      (mk_prev []
                         (_current_prob_submissions (attrs self) ++ [s])
                         (Some p) None))).
    { unfold TimeSinceSessionStartPrev.cls, prev_class, new_submission,
        PreviousProblem_new_submission, shift_submission, with_attrs,
        append_value.
      cbn [attrs _submission _values _last_submission].
      rewrite Hpid, Hprev, Hown.
      destruct Hid as [-> | ->]; cbn; rewrite Z.eqb_refl; reflexivity. }
    rewrite E. cbn [bind].
    destruct (IH Hrest
                (mk_feature (_submission self) (Some s)
                   (_values self ++ [VNone])
                   (mk_prev []
                      (_current_prob_submissions (attrs self) ++ [s])
                      (Some p) None)))
      as (st & R & P & O & C & I1 & I2); try reflexivity.
    { right. reflexivity. }
    exists st. split; [exact R|]. split; [exact P|]. split; [exact O|].
    simpl in C. rewrite <- app_assoc in C. split; [exact C|].
    split; [|intros H; discriminate H].
    intros _. destruct rest as [|r rest'].
    + rewrite (I2 eq_refl). reflexivity.
    + apply I1. discriminate.
Qed.

Lemma fold_left_no_session (bt0 : datetime) (l : list Submission) :
  forallb (fun s => negb (isSome (begin_session s))) l = true ->
  fold_left
    (fun start sub =>
       match begin_session sub with
       | Some bs =>
           if match start with
              | None => true
              | Some _ => 0 <=? total_seconds bt0 bs
              end
           then Some bs else start
       | None => start
       end) l None = None.
Proof.
  induction l as [|s l IH]; simpl; intros H; [reflexivity|].
  apply andb_prop in H. destruct H as [Hs Hl].
  destruct (begin_session s); [discriminate Hs | apply IH; exact Hl].
Qed.

Lemma TimeSinceSessionStartPrev_raises (p : Z) (run1 : list Submission)
    (s2 : Submission) :
  first_run_without_login p run1 s2 = true ->
  run TimeSinceSessionStartPrev.cls (init TimeSinceSessionStartPrev.cls)
    (run1 ++ [s2]) = Raise TypeError.
Proof.
  unfold first_run_without_login. intros H.
  apply andb_prop in H. destruct H as [H Hsol2].
  apply andb_prop in H. destruct H as [H Hp2].
  apply andb_prop in H. destruct H as [Hbt Hall].
  destruct (TimeSinceSessionStartPrev_first_run p run1 Hall
              (init TimeSinceSessionStartPrev.cls))
    as (st & R & P & O & C & I1 & _); try reflexivity.
  { left. reflexivity. }
  rewrite run_app, R. cbn [bind run].
  destruct run1 as [|s1 rest]; [discriminate Hbt|].
  specialize (I1 ltac:(discriminate)). simpl in C.
  assert (Hnosess : forallb (fun s => negb (isSome (begin_session s)))
                      (s1 :: rest) = true).
  { apply forallb_forall. intros x Hx.
    rewrite forallb_forall in Hall. specialize (Hall x Hx).
    apply andb_prop in Hall. destruct Hall as [Hall _].
    apply andb_prop in Hall. tauto. }
  unfold TimeSinceSessionStartPrev.cls, prev_class, new_submission,
    PreviousProblem_new_submission, shift_submission, with_attrs,
    append_value.
  cbn [attrs _submission _values _last_submission].
  rewrite I1, P, O, C.
  destruct (option_Z_eqb (Some p) (problem_id s2)) eqn:E.
  { apply option_Z_eqb_eq in E. rewrite <- E in Hp2. simpl in Hp2.
    rewrite Z.eqb_refl in Hp2. discriminate Hp2. }
  cbn [_prev_prob_submissions List.length Z.of_nat Z.eqb Pos.of_succ_nat].
  unfold TimeSinceSessionStartPrev._submission_value, with_pown.
  cbn [attrs _prev_prob_submissions py_first bind pown].
  destruct (begin_time s1) as [bt0|]; [|discriminate Hbt].
  rewrite (fold_left_no_session bt0 (s1 :: rest) Hnosess).
  reflexivity.
Qed.

Lemma first_run_consumed (p : Z) (run1 : list Submission) (s2 : Submission) :
  first_run_without_login p run1 s2 = true ->
  consumed (run1 ++ [s2]) = run1 ++ [s2].
Proof.
  unfold first_run_without_login. intros H.
  apply andb_prop in H. destruct H as [H Hsol2].
  apply andb_prop in H. destruct H as [H _].
  apply andb_prop in H. destruct H as [_ Hall].
  unfold consumed. rewrite filter_app. f_equal.
  - apply forallb_filter_id. apply forallb_forall. intros x Hx.
    rewrite forallb_forall in Hall. specialize (Hall x Hx).
    apply andb_prop in Hall. destruct Hall as [_ Hsol].
    unfold should_skip_subm. destruct (solution x); [reflexivity|].
    discriminate Hsol.
  - simpl. unfold should_skip_subm. destruct (solution s2);
      [reflexivity | discriminate Hsol2].
Qed.

(** X11.  When the attempts at the first problem carry a begin time and
    a solution but no login was seen, [prev_time_since_session_start]
    raises [TypeError] at the first attempt at another problem (it
    subtracts a session start that was never set), and the framework
    returns nothing for such a sequence. *)
Theorem no_login_breaks_session_start (LOOKUP : lookup_table) (p : Z)
    (run1 : list Submission) (s2 : Submission) :
  first_run_without_login p run1 s2 = true ->
  run TimeSinceSessionStartPrev.cls (init TimeSinceSessionStartPrev.cls)
    (run1 ++ [s2]) = Raise TypeError
  /\ is_Ok (build_features LOOKUP (run1 ++ [s2])) = false.
Proof.
  intros H. split; [apply (TimeSinceSessionStartPrev_raises p); exact H|].
  destruct (build_features LOOKUP (run1 ++ [s2])) as [fs|e] eqn:E;
    [|reflexivity].
  exfalso.
  destruct (build_features_rows LOOKUP _ fs E) as (Ec & _ & _).
  assert (Hn : exists f, nth_error fs 22 = Some f).
  { destruct (nth_error fs 22) as [f|] eqn:En; [eauto|].
    apply nth_error_None in En.
    rewrite <- (length_map cls), Ec in En. simpl in En. lia. }
  destruct Hn as [f Hf].
  destruct (build_features_nth LOOKUP _ fs 22
              TimeSinceSessionStartPrev.cls f E eq_refl Hf)
    as (self & Hrun & _).
  rewrite (first_run_consumed p run1 s2 H) in Hrun.
  rewrite (TimeSinceSessionStartPrev_raises p run1 s2 H) in Hrun.
  discriminate Hrun.
Qed.

Lemma no_login_breaks_session_start_witness :
  is_Ok (build_features example_LOOKUP
           ([set_problem_id (Some 1)
               (set_begin_time (Some (at_time 10 0 5))
                  (set_solution (Some "select a"%string) new_Submission))]
            ++ [set_problem_id (Some 2)
                  (set_solution (Some "select b"%string) new_Submission)]))
  = false.
Proof.
  exact (proj2 (no_login_breaks_session_start example_LOOKUP 1
                  [set_problem_id (Some 1)
                     (set_begin_time (Some (at_time 10 0 5))
                        (set_solution (Some "select a"%string)
                           new_Submission))]
                  (set_problem_id (Some 2)
                     (set_solution (Some "select b"%string) new_Submission))
                  eq_refl)).
Defined.

(** *** The running maximum and minimum of a cumulative extractor *)

Lemma fold_left_max_spec (zs : list Z) :
  forall z0 : Z,
    (fold_left Z.max zs z0 = z0 \/ In (fold_left Z.max zs z0) zs)
    /\ z0 <= fold_left Z.max zs z0
    /\ (forall z, In z zs -> z <= fold_left Z.max zs z0).
Proof.
  induction zs as [|x zs IH]; intros z0; simpl.
  - repeat split; [left; reflexivity | lia | intros z []].
  - destruct (IH (Z.max z0 x)) as (H1 & H2 & H3). repeat split.
    + destruct H1 as [H1|H1]; [|right; right; exact H1].
      rewrite H1. destruct (Z.max_spec z0 x) as [[_ ->]|[_ ->]]; auto.
    + lia.
    + intros z [<-|Hz]; [lia | apply H3; exact Hz].
Qed.

Lemma fold_left_min_spec (zs : list Z) :
  forall z0 : Z,
    (fold_left Z.min zs z0 = z0 \/ In (fold_left Z.min zs z0) zs)
    /\ fold_left Z.min zs z0 <= z0
    /\ (forall z, In z zs -> fold_left Z.min zs z0 <= z).
Proof.
  induction zs as [|x zs IH]; intros z0; simpl.
  - repeat split; [left; reflexivity | lia | intros z []].
  - destruct (IH (Z.min z0 x)) as (H1 & H2 & H3). repeat split.
    + destruct H1 as [H1|H1]; [|right; right; exact H1].
      rewrite H1. destruct (Z.min_spec z0 x) as [[_ ->]|[_ ->]]; auto.
    + lia.
    + intros z [<-|Hz]; [lia | apply H3; exact Hz].
Qed.

Lemma as_nums_In (vs : list value) (zs : list Z) :
  as_nums vs = Some zs ->
  (forall z, In z zs -> exists v, In v vs /\ as_num v = Some z)
  /\ (forall v z, In v vs -> as_num v = Some z -> In z zs).
Proof.
  revert zs. induction vs as [|v vs IH]; intros zs H; simpl in H.
  - inversion H. split; [intros z [] | intros v z []].
  - destruct (as_num v) as [x|] eqn:Ev; [|discriminate].
    destruct (as_nums vs) as [xs|]; [|discriminate].
    inversion H; subst zs. destruct (IH xs eq_refl) as [I1 I2]. split.
    + intros z [<-|Hz]; [exists v; simpl; auto|].
      destruct (I1 z Hz) as (w & Hw & Ew). exists w. simpl. auto.
    + intros w z [<-|Hw] Ew; [left; congruence|].
      right. eapply I2; eassumption.
Qed.

Lemma filter_not_None_In (vs : list value) (v : value) (z : Z) :
  In v vs -> as_num v = Some z ->
  In v (filter (fun v => negb (is_None v)) vs).
Proof.
  intros Hv Ez. apply filter_In. split; [exact Hv|].
  destruct v; try discriminate Ez; reflexivity.
Qed.

Lemma filter_not_None_nil (vs : list value) :
  filter (fun v => negb (is_None v)) vs = [] <->
  forallb is_None vs = true.
Proof.
  induction vs as [|v vs IH]; simpl; [tauto|].
  destruct (is_None v); simpl; [exact IH|].
  split; discriminate.
Qed.

Lemma py_max_default_spec (vs : list value) (r : value) :
  py_max_default vs = Ok r ->
  (r = VNone <-> forallb is_None vs = true)
  /\ (forall v z, In v vs -> as_num v = Some z ->
      exists hi, r = VNum hi /\ z <= hi).
Proof.
  unfold py_max_default. intros H.
  destruct (filter (fun v => negb (is_None v)) vs) as [|w ws] eqn:F.
  - inversion H; subst r. split.
    + split; [intros _; apply filter_not_None_nil; exact F | reflexivity].
    + intros v z Hv Ez.
      pose proof (filter_not_None_In vs v z Hv Ez) as Hin.
      rewrite F in Hin. contradiction.
  - destruct (as_nums (w :: ws)) as [zs|] eqn:N; [|discriminate].
    destruct zs as [|z0 zs]; [discriminate|].
    simpl in H. inversion H; subst r. split.
    + split; [discriminate|]. intros Hall.
      apply filter_not_None_nil in Hall. rewrite Hall in F. discriminate F.
    + intros v z Hv Ez. eexists. split; [reflexivity|].
      pose proof (filter_not_None_In vs v z Hv Ez) as Hin.
      rewrite F in Hin.
      destruct (as_nums_In _ _ N) as [_ I2].
      destruct (fold_left_max_spec zs z0) as (_ & A0 & A1).
      destruct (I2 v z Hin Ez) as [E0|Hz].
      * rewrite <- E0. exact A0.
      * apply A1. exact Hz.
Qed.

Lemma py_min_default_spec (vs : list value) (r : value) :
  py_min_default vs = Ok r ->
  (r = VNone <-> forallb is_None vs = true)
  /\ (forall v z, In v vs -> as_num v = Some z ->
      exists lo, r = VNum lo /\ lo <= z).
Proof.
  unfold py_min_default. intros H.
  destruct (filter (fun v => negb (is_None v)) vs) as [|w ws] eqn:F.
  - inversion H; subst r. split.
    + split; [intros _; apply filter_not_None_nil; exact F | reflexivity].
    + intros v z Hv Ez.
      pose proof (filter_not_None_In vs v z Hv Ez) as Hin.
      rewrite F in Hin. contradiction.
  - destruct (as_nums (w :: ws)) as [zs|] eqn:N; [|discriminate].
    destruct zs as [|z0 zs]; [discriminate|].
    simpl in H. inversion H; subst r. split.
    + split; [discriminate|]. intros Hall.
      apply filter_not_None_nil in Hall. rewrite Hall in F. discriminate F.
    + intros v z Hv Ez. eexists. split; [reflexivity|].
      pose proof (filter_not_None_In vs v z Hv Ez) as Hin.
      rewrite F in Hin.
      destruct (as_nums_In _ _ N) as [_ I2].
      destruct (fold_left_min_spec zs z0) as (_ & A0 & A1).
      destruct (I2 v z Hin Ez) as [E0|Hz].
      * rewrite <- E0. exact A0.
      * apply A1. exact Hz.
Qed.

(** X12.  When a cumulative extractor has consumed a submission, the max
    and min cells it has just appended are null exactly when every raw
    value produced so far is null, and otherwise they bound every numeric
    raw value produced so far, over the whole sequence (the source
    buffers of mean and stdev play no part). *)
Theorem cumulative_max_min_bound_all_values {B : Type}
    (hooks : @CumulativeHooks B) (self self' : Cumulative B)
    (submission : Submission) :
  Cumulative_new_submission hooks self submission = Ok self' ->
  exists mx mn : value,
    last (_max_values (attrs self')) VNone = mx
    /\ last (_min_values (attrs self')) VNone = mn
    /\ (mx = VNone <-> forallb is_None (_values self') = true)
    /\ (mn = VNone <-> forallb is_None (_values self') = true)
    /\ forall v z, In v (_values self') -> as_num v = Some z ->
       exists lo hi, mn = VNum lo /\ mx = VNum hi /\ lo <= z <= hi.
Proof.
  intros H. unfold Cumulative_new_submission in H.
  bind_inv H as s1 H1. bind_inv H as clear Hclear.
  bind_inv H as add_mean Hadd_mean. bind_inv H as s2 H2.
  bind_inv H as s3 H3. bind_inv H as add_stdev Hadd_stdev.
  bind_inv H as s4 H4. bind_inv H as s5 H5.
  bind_inv H as mx Hmx. bind_inv H as mn Hmn.
  inversion H; subst self'; clear H.
  exists mx, mn. simpl in *.
  rewrite !last_last.
  destruct (py_max_default_spec _ _ Hmx) as [M1 M2].
  destruct (py_min_default_spec _ _ Hmn) as [N1 N2].
  repeat split; try tauto.
  intros v z Hv Ez.
  destruct (M2 v z Hv Ez) as (hi & -> & Hhi).
  destruct (N2 v z Hv Ez) as (lo & -> & Hlo).
  exists lo, hi. repeat split; assumption.
Qed.

Lemma cumulative_max_min_bound_all_values_witness :
  exists (self' : Cumulative unit) (mx mn : value),
    Cumulative_new_submission ViolatedConstraints.hooks (Cumulative_init tt)
      (set_solution (Some "select 1"%string) new_Submission) = Ok self'
    /\ last (_max_values (attrs self')) VNone = mx
    /\ last (_min_values (attrs self')) VNone = mn
    /\ (mx = VNone <-> forallb is_None (_values self') = true).
Proof.
  eexists.
  destruct (cumulative_max_min_bound_all_values ViolatedConstraints.hooks
              (Cumulative_init tt) _
              (set_solution (Some "select 1"%string) new_Submission)
              eq_refl)
    as (mx & mn & Hx & Hn & Ex & _).
  exists mx, mn. split; [reflexivity|]. auto.
Defined.

(** ** The label deriver, continued *)

(** X13.  [classify_problems] returns on every submission sequence (its
    look-ahead never indexes past the end), with exactly one label per
    non-skipped submission; and when the framework returns as well,
    every value sequence has as many cells as there are labels. *)
Theorem labels_one_per_consumed_submission (LOOKUP : lookup_table)
    (subms : list Submission) :
  exists labels : list outcome,
    classify_problems subms = Ok labels
    /\ List.length labels = List.length (consumed subms)
    /\ forall fs : list feature,
        build_features LOOKUP subms = Ok fs ->
        Forall (fun f => List.length (values f) = List.length labels) fs.
Proof.
  assert (H : exists labels, classify_problems subms = Ok labels).
  { unfold classify_problems. rewrite classify_loop_label; [eauto|].
    apply Forall_forall. intros i Hi. apply in_seq in Hi. lia. }
  destruct H as (labels & H). exists labels.
  pose proof (classify_problems_length subms labels H) as L.
  split; [exact H|]. split; [exact L|].
  intros fs Hfs. rewrite L.
  apply (build_features_rows LOOKUP subms fs Hfs).
Qed.

(** ** The timestamp extractor, continued *)

Lemma cut_at_space_inv (s a b : string) :
  cut_at_space s = Some (a, b) ->
  s = (a ++ String space b)%string /\ no_space a = true.
Proof.
  revert a. induction s as [|c s IH]; intros a H; simpl in H;
    [discriminate|].
  destruct (Ascii.eqb c space) eqn:E.
  - inversion H; subst. apply Ascii.eqb_eq in E. subst c.
    split; reflexivity.
  - destruct (cut_at_space s) as [[a' b']|]; [|discriminate].
    inversion H; subst. destruct (IH a' eq_refl) as [-> Hn].
    split; [reflexivity|]. simpl. rewrite E, Hn. reflexivity.
Qed.

(** X14.  The timestamp extractor raises nothing but [ValueError], with
    one of its two messages; and when it returns a timestamp and a
    remainder, the line is the time token, a space, the date token, a
    space and that remainder, the two tokens holding no space and
    parsing, once joined and stripped of semicolons, to that timestamp:
    no text of the line is lost. *)
Theorem timestamp_extract_outcomes (line : string) :
  match timestamp_extract line with
  | Ok (ts, remainder) =>
      exists time_token date_token : string,
        line = log_line time_token date_token remainder
        /\ no_space time_token = true
        /\ no_space date_token = true
        /\ strptime
             (strip semicolon
                (time_token ++ String space EmptyString ++ date_token)) =
           Some ts
  | Raise e =>
      e = ValueError "Couldn't parse log file timestamp"
      \/ e = ValueError "Log file line has unexpected structure"
  end.
Proof.
  unfold timestamp_extract. simpl re_split_space.
  destruct (cut_at_space line) as [[s0 rest]|] eqn:E0; simpl;
    [|right; reflexivity].
  destruct (cut_at_space rest) as [[s1 rest']|] eqn:E1; simpl.
  - destruct (strptime _) as [ts|] eqn:P; [|left; reflexivity].
    apply cut_at_space_inv in E0, E1.
    destruct E0 as [-> N0]. destruct E1 as [-> N1].
    exists s0, s1. repeat split; assumption.
  - destruct (strptime _); [right | left]; reflexivity.
Qed.

(** ** Multi-line events *)

Lemma contains_empty (needle : string) :
  needle <> EmptyString -> contains needle EmptyString = false.
Proof. destruct needle; [contradiction | reflexivity]. Qed.

Lemma string_app_nil_r (s : string) : (s ++ EmptyString)%string = s.
Proof. induction s as [|c s IH]; simpl; [|rewrite IH]; reflexivity. Qed.

Lemma PreProcessEvent_loop_reads (before : list string) :
  forall (fuel : nat) (line solution mode_line : string)
         (after : list string),
    forallb (fun l => negb (contains "Mode: " l)) (line :: before) = true ->
    contains "Mode: " mode_line = true ->
    (List.length before < fuel)%nat ->
    PreProcessEvent_loop fuel line solution
      (before ++ mode_line :: after) =
    Some ((solution ++ join_lines before ++ mode_line)%string, after).
Proof.
  induction before as [|b before IH];
    intros fuel line solution mode_line after Hno Hmode Hfuel;
    simpl in Hno; apply andb_prop in Hno; destruct Hno as [Hline Hno];
    (destruct fuel as [|fuel]; [simpl in Hfuel; lia|]).
  - simpl. rewrite Hline. simpl. destruct fuel; simpl; rewrite Hmode;
      reflexivity.
  - cbn [PreProcessEvent_loop]. rewrite Hline. cbn [app readline].
    rewrite (IH fuel b (solution ++ b)%string mode_line after).
    + simpl. rewrite !string_app_assoc. reflexivity.
    + exact Hno.
    + exact Hmode.
    + simpl in Hfuel. lia.
Qed.

Lemma PreProcessEvent_loop_hangs (file : list string) :
  forall (fuel : nat) (line solution : string),
    forallb (fun l => negb (contains "Mode: " l)) (line :: file) = true ->
    PreProcessEvent_loop fuel line solution file = None.
Proof.
  intros fuel. revert file.
  induction fuel as [|fuel IH]; intros file line solution Hno;
    simpl in Hno; apply andb_prop in Hno; destruct Hno as [Hline Hno];
    simpl; rewrite Hline; simpl; [reflexivity|].
  destruct file as [|l rest]; simpl.
  - apply IH. reflexivity.
  - apply IH. exact Hno.
Qed.

(** X15.  [PreProcessEvent] reads on until a line contains ["Mode: "]: if
    the event's own line contains it nothing is read; otherwise the
    solution is that line followed by every line up to and including the
    first one that contains it, and the file is left just after that
    line; and if no line of the rest of the file contains it, the loop
    never ends (at the end of the file [readline] returns the empty
    string for ever). *)
Theorem pre_process_reads_to_mode_line (line : string) :
  (forall (fuel : nat) (file : list string),
      contains "Mode: " line = true ->
      PreProcessEvent_init fuel line file = Some (line, file))
  /\ (forall (fuel : nat) (before : list string) (mode_line : string)
             (after : list string),
         forallb (fun l => negb (contains "Mode: " l)) (line :: before)
         = true ->
         contains "Mode: " mode_line = true ->
         (List.length before < fuel)%nat ->
         PreProcessEvent_init fuel line (before ++ mode_line :: after) =
         Some ((line ++ join_lines before ++ mode_line)%string, after))
  /\ (forall (fuel : nat) (file : list string),
         forallb (fun l => negb (contains "Mode: " l)) (line :: file)
         = true ->
         PreProcessEvent_init fuel line file = None).
Proof.
  unfold PreProcessEvent_init. split; [|split].
  - intros fuel file H. destruct fuel; simpl; rewrite H; reflexivity.
  - intros. apply PreProcessEvent_loop_reads; assumption.
  - intros. apply PreProcessEvent_loop_hangs; assumption.
Qed.

Lemma pre_process_reads_to_mode_line_witness :
  PreProcessEvent_init 5 "Pre-process: "
    ["select a"%string; "from t"%string; "Mode: 1"%string;
     "next event"%string] =
    Some ("Pre-process: select afrom tMode: 1"%string,
          ["next event"%string])
  /\ PreProcessEvent_init 5 "Pre-process: "
       ["select a"%string; "from t"%string] = None.
Proof.
  destruct (pre_process_reads_to_mode_line "Pre-process: ")
    as (_ & H2 & H3).
  split.
  - exact (H2 5%nat ["select a"%string; "from t"%string] "Mode: 1"%string
             ["next event"%string] eq_refl eq_refl ltac:(simpl; lia)).
  - exact (H3 5%nat ["select a"%string; "from t"%string] eq_refl).
Defined.

Lemma parse_multiline_loop_text (lines : list string) :
  forall (fuel : nat) (space_count : Z) (final_result : string)
         (file : list string),
    forallb (fun l => negb (isspace l)) lines = true ->
    space_count < 2 ->
    parse_multiline_loop (List.length lines + fuel) space_count final_result
      (lines ++ file) =
    parse_multiline_loop fuel space_count
      (final_result ++ join_lines lines)%string file.
Proof.
  induction lines as [|l lines IH];
    intros fuel space_count final_result file Hno Hc; simpl in Hno.
  - simpl. rewrite string_app_nil_r. reflexivity.
  - apply andb_prop in Hno. destruct Hno as [Hl Hno].
    cbn [List.length Nat.add parse_multiline_loop app readline].
    replace (space_count <? 2) with true by (symmetry; apply Z.ltb_lt; lia).
    destruct (isspace l); [discriminate Hl|].
    rewrite (IH fuel space_count _ file Hno Hc).
    simpl. rewrite string_app_assoc. reflexivity.
Qed.

Lemma parse_multiline_loop_blank (fuel : nat) (space_count : Z)
    (final_result blank : string) (file : list string) :
  isspace blank = true -> space_count < 2 ->
  parse_multiline_loop (S fuel) space_count final_result (blank :: file) =
  parse_multiline_loop fuel (space_count + 1)
    (final_result ++ blank)%string file.
Proof.
  intros Hb Hc. cbn [parse_multiline_loop readline].
  replace (space_count <? 2) with true by (symmetry; apply Z.ltb_lt; lia).
  rewrite Hb. reflexivity.
Qed.

Lemma parse_multiline_loop_hangs (fuel : nat) :
  forall (space_count : Z) (final_result : string) (file : list string),
    space_count + Z.of_nat (List.length (filter isspace file)) < 2 ->
    parse_multiline_loop fuel space_count final_result file = None.
Proof.
  induction fuel as [|fuel IH]; intros space_count final_result file H;
    cbn [parse_multiline_loop];
    (replace (space_count <? 2) with true
       by (symmetry; apply Z.ltb_lt; lia)); [reflexivity|].
  destruct file as [|l rest]; cbn [readline].
  - simpl. apply IH. simpl. simpl in H. exact H.
  - simpl in H. destruct (isspace l); apply IH; simpl in H; lia.
Qed.

(** X16.  [PostProcessEvent] takes its text from its own line when that
    line contains both ["Satisfied"] and ["Violated"].  Otherwise it
    reads on until it has seen two whitespace-only lines, which need not
    be adjacent: its text is its line followed by every line up to and
    including the second of them, and the file is left just after; and
    if fewer than two whitespace-only lines remain in the file, the loop
    never ends. *)
Theorem post_process_reads_two_blank_lines (line : string) :
  (forall (fuel : nat) (file : list string),
      contains "Satisfied" line && contains "Violated" line = true ->
      PostProcessEvent_text fuel line file = Some (line, file))
  /\ (forall (fuel : nat) (a c : list string) (blank1 blank2 : string)
             (rest : list string),
         contains "Satisfied" line && contains "Violated" line = false ->
         forallb (fun l => negb (isspace l)) (a ++ c) = true ->
         isspace blank1 && isspace blank2 = true ->
         (List.length a + List.length c + 2 <= fuel)%nat ->
         PostProcessEvent_text fuel line
           (a ++ blank1 :: c ++ blank2 :: rest) =
         Some ((line ++ join_lines (a ++ blank1 :: c ++ [blank2]))%string,
               rest))
  /\ (forall (fuel : nat) (file : list string),
         contains "Satisfied" line && contains "Violated" line = false ->
         (List.length (filter isspace file) < 2)%nat ->
         PostProcessEvent_text fuel line file = None).
Proof.
  unfold PostProcessEvent_text. split; [|split].
  - intros fuel file H. rewrite H. reflexivity.
  - intros fuel a c blank1 blank2 rest H Hno Hb Hfuel. rewrite H.
    rewrite forallb_app in Hno. apply andb_prop in Hno.
    destruct Hno as [Ha Hc]. apply andb_prop in Hb. destruct Hb as [H1 H2].
    replace fuel
      with (List.length a
            + S (List.length c
                 + S (fuel - List.length a - List.length c - 2)))%nat
      by lia.
    rewrite parse_multiline_loop_text by (assumption || lia).
    rewrite parse_multiline_loop_blank by (assumption || lia).
    rewrite parse_multiline_loop_text by (assumption || lia).
    rewrite parse_multiline_loop_blank by (assumption || lia).
    simpl Z.add.
    assert (E : forall n s f, parse_multiline_loop n 2 s f = Some (s, f))
      by (intros [|n] s f; reflexivity).
    rewrite E. f_equal. f_equal.
    assert (J : forall xs ys, join_lines (xs ++ ys) =
                              (join_lines xs ++ join_lines ys)%string).
    { intros xs ys. induction xs as [|x xs IHx]; simpl;
        [reflexivity | rewrite IHx, string_app_assoc; reflexivity]. }
    change (blank1 :: c ++ [blank2]) with ([blank1] ++ c ++ [blank2]).
    rewrite !J. simpl. rewrite !string_app_nil_r, !string_app_assoc.
    reflexivity.
  - intros fuel file H Hfew. rewrite H.
    apply parse_multiline_loop_hangs. lia.
Qed.

Lemma post_process_reads_two_blank_lines_witness :
  PostProcessEvent_text 9 "Post-process:"
    ["Satisfied constraints: (1 2)"%string; " "%string;
     "Violated constraints: NIL"%string; "Feedback level: 0"%string;
     " "%string; "next event"%string] =
  Some ("Post-process:Satisfied constraints: (1 2) Violated constraints: NILFeedback level: 0 "%string,
        ["next event"%string]).
Proof.
  destruct (post_process_reads_two_blank_lines "Post-process:")
    as (_ & H2 & _).
  exact (H2 9%nat ["Satisfied constraints: (1 2)"%string] 
           ["Violated constraints: NIL"%string; "Feedback level: 0"%string]
           " "%string " "%string ["next event"%string]
           eq_refl eq_refl eq_refl ltac:(simpl; lia)).
Defined.

(** ** Previous-problem aggregates over runs *)

Section PreviousRuns.
Context {B : Type} (nm : string) (b : B).
Variable hook : @submission_value_hook (PrevAttrs B).
Variable agg : list Submission -> value.
Hypothesis hook_agg : aggregates hook agg.

Lemma PreviousProblem_step_same (self : PreviousProblem B) (s : Submission)
    (p : Z) :
  _current_prob_id (attrs self) = Some p
  \/ _current_prob_id (attrs self) = None ->
  problem_id s = Some p ->
  new_submission (prev_class nm b hook) self s =
  Ok (mk_feature (_submission self) (Some s)
        (_values self
         ++ [prev_cell agg (_prev_prob_submissions (attrs self))])
        (mk_prev (_prev_prob_submissions (attrs self))
           (_current_prob_submissions (attrs self) ++ [s]) (Some p)
           (pown (attrs self)))).
Proof.
  intros Hid Hp.
  unfold prev_class, new_submission, PreviousProblem_new_submission,
    shift_submission, with_attrs, append_value.
  cbn [attrs _submission _values _last_submission].
  rewrite Hp.
  assert (E : option_Z_eqb
                match _current_prob_id (attrs self) with
                | Some c => Some c
                | None => Some p
                end (Some p) = true).
  { destruct Hid as [-> | ->]; simpl; apply Z.eqb_refl. }
  rewrite E.
  assert (E' : match _current_prob_id (attrs self) with
               | Some c => Some c
               | None => Some p
               end = Some p).
  { destruct Hid as [-> | ->]; reflexivity. }
  rewrite E'. cbn [_prev_prob_submissions].
  destruct (_prev_prob_submissions (attrs self)) as [|x P] eqn:EP.
  - reflexivity.
  - cbn [List.length Z.of_nat Z.eqb]. rewrite hook_agg.
    cbn [bind attrs _prev_prob_submissions prev_cell].
    reflexivity.
Qed.

Lemma PreviousProblem_step_new (self : PreviousProblem B) (s : Submission)
    (p q : Z) :
  _current_prob_id (attrs self) = Some q -> q <> p ->
  problem_id s = Some p ->
  new_submission (prev_class nm b hook) self s =
  Ok (mk_feature (_submission self) (Some s)
        (_values self
         ++ [prev_cell agg (_current_prob_submissions (attrs self))])
        (mk_prev (_current_prob_submissions (attrs self)) [s] (Some p)
           (pown (attrs self)))).
Proof.
  intros Hid Hne Hp.
  unfold prev_class, new_submission, PreviousProblem_new_submission,
    shift_submission, with_attrs, append_value.
  cbn [attrs _submission _values _last_submission].
  rewrite Hp, Hid. cbn [option_Z_eqb].
  replace (q =? p) with false by (symmetry; apply Z.eqb_neq; exact Hne).
  cbn [_prev_prob_submissions app].
  destruct (_current_prob_submissions (attrs self)) as [|x C] eqn:EC.
  - reflexivity.
  - cbn [List.length Z.of_nat Z.eqb]. rewrite hook_agg.
    cbn [bind attrs _prev_prob_submissions prev_cell].
    reflexivity.
Qed.

Lemma PreviousProblem_within_run (p : Z) (l : list Submission) :
  forallb (fun s => option_Z_eqb (problem_id s) (Some p)) l = true ->
  forall self : PreviousProblem B,
    _current_prob_id (attrs self) = Some p ->
    exists st : PreviousProblem B,
      run (prev_class nm b hook) self l = Ok st
      /\ _current_prob_id (attrs st) = Some p
      /\ _prev_prob_submissions (attrs st) =
         _prev_prob_submissions (attrs self)
      /\ _current_prob_submissions (attrs st) =
         _current_prob_submissions (attrs self) ++ l
      /\ _values st =
         _values self
         ++ repeat (prev_cell agg (_prev_prob_submissions (attrs self)))
              (List.length l).
Proof.
  induction l as [|s l IH]; intros Hall self Hid.
  - exists self. simpl. rewrite !app_nil_r. auto.
  - simpl in Hall. apply andb_prop in Hall. destruct Hall as [Hs Hall].
    apply option_Z_eqb_eq in Hs. cbn [run].
    rewrite (PreviousProblem_step_same self s p (or_introl Hid) Hs).
    cbn [bind].
    match goal with
    | |- context [run _ ?x l] =>
        destruct (IH Hall x eq_refl) as (st & R & I & P & C & V)
    end.
    exists st. split; [exact R|]. split; [exact I|].
    simpl in P, C, V. split; [exact P|].
    split; [rewrite C, <- app_assoc; reflexivity|].
    rewrite V, <- app_assoc. reflexivity.
Qed.

Lemma PreviousProblem_runs (runs : list (Z * list Submission)) :
  forall (before : option Z) (self : PreviousProblem B),
    runs_ok before runs = true ->
    _current_prob_id (attrs self) = before ->
    (before = None ->
     _current_prob_submissions (attrs self) = []
     /\ _prev_prob_submissions (attrs self) = []) ->
    exists st : PreviousProblem B,
      run (prev_class nm b hook) self (List.concat (map snd runs)) = Ok st
      /\ _values st =
         _values self
         ++ prev_cells agg (_current_prob_submissions (attrs self)) runs.
Proof.
  induction runs as [|[p l] rest IH]; intros before self Hok Hid Hinit.
  - exists self. simpl. rewrite app_nil_r. auto.
  - simpl in Hok.
    apply andb_prop in Hok. destruct Hok as [Hok Hrest].
    apply andb_prop in Hok. destruct Hok as [Hok Hall].
    apply andb_prop in Hok. destruct Hok as [Hne Hlen].
    destruct l as [|s l']; [discriminate Hlen|].
    simpl in Hall. apply andb_prop in Hall. destruct Hall as [Hs Hall].
    apply option_Z_eqb_eq in Hs.
    change (List.concat (map snd ((p, s :: l') :: rest)))
      with (s :: (l' ++ List.concat (map snd rest))).
    cbn [run].
    assert (E1 : exists st1 : PreviousProblem B,
               new_submission (prev_class nm b hook) self s = Ok st1
               /\ _current_prob_id (attrs st1) = Some p
               /\ _current_prob_submissions (attrs st1) = [s]
               /\ prev_cell agg (_prev_prob_submissions (attrs st1)) =
                  prev_cell agg (_current_prob_submissions (attrs self))
               /\ _values st1 =
                  _values self
                  ++ [prev_cell agg
                        (_current_prob_submissions (attrs self))]).
    { destruct before as [q|].
      - eexists. split.
        + apply (PreviousProblem_step_new self s p q Hid); [|exact Hs].
          intros ->. simpl in Hne. rewrite Z.eqb_refl in Hne.
          discriminate Hne.
        + simpl. auto.
      - destruct (Hinit eq_refl) as [HC HP]. eexists. split.
        + apply (PreviousProblem_step_same self s p (or_intror Hid) Hs).
        + simpl. rewrite HC, HP. auto. }
    destruct E1 as (st1 & R1 & I1 & C1 & P1 & V1).
    rewrite R1. cbn [bind].
    destruct (PreviousProblem_within_run p l' Hall st1 I1)
      as (st2 & R2 & I2 & P2 & C2 & V2).
    rewrite run_app, R2. cbn [bind].
    destruct (IH (Some p) st2 Hrest I2) as (st & R & V).
    { intros H; discriminate H. }
    exists st. split; [exact R|].
    rewrite V, V2, V1, C2, C1, P1. cbn [prev_cells List.length repeat].
    rewrite <- !app_assoc. reflexivity.
Qed.

End PreviousRuns.

(** X17.  For a sequence of runs of submissions, each on one problem and
    on another problem than the run before, [prev_completed],
    [prev_submission_count] and [prev_count_wrong_submissions] are null
    throughout the first run and, throughout every later run, the
    aggregate of the run just before it: whether any attempt of that run
    was solved, how many attempts it had, and how many were unsolved. *)
Theorem previous_run_aggregates (runs : list (Z * list Submission)) :
  runs_ok None runs = true ->
  (exists st,
      run CompletedPrev.cls (init CompletedPrev.cls)
        (List.concat (map snd runs)) = Ok st
      /\ _values st =
         prev_cells (fun prev => VBool (existsb solved prev)) [] runs)
  /\ (exists st,
         run SubmissionCountPrev.cls (init SubmissionCountPrev.cls)
           (List.concat (map snd runs)) = Ok st
         /\ _values st = prev_cells (fun prev => VNum (len prev)) [] runs)
  /\ (exists st,
         run NumberWrongSubmissions.cls (init NumberWrongSubmissions.cls)
           (List.concat (map snd runs)) = Ok st
         /\ _values st =
            prev_cells
              (fun prev =>
                 VNum (len (filter (fun s => negb (solved s)) prev)))
              [] runs).
Proof.
  intros Hok. repeat apply conj.
  - apply (PreviousProblem_runs "prev_completed" tt
             CompletedPrev._submission_value
             (fun prev => VBool (existsb solved prev)))
      with (before := None); auto.
    intros self. reflexivity.
  - apply (PreviousProblem_runs "prev_submission_count" tt
             SubmissionCountPrev._submission_value
             (fun prev => VNum (len prev)))
      with (before := None); auto.
    intros self. reflexivity.
  - apply (PreviousProblem_runs "prev_count_wrong_submissions" tt
             NumberWrongSubmissions._submission_value
             (fun prev =>
                VNum (len (filter (fun s => negb (solved s)) prev))))
      with (before := None); auto.
    intros self. reflexivity.
Qed.

Lemma previous_run_aggregates_witness :
  exists st,
    run CompletedPrev.cls (init CompletedPrev.cls)
      (consumed (events_to_submissions example_events)) = Ok st
    /\ _values st = [VNone; VNone; VBool true].
Proof.
  destruct (previous_run_aggregates
              [(1, firstn 2 (consumed (events_to_submissions example_events)));
               (2, skipn 2 (consumed (events_to_submissions example_events)))]
              eq_refl) as ((st & R & V) & _).
  exists st. split; [exact R | exact V].
Defined.

(** ** Extractors that cannot fail *)

Lemma run_total_inv (c : Feature) (good : FeatureBase (attrs_t c) -> Prop)
    (ok : Submission -> Prop) :
  (forall self s, good self -> ok s ->
     exists self', new_submission c self s = Ok self' /\ good self') ->
  forall (subs : list Submission) (self : FeatureBase (attrs_t c)),
    Forall ok subs -> good self -> is_Ok (run c self subs) = true.
Proof.
  intros Hstep. induction subs as [|s rest IH]; intros self Hok Hgood;
    [reflexivity|].
  apply Forall_cons_iff in Hok. destruct Hok as [Hs Hrest].
  cbn [run]. destruct (Hstep self s Hgood Hs) as (self' & E & G).
  rewrite E. cbn [bind]. apply IH; assumption.
Qed.

Lemma simple_class_run_total {A : Type} (nm : string) (a : A)
    (hook : @submission_value_hook A) :
  simple_total hook ->
  forall (subs : list Submission) (self : FeatureBase A),
    is_Ok (run (simple_class nm a hook) self subs) = true.
Proof.
  intros Ht subs self.
  apply (run_total_inv (simple_class nm a hook) (fun _ => True)
           (fun _ => True)); auto.
  - intros x s _ _.
    assert (Hs : forall (y : FeatureBase A),
               exists y', FeatureBase_new_submission hook y s = Ok y').
    { intros y.
      destruct (Ht (shift_submission y s) s eq_refl) as [[v y'] E].
      exists (append_value v y').
      unfold FeatureBase_new_submission. cbv zeta. rewrite E.
      reflexivity. }
    destruct (Hs x) as [y' E]. exists y'. split; [exact E|exact I].
  - apply Forall_forall. auto.
Qed.

Lemma as_nums_numbers (vs : list value) :
  forallb is_number vs = true -> exists zs, as_nums vs = Some zs.
Proof.
  induction vs as [|v vs IH]; simpl; intros H; [eauto|].
  apply andb_prop in H. destruct H as [Hv Hvs].
  unfold is_number in Hv. destruct (as_num v); [|discriminate Hv].
  destruct (IH Hvs) as [zs ->]. eauto.
Qed.

Lemma filter_not_None_numbers (vs : list value) :
  forallb null_or_number vs = true ->
  forallb is_number (filter (fun v => negb (is_None v)) vs) = true.
Proof.
  intros H. apply forallb_forall. intros v Hv. apply filter_In in Hv.
  destruct Hv as [Hin Hn]. rewrite forallb_forall in H.
  specialize (H v Hin). unfold null_or_number in H.
  destruct (is_None v); [discriminate Hn | exact H].
Qed.

Lemma py_max_default_total (vs : list value) :
  forallb null_or_number vs = true -> exists r, py_max_default vs = Ok r.
Proof.
  intros H. unfold py_max_default.
  pose proof (filter_not_None_numbers vs H) as N.
  destruct (filter (fun v => negb (is_None v)) vs) as [|w ws];
    [eauto|].
  destruct (as_nums_numbers _ N) as [zs E]. rewrite E.
  destruct zs as [|z zs]; [simpl in E|simpl; eauto].
  destruct (as_num w); [destruct (as_nums ws)|]; discriminate E.
Qed.

Lemma py_min_default_total (vs : list value) :
  forallb null_or_number vs = true -> exists r, py_min_default vs = Ok r.
Proof.
  intros H. unfold py_min_default.
  pose proof (filter_not_None_numbers vs H) as N.
  destruct (filter (fun v => negb (is_None v)) vs) as [|w ws];
    [eauto|].
  destruct (as_nums_numbers _ N) as [zs E]. rewrite E.
  destruct zs as [|z zs]; [simpl in E|simpl; eauto].
  destruct (as_num w); [destruct (as_nums ws)|]; discriminate E.
Qed.

Lemma emit_mean_total {B : Type} (self : Cumulative B) :
  forallb is_number (_mean_values_src (attrs self)) = true ->
  exists m,
    emit_mean self =
    Ok (with_mean_values (_mean_values (attrs self) ++ [m]) self).
Proof.
  intros H. unfold emit_mean.
  destruct (0 <? len (_mean_values_src (attrs self))) eqn:L; [|eauto].
  unfold py_mean.
  destruct (_mean_values_src (attrs self)) as [|v vs] eqn:E;
    [discriminate L|].
  destruct (as_nums_numbers _ H) as [zs ->]. simpl. eauto.
Qed.

Lemma emit_stdev_total {B : Type} (self : Cumulative B) :
  forallb is_number (_stdev_values_src (attrs self)) = true ->
  exists sd,
    emit_stdev self =
    Ok (with_stdev_values (_stdev_values (attrs self) ++ [sd]) self).
Proof.
  intros H. unfold emit_stdev.
  destruct (1 <? len (_stdev_values_src (attrs self))) eqn:L;
    [|eauto].
  unfold py_stdev.
  destruct (_stdev_values_src (attrs self)) as [|v [|w vs]] eqn:E;
    try discriminate L.
  destruct (as_nums_numbers _ H) as [zs ->]. simpl. eauto.
Qed.

Lemma py_last_snoc {A : Type} (xs : list A) (x : A) :
  py_last (xs ++ [x]) = Ok x.
Proof. unfold py_last. rewrite rev_app_distr. reflexivity. Qed.

Lemma forallb_snoc {A : Type} (p : A -> bool) (xs : list A) (x : A) :
  forallb p xs = true -> p x = true -> forallb p (xs ++ [x]) = true.
Proof.
  intros H1 H2. rewrite forallb_app, H1. simpl. rewrite H2. reflexivity.
Qed.

Ltac proj :=
  cbn [append_value with_mean_values_src with_mean_values
       with_stdev_values_src with_stdev_values with_max_values
       with_min_values with_attrs attrs _last_submission _submission
       _values own _mean_values _mean_values_src _stdev_values
       _stdev_values_src _max_values _min_values _max_values_src
       _min_values_src].

Lemma Cumulative_step_total {B : Type} (hooks : @CumulativeHooks B)
    (J : B -> option Submission -> option Submission -> Prop)
    (ok : Submission -> Prop)
    (am asd : B -> option Submission -> option Submission -> result bool) :
  cumulative_contract hooks J ok am asd ->
  forall (self : Cumulative B) (s : Submission),
    buffers_ok self /\
    J (own (attrs self)) (_last_submission self) (_submission self) ->
    ok s ->
    exists self',
      Cumulative_new_submission hooks self s = Ok self'
      /\ buffers_ok self'
      /\ J (own (attrs self')) (_last_submission self') (_submission self').
Proof.
  intros (Hclear & Ham & Hasd & Hstep) self s [(Km & Ks & Kv) HJ] Hok.
  destruct (Hstep self s HJ Hok)
    as (v & self1 & bm & bs & E & Hseq & Hv & Em & Hbm & Es & Hbs & HJ').
  destruct Hseq as (Sv & _ & Sm & _ & Ss & _ & _).
  unfold Cumulative_new_submission, FeatureBase_new_submission.
  cbv zeta. rewrite E. cbn [bind]. rewrite Hclear. cbn [bind].
  rewrite Ham.
  proj. rewrite Em. cbn [bind].
  assert (Nm : forallb is_number
                 (if bm then _mean_values_src (attrs self) ++ [v]
                  else _mean_values_src (attrs self)) = true).
  { destruct bm; [apply forallb_snoc; auto | exact Km]. }
  assert (Ns : forallb is_number
                 (if bs then _stdev_values_src (attrs self) ++ [v]
                  else _stdev_values_src (attrs self)) = true).
  { destruct bs; [apply forallb_snoc; auto | exact Ks]. }
  assert (Nv : forallb null_or_number (_values self ++ [v]) = true).
  { apply forallb_snoc; assumption. }
  destruct bm; destruct bs;
    repeat (rewrite ?py_last_snoc; cbn [bind]; proj);
    (match goal with
     | |- context [emit_mean ?X] =>
         let m := fresh "m" in let Hm := fresh "Hm" in
         destruct (emit_mean_total X) as [m Hm];
           [proj; rewrite ?Sm; exact Nm |]; rewrite Hm; cbn [bind]
     end);
    rewrite Hasd; proj; rewrite Es; cbn [bind];
    repeat (rewrite ?py_last_snoc; cbn [bind]; proj);
    (match goal with
     | |- context [emit_stdev ?X] =>
         let sd := fresh "sd" in let Hsd := fresh "Hsd" in
         destruct (emit_stdev_total X) as [sd Hsd];
           [proj; rewrite ?Ss; exact Ns |]; rewrite Hsd; cbn [bind]
     end);
    proj; rewrite Sv;
    destruct (py_max_default_total _ Nv) as [mx ->];
    destruct (py_min_default_total _ Nv) as [mn ->];
    cbn [bind];
    (eexists; split; [reflexivity|]; split;
       [unfold buffers_ok; proj; rewrite ?Sm, ?Ss, ?Sv;
          repeat apply conj; assumption
       | proj; exact HJ']).
Qed.

Lemma cumulative_class_run_total {B : Type} (nm : string) (b : B)
    (hooks : @CumulativeHooks B)
    (J : B -> option Submission -> option Submission -> Prop)
    (ok : Submission -> Prop)
    (am asd : B -> option Submission -> option Submission -> result bool) :
  cumulative_contract hooks J ok am asd ->
  J b None None ->
  forall subs : list Submission,
    Forall ok subs ->
    is_Ok (run (cumulative_class nm b hooks)
             (init (cumulative_class nm b hooks)) subs) = true.
Proof.
  intros Hc HJ subs Hok.
  apply (run_total_inv (cumulative_class nm b hooks)
           (fun self : Cumulative B =>
              (buffers_ok self /\
               J (own (attrs self)) (_last_submission self)
                 (_submission self))%type) ok).
  - intros self s Hgood Hs.
    destruct (Cumulative_step_total _ _ _ _ _ Hc self s Hgood Hs)
      as (self' & E & K & HJ').
    exists self'. split; [exact E | split; assumption].
  - exact Hok.
  - split; [repeat apply conj; reflexivity | exact HJ].
Qed.

Ltac simple_hook_total :=
  let self := fresh "self" in
  let s := fresh "s" in
  let E := fresh "E" in
  intros self s E;
  match goal with
  | |- exists r, ?h self = Ok r => unfold h
  end;
  unfold the_submission; rewrite E; cbn [bind];
  repeat match goal with
         | |- context [match ?x with _ => _ end] => destruct x
         end;
  eauto.

Lemma SatisfiedConstraints_total :
  simple_total SatisfiedConstraints._submission_value.
Proof. simple_hook_total. Qed.

Lemma HelpLevel_total : simple_total HelpLevel._submission_value.
Proof. simple_hook_total. Qed.

Lemma DecreasedViolatedConstraints_total :
  simple_total DecreasedViolatedConstraints._submission_value.
Proof. simple_hook_total. Qed.


Lemma TimeSincePreviousSubmission_total :
  simple_total TimeSincePreviousSubmission._submission_value.
Proof.
  intros self s E. unfold TimeSincePreviousSubmission._submission_value,
    the_submission, sub_seconds. rewrite E.
  destruct (_last_submission self) as [l|]; [|eauto]. cbn [bind].
  destruct (isSome (begin_session s)); [eauto|].
  destruct (submit_time s), (submit_time l); eauto.
Qed.

Lemma ProblemTimeFromStart_total :
  simple_total ProblemTimeFromStart._submission_value.
Proof.
  intros self s E. unfold ProblemTimeFromStart._submission_value,
    the_submission, sub_seconds. rewrite E. cbn [bind]. cbv zeta.
  destruct (option_Z_eqb _ _).
  - destruct (submit_time s),
      (ProblemTimeFromStart._problem_start_time (attrs self)); eauto.
  - destruct (submit_time s), (begin_time s); eauto.
Qed.

Lemma SubmissionNumber_total :
  simple_total SubmissionNumber._submission_value.
Proof.
  intros self s E. unfold SubmissionNumber._submission_value,
    the_submission. rewrite E.
  destruct (_last_submission self); cbn [bind]; eauto.
Qed.

Lemma SubmissionTimeDifference_total :
  simple_total SubmissionTimeDifference._submission_value.
Proof.
  intros self s E. unfold SubmissionTimeDifference._submission_value,
    the_submission, sub_seconds. rewrite E.
  destruct (_last_submission self) as [l|]; [|eauto]. cbn [bind].
  destruct (submit_time s), (submit_time l); eauto.
Qed.

Lemma ProblemsAttemptedCumulative_total :
  simple_total ProblemsAttemptedCumulative._submission_value.
Proof.
  intros self s E. unfold ProblemsAttemptedCumulative._submission_value,
    the_submission. rewrite E. cbn [bind]. eauto.
Qed.

Lemma ProblemsCompletedCumulative_total :
  simple_total ProblemsCompletedCumulative._submission_value.
Proof.
  intros self s E. unfold ProblemsCompletedCumulative._submission_value,
    the_submission. rewrite E. cbn [bind]. eauto.
Qed.

Lemma DatabaseChangesCumulative_total :
  simple_total DatabaseChangesCumulative._submission_value.
Proof.
  intros self s E. unfold DatabaseChangesCumulative._submission_value,
    the_submission. rewrite E. cbn [bind]. eauto.
Qed.

Lemma StudentLevel_update_total (LOOKUP : lookup_table) (s : Submission)
    (a : StudentLevel.own_attrs) :
  exists a', StudentLevel.update LOOKUP s a = Ok a'.
Proof.
  unfold StudentLevel.update.
  destruct (negb (option_Z_eqb (StudentLevel._current_prob_id a)
                    (problem_id s))
            && LOOKUP_contains LOOKUP (problem_id s)) eqn:C.
  - apply andb_prop in C. destruct C as [_ C].
    unfold LOOKUP_contains in C. unfold LOOKUP_get.
    destruct (problem_id s) as [k|]; [|discriminate C].
    destruct (LOOKUP k); [|discriminate C]. cbn [bind]. eauto.
  - cbn [bind]. eauto.
Qed.

Lemma StudentLevel_total (LOOKUP : lookup_table) :
  simple_total (StudentLevel._submission_value LOOKUP).
Proof.
  intros self s E. unfold StudentLevel._submission_value, the_submission.
  rewrite E. cbn [bind].
  destruct (StudentLevel_update_total LOOKUP s (attrs self)) as [a' ->].
  cbn [bind]. eauto.
Qed.

Lemma StudentLevelComplexityDifference_total (LOOKUP : lookup_table) :
  simple_total (StudentLevelComplexityDifference._submission_value LOOKUP).
Proof.
  intros self s E.
  unfold StudentLevelComplexityDifference._submission_value,
    StudentLevel._submission_value, the_submission.
  rewrite E. cbn [bind].
  destruct (StudentLevel_update_total LOOKUP s (attrs self)) as [a' ->].
  cbn [bind]. eauto.
Qed.

Lemma IdenticalSubmission_total :
  simple_total IdenticalSubmission._submission_value.
Proof.
  intros self s E. unfold IdenticalSubmission._submission_value.
  rewrite E. destruct (_last_submission self); eauto.
Qed.

Ltac contract_case :=
  do 4 eexists;
  (split; [reflexivity|]);
  (split; [repeat apply conj; reflexivity|]);
  (split; [reflexivity|]);
  proj.

Ltac projs :=
  cbn [shift_submission with_last_submission with_own
       append_value with_mean_values_src with_mean_values
       with_stdev_values_src with_stdev_values with_max_values
       with_min_values with_attrs attrs _last_submission _submission
       _values own _mean_values _mean_values_src _stdev_values
       _stdev_values_src _max_values _min_values _max_values_src
       _min_values_src].






Ltac implication :=
  first [ intros _; reflexivity
        | intros _; split; reflexivity
        | (let H := fresh in intros H; discriminate H) ].



Lemma TimeUntilFirstSubmission_contract :
  exists am,
    cumulative_contract TimeUntilFirstSubmission.hooks
      (fun a _ _ =>
         forall f,
           TimeUntilFirstSubmission._current_prob_first_submission a
           = Some f ->
           isSome (submit_time f) = true)
      (fun s => isSome (submit_time s) = true) am am.
Proof.
  exists (fun (a : TimeUntilFirstSubmission.own_attrs)
              (_ _ : option Submission) =>
            Ok (isSome (TimeUntilFirstSubmission._current_prob_id a)
                && match TimeUntilFirstSubmission
                         ._current_prob_first_submission a with
                   | Some f => isSome (begin_time f)
                   | None => false
                   end)).
  repeat apply conj; try (intros self; reflexivity).
  intros self s HJ Hs.
  cbn [TimeUntilFirstSubmission.hooks h_submission_value].
  unfold TimeUntilFirstSubmission._submission_value, the_submission.
  cbn [shift_submission _submission _last_submission bind]. projs.
  cbv zeta.
  destruct (own (attrs self)) as [cid first].
  cbn [TimeUntilFirstSubmission._current_prob_id
       TimeUntilFirstSubmission._current_prob_first_submission] in *.
  destruct (negb (option_Z_eqb cid (problem_id s))
            && isSome (problem_id s)) eqn:C.
  - apply andb_prop in C. destruct C as [_ C].
    destruct (problem_id s) as [p|]; [|discriminate C].
    cbn [TimeUntilFirstSubmission._current_prob_first_submission].
    destruct (submit_time s) as [t|] eqn:Et; [|discriminate Hs].
    destruct (begin_time s) as [b|] eqn:Eb;
      cbn [sub_seconds bind];
      contract_case; projs;
      cbn [TimeUntilFirstSubmission._current_prob_id
           TimeUntilFirstSubmission._current_prob_first_submission
           isSome andb];
      rewrite ?Eb; cbn [isSome];
      (split; [reflexivity|]); (split; [implication|]);
      (split; [reflexivity|]); (split; [implication|]);
      intros f Hf; injection Hf as <-; rewrite Et; reflexivity.
  - destruct first as [f|].
    + pose proof (HJ f eq_refl) as Hf.
      cbn [TimeUntilFirstSubmission._current_prob_first_submission].
      destruct (submit_time f) as [t|] eqn:Et; [|discriminate Hf].
      destruct cid as [c|];
        destruct (begin_time f) as [b|] eqn:Eb;
        cbn [sub_seconds bind];
        contract_case; projs;
        cbn [TimeUntilFirstSubmission._current_prob_id
             TimeUntilFirstSubmission._current_prob_first_submission
             isSome andb];
        rewrite ?Eb; cbn [isSome];
        (split; [reflexivity|]); (split; [implication|]);
        (split; [reflexivity|]); (split; [implication|]);
        exact HJ.
    + contract_case; projs;
        cbn [TimeUntilFirstSubmission._current_prob_id
             TimeUntilFirstSubmission._current_prob_first_submission];
        rewrite Bool.andb_false_r;
        (split; [reflexivity|]); (split; [implication|]);
        (split; [reflexivity|]); (split; [implication|]);
        exact HJ.
Qed.

(** ** When [build_features] returns *)











(** X18.  The thirteen extractors that derive directly from
    [FeatureBase], other than [SessionTimeFromStart], return on every
    sequence of submissions. *)
Theorem simple_extractors_never_raise (LOOKUP : lookup_table) :
  Forall (fun c : Feature =>
            forall subs : list Submission,
              is_Ok (run c (init c) subs) = true)
    [ SatisfiedConstraints.cls; HelpLevel.cls;
      DecreasedViolatedConstraints.cls; TimeSincePreviousSubmission.cls;
      ProblemTimeFromStart.cls; SubmissionNumber.cls;
      SubmissionTimeDifference.cls; ProblemsAttemptedCumulative.cls;
      ProblemsCompletedCumulative.cls; DatabaseChangesCumulative.cls;
      StudentLevel.cls LOOKUP;
      StudentLevelComplexityDifference.cls LOOKUP;
      IdenticalSubmission.cls ].
Proof.
  repeat apply Forall_cons; try apply Forall_nil; intros subs;
    apply simple_class_run_total.
  - exact SatisfiedConstraints_total.
  - exact HelpLevel_total.
  - exact DecreasedViolatedConstraints_total.
  - exact TimeSincePreviousSubmission_total.
  - exact ProblemTimeFromStart_total.
  - exact SubmissionNumber_total.
  - exact SubmissionTimeDifference_total.
  - exact ProblemsAttemptedCumulative_total.
  - exact ProblemsCompletedCumulative_total.
  - exact DatabaseChangesCumulative_total.
  - exact (StudentLevel_total LOOKUP).
  - exact (StudentLevelComplexityDifference_total LOOKUP).
  - exact IdenticalSubmission_total.
Qed.






Lemma TimeUntilFirstSubmission_run_total (subs : list Submission) :
  Forall (fun s => submit_time s <> None) subs ->
  is_Ok (run TimeUntilFirstSubmission.cls
           (init TimeUntilFirstSubmission.cls) subs) = true.
Proof.
  intros H.
  destruct TimeUntilFirstSubmission_contract as [am Hc].
  apply (cumulative_class_run_total _ _ _ _ _ _ _ Hc).
  - intros f Hf. discriminate Hf.
  - apply Forall_forall. intros s Hs.
    rewrite Forall_forall in H. specialize (H s Hs).
    destruct (submit_time s); [reflexivity | contradiction].
Qed.


(** X20.  [TimeUntilFirstSubmission] returns on every sequence of
    submissions that all have a submit time; these are the submissions
    the state machine emits. *)
Theorem time_until_first_submission_returns (subs : list Submission) :
  Forall (fun s => submit_time s <> None) subs ->
  is_Ok (run TimeUntilFirstSubmission.cls
           (init TimeUntilFirstSubmission.cls) subs) = true.
Proof. apply TimeUntilFirstSubmission_run_total. Qed.

Lemma time_until_first_submission_returns_witness :
  is_Ok (run TimeUntilFirstSubmission.cls
           (init TimeUntilFirstSubmission.cls)
           (events_to_submissions example_events)) = true.
Proof.
  apply (time_until_first_submission_returns
           (events_to_submissions example_events)).
  vm_compute.
  repeat (apply Forall_cons; [intros H; discriminate H|]).
  apply Forall_nil.
Defined.








(** ** Cells guarded by an assertion *)

Lemma simple_class_cells_inv {A : Type} (nm : string) (a : A)
    (hook : @submission_value_hook A) (Q : value -> bool) :
  (forall self s v self',
      _submission self = Some s -> hook self = Ok (v, self') ->
      Q v = true /\ _values self' = _values self) ->
  forall (subs : list Submission) (self st : FeatureBase A),
    forallb Q (_values self) = true ->
    run (simple_class nm a hook) self subs = Ok st ->
    forallb Q (_values st) = true.
Proof.
  intros Hh. induction subs as [|s rest IH]; intros self st HQ H.
  - inversion H; subst. exact HQ.
  - cbn [run] in H.
    change (new_submission (simple_class nm a hook) self s)
      with (FeatureBase_new_submission hook self s) in H.
    unfold FeatureBase_new_submission in H. cbv zeta in H.
    destruct (hook (shift_submission self s)) as [[v self1]|e1] eqn:E1;
      cbn [bind] in H; [|discriminate H].
    destruct (Hh (shift_submission self s) s v self1 eq_refl E1)
      as [Hv Hs].
    apply (IH (append_value v self1) st); [|exact H].
    cbn [append_value _values]. rewrite Hs.
    apply forallb_snoc; assumption.
Qed.

Lemma prev_class_cells_inv {B : Type} (nm : string) (b : B)
    (hook : @submission_value_hook (PrevAttrs B)) (Q : value -> bool) :
  Q VNone = true ->
  (forall self v self',
      _prev_prob_submissions (attrs self) <> [] ->
      hook self = Ok (v, self') ->
      Q v = true /\ _values self' = _values self) ->
  forall (subs : list Submission) (self st : PreviousProblem B),
    forallb Q (_values self) = true ->
    run (prev_class nm b hook) self subs = Ok st ->
    forallb Q (_values st) = true.
Proof.
  intros HN Hh. induction subs as [|s rest IH]; intros self st HQ H.
  - inversion H; subst. exact HQ.
  - cbn [run] in H.
    change (new_submission (prev_class nm b hook) self s)
      with (PreviousProblem_new_submission hook self s) in H.
    unfold PreviousProblem_new_submission in H. cbv zeta in H.
    match type of H with
    | context [if ?c then _ else _] => destruct c eqn:G
    end.
    + cbn [bind] in H. refine (IH _ st _ H).
      cbn [append_value with_attrs shift_submission _values].
      apply forallb_snoc; assumption.
    + match type of H with
      | context [hook ?x] =>
          destruct (hook x) as [[v self1]|e1] eqn:E1
      end; cbn [bind] in H; [|discriminate H].
      match type of E1 with
      | hook ?x = _ =>
          assert (Hp : _prev_prob_submissions (attrs x) <> [])
      end.
      { intros N. cbn [with_attrs attrs] in N. rewrite N in G.
        discriminate G. }
      destruct (Hh _ v self1 Hp E1) as [Hv Hs].
      refine (IH _ st _ H).
      cbn [append_value _values]. rewrite Hs.
      cbn [with_attrs shift_submission _values].
      apply forallb_snoc; assumption.
Qed.

(** X23.  Whenever [SessionTimeFromStart], [LatestSubmissionTime] or
    [TimeSinceSessionStartPrev] returns, each of its cells is null or a
    number of seconds that is not negative. *)
Theorem asserted_times_never_negative (subs : list Submission) :
  (forall st,
      run SessionTimeFromStart.cls (init SessionTimeFromStart.cls) subs
      = Ok st ->
      forallb nonneg_cell (_values st) = true)
  /\ (forall st,
         run LatestSubmissionTime.cls (init LatestSubmissionTime.cls) subs
         = Ok st ->
         forallb nonneg_cell (_values st) = true)
  /\ (forall st,
         run TimeSinceSessionStartPrev.cls
           (init TimeSinceSessionStartPrev.cls) subs = Ok st ->
         forallb nonneg_cell (_values st) = true).
Proof.
  repeat apply conj; intros st.
  - apply (simple_class_cells_inv "session_time_from_start" None
             SessionTimeFromStart._submission_value nonneg_cell);
      [|reflexivity].
    clear. intros self s v self' E.
    unfold SessionTimeFromStart._submission_value, the_submission,
      sub_seconds.
    rewrite E. cbn [bind].
    destruct (begin_session s); cbn [with_attrs attrs];
      destruct (submit_time s);
      try (destruct (attrs self));
      try (match goal with
           | |- context [if ?c then _ else _] => destruct c eqn:C
           end);
      intros H; inversion H; subst; split; try reflexivity; exact C.
  - apply (prev_class_cells_inv "prev_latest_submission_time" tt
             LatestSubmissionTime._submission_value nonneg_cell);
      [reflexivity| |reflexivity].
    clear. intros self v self' Hp.
    unfold LatestSubmissionTime._submission_value.
    destruct (py_last_nonempty _ Hp) as [x ->]. cbn [bind].
    destruct (submit_time x) as [t|], (begin_time x) as [b|];
      try (intros H; inversion H; subst; split; reflexivity).
    destruct (dt_seconds b <=? dt_seconds t) eqn:C;
      intros H; inversion H; subst. split; [|reflexivity].
    unfold nonneg_cell, total_seconds.
    apply Z.leb_le in C. apply Z.leb_le. lia.
  - apply (prev_class_cells_inv "prev_time_since_session_start" None
             TimeSinceSessionStartPrev._submission_value nonneg_cell);
      [reflexivity| |reflexivity].
    clear. intros self v self' Hp.
    unfold TimeSinceSessionStartPrev._submission_value. cbv zeta.
    destruct (py_first_nonempty _ Hp) as [x ->]. cbn [bind].
    destruct (begin_time x);
      [|intros H; inversion H; subst; split; reflexivity].
    unfold sub_seconds.
    match goal with
    | |- context [fold_left ?f ?l ?a] => destruct (fold_left f l a)
    end; cbn [bind]; [|discriminate].
    match goal with
    | |- context [if ?c then _ else _] => destruct c eqn:C
    end; intros H; inversion H; subst. split; [exact C | reflexivity].
Qed.

Lemma asserted_times_never_negative_witness :
  exists st,
    run SessionTimeFromStart.cls (init SessionTimeFromStart.cls)
      (consumed (events_to_submissions example_events)) = Ok st
    /\ forallb nonneg_cell (_values st) = true.
Proof.
  destruct (run SessionTimeFromStart.cls (init SessionTimeFromStart.cls)
              (consumed (events_to_submissions example_events)))
    as [st|e] eqn:E.
  - exists st. split; [reflexivity|].
    exact (proj1 (asserted_times_never_negative
                    (consumed (events_to_submissions example_events)))
             st E).
  - exfalso. vm_compute in E. discriminate E.
Defined.
